(** * SIRAH-Tools-GUI: the job orchestration of the analysis, contacts and
      backmapping tabs

    A shallow embedding of [modules/analysis_tab.py], and of the parts of
    [modules/contacts_tab.py] and [modules/backmapping_tab.py] that validate
    input, guard existing output files, start VMD and stop it.

    Strings are Rocq strings (sequences of bytes); the Python string
    operations are modelled on ASCII text.  The file system is a finite map
    from paths to nodes.  The Tk main loop is a FIFO queue of callbacks
    ([root.after(0, f)]); dialogs, log records and process signals are
    recorded in the order the code issues them. *)

From Stdlib Require Import ZArith NArith String Ascii List Bool Lia DecimalString.
From stdpp Require Import base option gmap strings list.

Local Open Scope string_scope.
Local Open Scope list_scope.

(** ** Python built-ins used by the tabs *)
Module Py.

(** [str.isspace] on ASCII: TAB..CR, FS..US and the space. *)
Definition is_space (c : ascii) : bool :=
  let n := N_of_ascii c in
  (((9 <=? n) && (n <=? 13)) || ((28 <=? n) && (n <=? 32)))%N.

Definition is_digit (c : ascii) : bool :=
  let n := N_of_ascii c in ((48 <=? n) && (n <=? 57))%N.

Definition digit_val (c : ascii) : N := (N_of_ascii c - 48)%N.

Fixpoint lstrip (s : string) : string :=
  match s with
  | String c s' => if is_space c then lstrip s' else s
  | EmptyString => EmptyString
  end.

Fixpoint rstrip (s : string) : string :=
  match s with
  | EmptyString => EmptyString
  | String c s' =>
      match rstrip s' with
      | EmptyString => if is_space c then EmptyString else String c EmptyString
      | r => String c r
      end
  end.

(** [s.strip()] *)
Definition strip (s : string) : string := rstrip (lstrip s).

(** [s.replace(" ", r)] *)
Fixpoint replace_space (r s : string) : string :=
  match s with
  | EmptyString => EmptyString
  | String c s' =>
      if Ascii.eqb c " " then r +:+ replace_space r s'
      else String c (replace_space r s')
  end.

(** Truth value of a string: [if s:] holds when [s] is not empty. *)
Definition truthy (s : string) : bool :=
  match s with EmptyString => false | _ => true end.

(** [str(n)] for an integer. *)
Definition str (z : Z) : string := NilZero.string_of_int (Z.to_int z).

(** [sep.join(l)] *)
Fixpoint join (sep : string) (l : list string) : string :=
  match l with
  | [] => ""
  | [x] => x
  | x :: l' => x +:+ sep +:+ join sep l'
  end.

Definition starts_with_slash (s : string) : bool :=
  match s with String "/" _ => true | _ => false end.

Fixpoint ends_with_slash (s : string) : bool :=
  match s with
  | EmptyString => false
  | String c EmptyString => Ascii.eqb c "/"
  | String _ s' => ends_with_slash s'
  end.

(** [os.path.join(a, b)] of [posixpath]. *)
Definition path_join (a b : string) : string :=
  if starts_with_slash b then b
  else if truthy a && negb (ends_with_slash a) then a +:+ "/" +:+ b
  else a +:+ b.

(** [os.path.basename(p)]: what follows the last slash. *)
Fixpoint basename_aux (acc s : string) : string :=
  match s with
  | EmptyString => acc
  | String c s' =>
      if Ascii.eqb c "/" then basename_aux "" s'
      else basename_aux (acc +:+ String c "") s'
  end.

Definition basename (p : string) : string := basename_aux "" p.

(** [s.isdigit()] on ASCII: not empty, decimal digits only. *)
Fixpoint all_digits (s : string) : bool :=
  match s with
  | EmptyString => true
  | String c s' => is_digit c && all_digits s'
  end.

Definition isdigit (s : string) : bool := truthy s && all_digits s.

Fixpoint int_aux (acc : N) (s : string) : N :=
  match s with
  | EmptyString => acc
  | String c s' => int_aux (10 * acc + digit_val c) s'
  end.

(** [int(s)] for a string that passed [isdigit]. *)
Definition int (s : string) : Z := Z.of_N (int_aux 0 s).

(** *** [float(s)]

    The value of a decimal literal is kept exactly, as
    [(-1)^neg * mantissa * 10^exp10]; rounding to a double is not
    modelled. *)
Inductive pyfloat :=
| Finite (neg : bool) (mantissa : N) (exp10 : Z)
| Infinity (neg : bool)
| NaN.

(** After a first digit: [digit | "_" digit]*.  Returns the value read,
    the number of digits and what is left. *)
Fixpoint digits_tail (s : string) (acc : N) (cnt : N) : N * N * string :=
  match s with
  | String c s' =>
      if is_digit c then digits_tail s' (10 * acc + digit_val c)%N (cnt + 1)%N
      else if Ascii.eqb c "_" then
        match s' with
        | String d s'' =>
            if is_digit d
            then digits_tail s'' (10 * acc + digit_val d)%N (cnt + 1)%N
            else (acc, cnt, s)
        | EmptyString => (acc, cnt, s)
        end
      else (acc, cnt, s)
  | EmptyString => (acc, cnt, s)
  end.

Definition digitpart (s : string) : option (N * N * string) :=
  match s with
  | String c s' =>
      if is_digit c then Some (digits_tail s' (digit_val c) 1%N) else None
  | EmptyString => None
  end.

(** [[digitpart] "." digitpart | digitpart ["."]]: mantissa, number of
    fraction digits, rest. *)
Definition number (s : string) : option (N * N * string) :=
  match digitpart s with
  | Some (i, _, r) =>
      match r with
      | String "." r' =>
          match digitpart r' with
          | Some (f, k, r'') => Some ((i * 10 ^ k + f)%N, k, r'')
          | None => Some (i, 0%N, r')
          end
      | _ => Some (i, 0%N, r)
      end
  | None =>
      match s with
      | String "." r' =>
          match digitpart r' with
          | Some (f, k, r'') => Some (f, k, r'')
          | None => None
          end
      | _ => None
      end
  end.

Definition sign (s : string) : bool * string :=
  match s with
  | String "-" s' => (true, s')
  | String "+" s' => (false, s')
  | _ => (false, s)
  end.

(** [("e" | "E") [sign] digitpart], or nothing; the literal ends there. *)
Definition exponent (s : string) : option Z :=
  match s with
  | EmptyString => Some 0%Z
  | String c s' =>
      if Ascii.eqb c "e" || Ascii.eqb c "E" then
        let '(neg, s'') := sign s' in
        match digitpart s'' with
        | Some (e, _, EmptyString) =>
            Some (if neg then (- Z.of_N e)%Z else Z.of_N e)
        | _ => None
        end
      else None
  end.

Definition lower (c : ascii) : ascii :=
  let n := N_of_ascii c in
  if ((65 <=? n) && (n <=? 90))%N then ascii_of_N (n + 32) else c.

Fixpoint lowercase (s : string) : string :=
  match s with
  | EmptyString => EmptyString
  | String c s' => String (lower c) (lowercase s')
  end.

(** [float(s)]: [None] stands for [ValueError]. *)
Definition float (s : string) : option pyfloat :=
  let '(neg, body) := sign (strip s) in
  let l := lowercase body in
  if String.eqb l "inf" || String.eqb l "infinity" then Some (Infinity neg)
  else if String.eqb l "nan" then Some NaN
  else
    match number body with
    | Some (m, k, r) =>
        match exponent r with
        | Some e => Some (Finite neg m (e - Z.of_N k))
        | None => None
        end
    | None => None
    end.

Definition positive (f : pyfloat) : bool :=
  match f with
  | Finite false m _ => (0 <? m)%N
  | Infinity false => true
  | _ => false
  end.

End Py.


(** ** The world the worker thread acts on *)

Definition nl : string := String (ascii_of_nat 10) "".

Inductive wstate := normal | disabled.

(** A node of the file system: a directory, or a file with its lines. *)
Inductive node := Dir | File (lines : list string).

(** What the code hands to the Tk main loop with [root.after(0, f)], or
    calls itself when it runs on the main loop. *)
Inductive callback :=
| showerror (title message : string)
| showwarning (title message : string)
| showinfo (title message : string)
| askyesno (title message : string)
| analyze_button_config (s : wstate)
| stop_button_config (s : wstate)
| progress_window_destroy
| reference_file_label_config (text : string)
| insert_text (output : string)
| run_analysis_successful_set
| unbound_exception_lambda (title : string).
(** [unbound_exception_lambda]: a [lambda] that formats the variable [e] of
    an [except ... as e] clause after the clause has ended; the name is
    unbound by then and the call fails on the main loop without a dialog. *)

Inductive event :=
| After (cb : callback)          (** [state.root.after(0, cb)] *)
| Direct (cb : callback)         (** a Tk call made by the running thread *)
| Popen (argv : list string)     (** [subprocess.Popen(argv, ...)] *)
| Plot (data_file : string)      (** a plot function is entered *)
| Mark (text : string)           (** [mark_analysis_completed] is entered *)
| PostProcess                    (** [post_process_analysis] is entered *)
| Report (pdf_filename : string) (** [generate_pdf] is entered *).

(** How the calls of [generate_pdf] into fpdf end. *)
Inductive outcome :=
| completes
| raises_inside    (** in the [try] block of the function *)
| raises_outside   (** in the three calls before that block: the caller sees it *).

Record Env := mkEnv {
  script_dir : string;                (** [<install dir>/TCL] *)
  vmd_on_path : bool;                 (** [Popen] finds the [vmd] executable *)
  renders : string -> nat -> bool;    (** [renders d n]: figure number [n] of the
                                          data file [d] is drawn without an
                                          exception of pandas or matplotlib;
                                          reading the file belongs to figure 0 *)
  marks : string -> bool;             (** the widget calls of
                                          [mark_analysis_completed] succeed *)
  assembles : outcome                 (** assembling the PDF *)
}.

(** *** Statements: state (the file system), output (the events issued),
    [return] and exceptions *)

Inductive res (A : Type) :=
| Normal (a : A)
| Returned                 (** a [return] statement was reached *)
| Raised (e : string)      (** an exception is propagating *).
Arguments Normal {A} a.
Arguments Returned {A}.
Arguments Raised {A} e.

Record run (A : Type) := mkRun {
  result : res A;
  disk : gmap string node;      (** the file system afterwards *)
  events : list event           (** what was issued, oldest first *)
}.
Arguments mkRun {A}.
Arguments result {A}.
Arguments disk {A}.
Arguments events {A}.

Definition M (A : Type) : Type := gmap string node -> run A.

Definition ret {A} (a : A) : M A := fun f => mkRun (Normal a) f [].

(** The same run, after the events [evs]. *)
Definition prepend {A} (evs : list event) (r : run A) : run A :=
  mkRun (result r) (disk r) (evs ++ events r).

Definition bind {A B} (m : M A) (k : A -> M B) : M B :=
  fun f =>
    let r := m f in
    match result r with
    | Normal a => prepend (events r) (k a (disk r))
    | Returned => mkRun Returned (disk r) (events r)
    | Raised e => mkRun (Raised e) (disk r) (events r)
    end.

Notation "'do' x <- m ; k" := (bind m (fun x => k))
  (at level 10, x name, m at level 100, k at level 200).
Notation "m ;; k" := (bind m (fun _ => k))
  (at level 100, k at level 200, right associativity).

Definition return_ {A} : M A := fun f => mkRun Returned f [].
Definition raise {A} (e : string) : M A := fun f => mkRun (Raised e) f [].

(** A call: the callee's [return] ends the callee only. *)
Definition call (m : M unit) : M unit :=
  fun f =>
    let r := m f in
    match result r with
    | Returned => mkRun (Normal tt) (disk r) (events r)
    | _ => r
    end.

(** [try: m  except Exception as e: h e] *)
Definition try_except {A} (m : M A) (h : string -> M A) : M A :=
  fun f =>
    let r := m f in
    match result r with
    | Raised e => prepend (events r) (h e (disk r))
    | _ => r
    end.

(** [try: m  finally: c] *)
Definition try_finally {A} (m : M A) (c : M unit) : M A :=
  fun f =>
    let r := m f in
    let r' := c (disk r) in
    mkRun (match result r' with
           | Normal _ => result r
           | Returned => Returned
           | Raised e => Raised e
           end)
          (disk r') (events r ++ events r').

Definition when (b : bool) (m : M unit) : M unit := if b then m else ret tt.

Definition tell (e : event) : M unit := fun f => mkRun (Normal tt) f [e].
Definition after (cb : callback) : M unit := tell (After cb).

Definition on_disk (f : gmap string node) (p : string) : bool :=
  bool_decide (is_Some (f !! p)).

(** [os.path.exists(p)] *)
Definition path_exists (p : string) : M bool :=
  fun f => mkRun (Normal (on_disk f p)) f [].

(** [os.makedirs(p, exist_ok=True)]; [FileExistsError] when [p] is a file. *)
Definition makedirs (p : string) : M unit :=
  fun f =>
    match f !! p with
    | None => mkRun (Normal tt) (<[p := Dir]> f) []
    | Some Dir => mkRun (Normal tt) f []
    | Some (File _) => mkRun (Raised "FileExistsError") f []
    end.

(** Opening a file for appending; [IsADirectoryError] on a directory. *)
Definition open_append (p : string) : M unit :=
  fun f =>
    match f !! p with
    | None => mkRun (Normal tt) (<[p := File []]> f) []
    | Some (File _) => mkRun (Normal tt) f []
    | Some Dir => mkRun (Raised "IsADirectoryError") f []
    end.

Definition lines_of (n : option node) : list string :=
  match n with Some (File ls) => ls | _ => [] end.

(** Writing one more line to a file opened for appending. *)
Definition append_line (p line : string) : M unit :=
  fun f =>
    match f !! p with
    | Some Dir => mkRun (Raised "IsADirectoryError") f []
    | n => mkRun (Normal tt) (<[p := File (lines_of n ++ [line])]> f) []
    end.

(** Writing a whole file; [IsADirectoryError] on a directory. *)
Definition write_file (p : string) (ls : list string) : M unit :=
  fun f =>
    match f !! p with
    | Some Dir => mkRun (Raised "IsADirectoryError") f []
    | _ => mkRun (Normal tt) (<[p := File ls]> f) []
    end.

Definition read_file (p : string) : M (list string) :=
  fun f =>
    match f !! p with
    | Some (File ls) => mkRun (Normal ls) f []
    | _ => mkRun (Raised "FileNotFoundError") f []
    end.

(** Truth value of an attribute that holds a path or [None]. *)
Definition is_set (o : option string) : bool :=
  match o with Some s => Py.truthy s | None => false end.

(** *** The child process, as [subprocess.Popen] shows it

    [sigterm_exit] is the number of seconds the program needs to exit once
    it has received SIGTERM, [None] when it ignores the signal.  A child
    that is waited for does not end on its own within the time-out: it is
    a run that is being stopped. *)

Inductive signal := SIGTERM | SIGKILL.

Record Child := mkChild {
  sigterm_exit : option nat;
  received : list signal;       (** oldest first *)
  running : bool
}.

(** [Popen.terminate()] *)
Definition terminate (c : Child) : Child :=
  if running c then mkChild (sigterm_exit c) (received c ++ [SIGTERM]) true else c.

(** [Popen.kill()] *)
Definition kill (c : Child) : Child :=
  if running c then mkChild (sigterm_exit c) (received c ++ [SIGKILL]) false else c.

Definition got_sigterm (l : list signal) : bool :=
  existsb (fun s => match s with SIGTERM => true | SIGKILL => false end) l.

(** [Popen.wait(timeout=t)]: [true] when the child has exited in time,
    [false] for [subprocess.TimeoutExpired]. *)
Definition wait_timeout (t : nat) (c : Child) : bool * Child :=
  if running c then
    match sigterm_exit c with
    | Some d =>
        if got_sigterm (received c) && (d <=? t)%nat
        then (true, mkChild (sigterm_exit c) (received c) false)
        else (false, c)
    | None => (false, c)
    end
  else (true, c).

(** ** [modules/analysis_tab.py] *)
Module Analysis.

(** The [IntVar]s behind the checkbuttons hold 0 or 1. *)
Record Vars := mkVars {
  rmsd_var : bool;
  rmsf_var : bool;
  rgyr_var : bool;
  sasa_var : bool;
  nativec_var : bool;
  rdf_var : bool;
  contact_surface_var : bool;
  report_var : bool;
  rmsf2pdbeta_var : bool
}.

(** An entry with a placeholder. *)
Record Entry := mkEntry {
  get : string;
  placeholder_active : bool
}.

(** The attributes of [state] that the worker thread reads. *)
Record State := mkState {
  working_directory : option string;
  topology_file : option string;
  trajectory_file : option string;
  reference_file : option string;
  time_step : string;
  steps_between_frames : string;
  atom_selection1 : Entry;
  atom_selection2 : Entry;
  atom_selection3 : Entry;
  skip_entry : string;
  sasa_rp_entry : string;
  vars : Vars;
  progress_window : bool     (** the attribute holds a window *)
}.

(** *** Logging to [Analysis/analysis.log]

    A record is the level and the message; the time stamp is left out. *)

Definition get_analysis_logger (working_directory : option string) : M string :=
  match working_directory with
  | None => raise "TypeError"
  | Some wd =>
      let log_dir := Py.path_join wd "Analysis" in
      makedirs log_dir ;;
      let log_path := Py.path_join log_dir "analysis.log" in
      open_append log_path ;;
      ret log_path
  end.

Definition info (logger msg : string) : M unit :=
  append_line logger ("INFO - " +:+ msg).
Definition warning (logger msg : string) : M unit :=
  append_line logger ("WARNING - " +:+ msg).
Definition error (logger msg : string) : M unit :=
  append_line logger ("ERROR - " +:+ msg).
(** [logger.exception]: an ERROR record (the traceback is left out). *)
Definition exception (logger msg : string) : M unit :=
  append_line logger ("ERROR - " +:+ msg).

(** *** The selections and their fall-back (lines 629-676) *)

Definition basic_analysis_selected (v : Vars) : bool :=
  rmsd_var v || rmsf_var v || rgyr_var v.

Definition advanced_analysis_selected (v : Vars) : bool :=
  sasa_var v || nativec_var v || rdf_var v || contact_surface_var v.

(** What a rejected input does before [return]: the dialog scheduled and
    the log record. *)
Inductive rejection :=
| reject_error (message log : string)
| reject_warning (message log : string).

Definition validate_selections (v : Vars) (selection1 selection2 selection3 : string)
  : rejection + (string * string * string) :=
  let basic := basic_analysis_selected v in
  let advanced := advanced_analysis_selected v in
  if basic && negb advanced then
    if negb (Py.truthy selection1) then
      inl (reject_error "Please enter a valid atom selection for Basic Analysis."
                        "Invalid selection for Basic Analysis.")
    else inr (selection1, selection1, selection1)
  else if advanced && negb basic then
    if negb (Py.truthy selection2) then
      inl (reject_error
             "Please enter a valid atom selection for Advanced Analysis (Selection 2)."
             "Invalid Selection 2 for Advanced Analysis.")
    else
      let selection1 := selection2 in
      if negb (Py.truthy selection3) then inr (selection1, selection2, selection2)
      else inr (selection1, selection2, selection3)
  else if basic && advanced then
    if negb (Py.truthy selection1) then
      inl (reject_error
             "Please enter a valid atom selection for Basic Analysis (Selection 1)."
             "Invalid selection for Basic Analysis.")
    else if negb (Py.truthy selection2) then
      inl (reject_error
             "Please enter a valid atom selection for Advanced Analysis (Selection 2)."
             "Invalid Selection 2 for Advanced Analysis.")
    else if negb (Py.truthy selection3) then inr (selection1, selection2, selection2)
    else inr (selection1, selection2, selection3)
  else
    inl (reject_warning
           "No analyses selected. Please select at least one analysis option."
           "No analysis options selected.").

(** *** The analysis code (lines 691-705) *)

Definition analysis_code (v : Vars) : Z :=
  let analysis_code := 0%Z in
  let analysis_code := if rmsd_var v then (analysis_code + 1)%Z else analysis_code in
  let analysis_code := if rmsf_var v then (analysis_code + 2)%Z else analysis_code in
  let analysis_code := if rgyr_var v then (analysis_code + 4)%Z else analysis_code in
  let analysis_code := if sasa_var v then (analysis_code + 8)%Z else analysis_code in
  let analysis_code := if nativec_var v then (analysis_code + 16)%Z else analysis_code in
  let analysis_code := if rdf_var v then (analysis_code + 32)%Z else analysis_code in
  let analysis_code := if contact_surface_var v then (analysis_code + 64)%Z else analysis_code in
  analysis_code.

(** *** The files the overwrite prompt looks for (lines 710-741) *)

Definition expected_files (v : Vars)
    (analysis_dir selection1_clean selection2_clean selection3_clean : string)
  : list string :=
  let j := Py.path_join analysis_dir in
  let s23 := selection2_clean +:+ "_" +:+ selection3_clean in
  let expected_files := [] in
  let expected_files :=
    if rmsd_var v then
      expected_files ++ [j ("RMSD_" +:+ selection1_clean +:+ ".dat");
                         j ("RMSD_" +:+ selection1_clean +:+ ".png")]
    else expected_files in
  let expected_files :=
    if rmsf_var v then
      expected_files ++ [j ("RMSF_" +:+ selection1_clean +:+ ".dat");
                         j ("RMSF_" +:+ selection1_clean +:+ ".png")]
    else expected_files in
  let expected_files :=
    if rgyr_var v then
      expected_files ++ [j ("RGYR_" +:+ selection1_clean +:+ ".dat");
                         j ("RGYR_" +:+ selection1_clean +:+ ".png")]
    else expected_files in
  let expected_files :=
    if sasa_var v then
      expected_files ++ [j ("SASA_" +:+ s23 +:+ ".dat");
                         j ("SASA_" +:+ s23 +:+ ".png")]
    else expected_files in
  let expected_files :=
    if nativec_var v then
      expected_files ++ [j ("distance_" +:+ s23 +:+ ".dat");
                         j ("Distance_" +:+ s23 +:+ ".png")]
    else expected_files in
  let expected_files :=
    if rdf_var v then
      expected_files ++ [j ("rdf_" +:+ s23 +:+ ".dat");
                         j ("rdf_" +:+ s23 +:+ "_g.png");
                         j ("rdf_" +:+ s23 +:+ "_integral.png")]
    else expected_files in
  let expected_files :=
    if report_var v then
      expected_files ++ [j ("Analysis_" +:+ selection1_clean +:+ ".pdf")]
    else expected_files in
  let expected_files :=
    if rmsf2pdbeta_var v then expected_files ++ [j "RMSF_protein.pdb"]
    else expected_files in
  expected_files.

(** [[f for f in expected_files if os.path.exists(f)]] *)
Definition existing (expected_files : list string) : M (list string) :=
  fun f => mkRun (Normal (List.filter (on_disk f) expected_files)) f [].

Definition overwrite_message (existing_files : list string) : string :=
  "The following files already exist:" +:+ nl
    +:+ Py.join nl (List.map Py.basename existing_files)
    +:+ nl +:+ "Do you want to overwrite them?".

(** [str(item) if item is not None else "None"] *)
Definition str_or_None (item : option string) : string :=
  match item with Some s => s | None => "None" end.

(** The argument vector (lines 780-789). *)
Definition command (st : State) (tcl_script_path script_dir analysis_dir : string)
    (selection1 selection2 selection3 : string) (analysis_code : Z)
    (reference_file_value skip_value : string) : list string :=
  [ "vmd"; "-dispdev"; "text"; "-e"; tcl_script_path;
    "-args"; str_or_None (topology_file st); str_or_None (trajectory_file st);
    selection1; selection2; selection3; Py.str analysis_code;
    script_dir; analysis_dir; reference_file_value; skip_value; sasa_rp_entry st;
    Py.str (Z.b2z (rmsf2pdbeta_var (vars st))) ].

(** [subprocess.Popen(command, ...)]; [FileNotFoundError] when there is no
    [vmd] to run. *)
Definition popen (env : Env) (command : list string) : M unit :=
  if vmd_on_path env then tell (Popen command)
  else raise "FileNotFoundError".

Definition placeholder_cleared (e : Entry) : string :=
  let selection := Py.strip (get e) in
  if placeholder_active e then "" else selection.

(** "Checking for existing files (Overwrite Prompt)" (lines 743-767).
    [answer] is what the user replies when the dialog comes up. *)
Definition overwrite_prompt (answer : bool) (st : State) (logger : string)
    (expected_files : list string) : M unit :=
  do existing_files <- existing expected_files;
  match existing_files with
  | [] => ret tt
  | _ =>
      after (askyesno "Overwrite Files?" (overwrite_message existing_files)) ;;
      if negb answer then
        info logger "User chose not to overwrite existing files. Analysis canceled." ;;
        after (analyze_button_config normal) ;;
        after (stop_button_config disabled) ;;
        when (progress_window st) (after progress_window_destroy) ;;
        return_
      else ret tt
  end.

(** "Running VMD" (lines 769-854), up to the start of the reader thread. *)
Definition running_vmd (env : Env) (st : State) (logger analysis_dir : string)
    (selection1 selection2 selection3 : string) (analysis_code : Z)
    (reference_file_value skip_value : string) : M unit :=
  try_except
    (let tcl_script_path := Py.path_join (script_dir env) "sirah_analysis.tcl" in
     do found <- path_exists tcl_script_path;
     (if negb found then
        after (showerror "Error" ("TCL script not found at " +:+ tcl_script_path +:+ ".")) ;;
        error logger ("TCL script not found at " +:+ tcl_script_path +:+ ".") ;;
        return_
      else ret tt) ;;
     let command :=
       command st tcl_script_path (script_dir env) analysis_dir
         selection1 selection2 selection3 analysis_code
         reference_file_value skip_value in
     info logger ("Executing command: " +:+ Py.join " " command) ;;
     popen env command)
    (fun e =>
       exception logger "An unexpected error occurred." ;;
       after (unbound_exception_lambda "Error") ;;
       when (progress_window st) (tell (Direct progress_window_destroy)) ;;
       return_).

(** The checks on the selections, with what a rejection does, and the
    record of the fall-back of the third selection (lines 632-676). *)
Definition checked_selections (st : State) (logger : string)
    (selection1 selection2 selection3 : string) : M (string * string * string) :=
  match validate_selections (vars st) selection1 selection2 selection3 with
  | inl (reject_error message log) =>
      after (showerror "Error" message) ;; error logger log ;; return_
  | inl (reject_warning message log) =>
      after (showwarning "Warning" message) ;; warning logger log ;; return_
  | inr sel =>
      when (advanced_analysis_selected (vars st) && negb (Py.truthy selection3))
        (info logger "Selection 3 is empty; using Selection 2 as Selection 3.") ;;
      ret sel
  end.

Definition float_or_return (value message : string) : M unit :=
  match Py.float value with
  | None => after (showerror "Error" message) ;; return_
  | Some _ => ret tt
  end.

Definition reference_file_value (st : State) : string :=
  if is_set (reference_file st) then str_or_None (reference_file st) else "None".

Definition analysis_dir (st : State) : string :=
  Py.path_join (str_or_None (working_directory st)) "Analysis".

(** [analyze(state)] (lines 566-854). *)
Definition analyze (env : Env) (answer : bool) (st : State) : M unit :=
  do logger <- get_analysis_logger (working_directory st);
  info logger "Starting analysis..." ;;
  (if negb (is_set (working_directory st)) then
     after (showerror "Error" "Please set a working directory before proceeding.") ;;
     error logger "Working directory not set." ;;
     return_
   else ret tt) ;;
  let analysis_dir := analysis_dir st in
  do present <- path_exists analysis_dir;
  (if negb present then
     try_except
       (makedirs analysis_dir ;;
        info logger ("Analysis directory created at " +:+ analysis_dir))
       (fun e =>
          after (unbound_exception_lambda "Error") ;;
          exception logger ("Failed to create analysis directory at "
                              +:+ analysis_dir +:+ ".") ;;
          return_)
   else ret tt) ;;
  let selection1 := placeholder_cleared (atom_selection1 st) in
  let selection2 := placeholder_cleared (atom_selection2 st) in
  let selection3 := placeholder_cleared (atom_selection3 st) in
  float_or_return (time_step st) "Invalid value for 'Time Step'." ;;
  float_or_return (steps_between_frames st)
    "Invalid value for 'Steps Between Frames'." ;;
  let reference_file_value := reference_file_value st in
  let skip_value := skip_entry st in
  let ref_file_text :=
    if negb (String.eqb reference_file_value "None")
    then Py.basename reference_file_value else "N/A" in
  after (reference_file_label_config ref_file_text) ;;
  do sel <- checked_selections st logger selection1 selection2 selection3;
  let '(selection1, selection2, selection3) := sel in
  (if negb (is_set (topology_file st)) || negb (is_set (trajectory_file st)) then
     after (showerror "Error"
              "Please load both topology and trajectory files before analysis.") ;;
     error logger "Topology or trajectory files not loaded." ;;
     return_
   else ret tt) ;;
  let selection1_clean := Py.replace_space "_" selection1 in
  let selection2_clean := Py.replace_space "_" selection2 in
  let selection3_clean := Py.replace_space "_" selection3 in
  let code := analysis_code (vars st) in
  info logger ("Analysis code: " +:+ Py.str code) ;;
  overwrite_prompt answer st logger
    (expected_files (vars st) analysis_dir
       selection1_clean selection2_clean selection3_clean) ;;
  running_vmd env st logger analysis_dir selection1 selection2 selection3 code
    reference_file_value skip_value.

(** *** Post-processing (lines 857-940 and 961-1264) *)

Inductive plotter :=
| plot_generic_ (title : string)
| plot_rmsf_ (title : string)
| plot_rdf_ (title_g title_integral : string).

(** One [if state.<x>_var.get(): plot...; mark_analysis_completed(...)]
    block of [post_process_analysis]. *)
Record step := mkStep {
  requested : Vars -> bool;
  plots : plotter;
  data_file : string;
  output_file_prefix : string;
  checkbutton : string           (** the text of the checkbutton *)
}.

(** The blocks of [post_process_analysis], in the order of the source. *)
Definition plot_steps (selection1_clean selection2_clean selection3_clean : string)
  : list step :=
  let s23 := selection2_clean +:+ "_" +:+ selection3_clean in
  let s2and3 := selection2_clean +:+ " & " +:+ selection3_clean in
  [ mkStep rmsd_var (plot_generic_ ("RMSD per Frame - " +:+ selection1_clean))
      ("RMSD_" +:+ selection1_clean +:+ ".dat") ("RMSD_" +:+ selection1_clean) "RMSD";
    mkStep rmsf_var (plot_rmsf_ ("RMSF per Residue - " +:+ selection1_clean))
      ("RMSF_" +:+ selection1_clean +:+ ".dat") ("RMSF_" +:+ selection1_clean) "RMSF";
    mkStep rgyr_var
      (plot_generic_ ("Radius of Gyration per Frame - " +:+ selection1_clean))
      ("RGYR_" +:+ selection1_clean +:+ ".dat") ("RGYR_" +:+ selection1_clean)
      "Radius of Gyration";
    mkStep sasa_var (plot_generic_ ("SASA per Frame - " +:+ s2and3))
      ("SASA_" +:+ s23 +:+ ".dat") ("SASA_" +:+ s23) "SASA";
    mkStep contact_surface_var
      (plot_generic_ ("Contact Surface per Frame - " +:+ s2and3))
      ("contact_surface_" +:+ s23 +:+ ".dat") ("ContactSurface_" +:+ s23)
      "Contact surface";
    mkStep nativec_var (plot_generic_ ("Distance between " +:+ s2and3))
      ("distance_" +:+ s23 +:+ ".dat") ("Distance_" +:+ s23) "Distance";
    mkStep rdf_var
      (plot_rdf_ ("RDF Analysis - g(r) for " +:+ s2and3)
                 ("RDF Analysis - Integral for " +:+ s2and3))
      ("rdf_" +:+ s23 +:+ ".dat") ("rdf_" +:+ s23) "RDF" ].

(** The image files a plot function saves. *)
Definition images (p : plotter) (analysis_dir output_file_prefix : string)
  : list string :=
  match p with
  | plot_rdf_ _ _ =>
      [ Py.path_join analysis_dir (output_file_prefix +:+ "_g.png");
        Py.path_join analysis_dir (output_file_prefix +:+ "_integral.png") ]
  | _ => [ Py.path_join analysis_dir (output_file_prefix +:+ ".png") ]
  end.

(** The files a block reads and writes: its data file and its images. *)
Definition step_files (analysis_dir : string) (s : step) : list string :=
  Py.path_join analysis_dir (data_file s)
    :: images (plots s) analysis_dir (output_file_prefix s).

(** Reading the data and drawing figure number [n], inside the [try]
    block. *)
Definition guarded (env : Env) (data_file : string) (n : nat) : M unit :=
  if renders env data_file n then ret tt else raise "Exception".

Definition parse_or_return (value message : string) : M unit :=
  match Py.float value with
  | None => tell (Direct (showerror "Error" message)) ;; return_
  | Some _ => ret tt
  end.

Definition data_or_return (logger analysis_dir data_file : string) : M (list string) :=
  let data_file_path := Py.path_join analysis_dir data_file in
  do present <- path_exists data_file_path;
  (if negb present then
     error logger ("Data file " +:+ data_file_path +:+ " not found.") ;;
     after (showerror "Error" ("Data file " +:+ data_file +:+ " not found.")) ;;
     return_
   else ret tt) ;;
  read_file data_file_path.

Definition plot_failed (logger what : string) : string -> M unit :=
  fun e =>
    exception logger what ;;
    after (unbound_exception_lambda "Error").

(** [plot_generic] (lines 976-1045).  An image is its title followed by
    the data it was drawn from. *)
Definition plot_generic (env : Env) (st : State)
    (data_file title output_file_prefix analysis_dir : string) : M unit :=
  tell (Plot data_file) ;;
  do logger <- get_analysis_logger (working_directory st);
  info logger "Ploting..." ;;
  try_except
    (parse_or_return (time_step st) "Invalid value for 'Time Step'." ;;
     parse_or_return (steps_between_frames st)
       "Invalid value for 'Steps Between Frames'." ;;
     parse_or_return (skip_entry st) "Invalid value for 'Skip'." ;;
     do data <- data_or_return logger analysis_dir data_file;
     guarded env data_file 0 ;;
     let plot_filename := Py.path_join analysis_dir (output_file_prefix +:+ ".png") in
     write_file plot_filename (title :: data) ;;
     info logger ("Generated plot " +:+ plot_filename) ;;
     return_)
    (plot_failed logger ("Failed to generate plot " +:+ title +:+ ".")).

(** [plot_rmsf] (lines 1048-1092) *)
Definition plot_rmsf (env : Env) (st : State)
    (data_file title output_file_prefix analysis_dir : string) : M unit :=
  tell (Plot data_file) ;;
  do logger <- get_analysis_logger (working_directory st);
  info logger "Ploting RMSF..." ;;
  try_except
    (do data <- data_or_return logger analysis_dir data_file;
     guarded env data_file 0 ;;
     let plot_filename := Py.path_join analysis_dir (output_file_prefix +:+ ".png") in
     write_file plot_filename (title :: data) ;;
     info logger ("Generated plot " +:+ plot_filename) ;;
     return_)
    (plot_failed logger ("Failed to generate plot " +:+ title +:+ ".")).

(** [plot_rdf] (lines 1095-1159).  The image of g(r) is saved before the
    column of the integral is read for the second figure. *)
Definition plot_rdf (env : Env) (st : State)
    (data_file output_file_prefix analysis_dir title_g title_integral : string)
  : M unit :=
  tell (Plot data_file) ;;
  do logger <- get_analysis_logger (working_directory st);
  info logger "Ploting RDF..." ;;
  try_except
    (do data <- data_or_return logger analysis_dir data_file;
     guarded env data_file 0 ;;
     let plot_filename_g :=
       Py.path_join analysis_dir (output_file_prefix +:+ "_g.png") in
     write_file plot_filename_g (title_g :: data) ;;
     info logger ("Generated RDF g(r) plot " +:+ plot_filename_g) ;;
     guarded env data_file 1 ;;
     let plot_filename_integral :=
       Py.path_join analysis_dir (output_file_prefix +:+ "_integral.png") in
     write_file plot_filename_integral (title_integral :: data) ;;
     info logger ("Generated RDF integral plot " +:+ plot_filename_integral) ;;
     return_)
    (plot_failed logger "Failed to generate RDF plot.").

(** [mark_analysis_completed] (lines 961-973).  The variable already
    holds 1 when this is called. *)
Definition mark_analysis_completed (env : Env) (st : State) (text : string) : M unit :=
  tell (Mark text) ;;
  do logger <- get_analysis_logger (working_directory st);
  info logger "Mark analysis as completed..." ;;
  (if marks env text then ret tt else raise "TclError") ;;
  info logger ("Analysis " +:+ text +:+ " completed.").

Definition plot (env : Env) (st : State) (analysis_dir : string) (s : step) : M unit :=
  match plots s with
  | plot_generic_ title =>
      plot_generic env st (data_file s) title (output_file_prefix s) analysis_dir
  | plot_rmsf_ title =>
      plot_rmsf env st (data_file s) title (output_file_prefix s) analysis_dir
  | plot_rdf_ title_g title_integral =>
      plot_rdf env st (data_file s) (output_file_prefix s) analysis_dir
        title_g title_integral
  end.

Definition run_step (env : Env) (st : State) (analysis_dir : string) (s : step) : M unit :=
  when (requested s (vars st))
    (call (plot env st analysis_dir s) ;;
     call (mark_analysis_completed env st (checkbutton s))).

Fixpoint run_steps (env : Env) (st : State) (analysis_dir : string) (l : list step)
  : M unit :=
  match l with
  | [] => ret tt
  | s :: l' => run_step env st analysis_dir s ;; run_steps env st analysis_dir l'
  end.

(** The pages of the report after the first: the flag, the heading and
    the image (lines 1194-1254). *)
Definition later_pages (v : Vars)
    (analysis_dir selection1_clean selection2_clean selection3_clean : string)
  : list (bool * string * string) :=
  let j := Py.path_join analysis_dir in
  let s23 := selection2_clean +:+ "_" +:+ selection3_clean in
  [ (rmsf_var v, "RMSF Analysis", j ("RMSF_" +:+ selection1_clean +:+ ".png"));
    (rgyr_var v, "Radius of Gyration Analysis",
      j ("RGYR_" +:+ selection1_clean +:+ ".png"));
    (sasa_var v, "SASA Analysis", j ("SASA_" +:+ s23 +:+ ".png"));
    (contact_surface_var v, "Contact Surface Analysis",
      j ("ContactSurface_" +:+ s23 +:+ ".png"));
    (nativec_var v, "Distance Analysis", j ("Distance_" +:+ s23 +:+ ".png"));
    (rdf_var v, "RDF Analysis - g(r)", j ("rdf_" +:+ s23 +:+ "_g.png"));
    (rdf_var v, "RDF Analysis - Integral", j ("rdf_" +:+ s23 +:+ "_integral.png")) ].

(** The pages of the document: the heading and the image of each; the
    first page is there from the start and stays empty without an RMSD
    image. *)
Definition pdf_pages (f : gmap string node) (v : Vars)
    (analysis_dir selection1_clean selection2_clean selection3_clean : string)
  : list (option (string * string)) :=
  let rmsd_image := Py.path_join analysis_dir ("RMSD_" +:+ selection1_clean +:+ ".png") in
  (if rmsd_var v && on_disk f rmsd_image
   then Some ("RMSD Analysis", rmsd_image) else None)
  :: List.map (fun '(_, heading, image) => Some (heading, image))
       (List.filter (fun '(flag, _, image) => flag && on_disk f image)
          (later_pages v analysis_dir
             selection1_clean selection2_clean selection3_clean)).

Definition page_line (p : option (string * string)) : string :=
  match p with
  | Some (heading, image) => heading +:+ ": " +:+ image
  | None => ""
  end.

(** [generate_pdf] (lines 1162-1264) *)
Definition generate_pdf (env : Env) (st : State)
    (pdf_filename selection1 selection2 selection3 : string) : M unit :=
  tell (Report pdf_filename) ;;
  do logger <- get_analysis_logger (working_directory st);
  info logger "Creating PDF..." ;;
  (match assembles env with raises_outside => raise "RuntimeError" | _ => ret tt end) ;;
  try_except
    (let analysis_dir :=
       Py.path_join (str_or_None (working_directory st)) "Analysis" in
     let selection1_clean := Py.replace_space "_" selection1 in
     let selection2_clean := Py.replace_space "_" selection2 in
     let selection3_clean := Py.replace_space "_" selection3 in
     do pages <-
       (fun f => mkRun (Normal (pdf_pages f (vars st) analysis_dir
                                  selection1_clean selection2_clean selection3_clean))
                       f []);
     (match assembles env with raises_inside => raise "Exception" | _ => ret tt end) ;;
     write_file pdf_filename (List.map page_line pages) ;;
     after (showinfo "Success"
              ("PDF report generated successfully: " +:+ pdf_filename +:+ ".")) ;;
     info logger ("PDF report saved as " +:+ pdf_filename +:+ "."))
    (fun e =>
       exception logger "Failed to generate PDF." ;;
       after (unbound_exception_lambda "Error")).

(** [post_process_analysis] (lines 857-940) *)
Definition post_process_analysis (env : Env) (st : State)
    (selection1_clean selection2_clean selection3_clean analysis_dir : string)
  : M unit :=
  tell PostProcess ;;
  do logger <- get_analysis_logger (working_directory st);
  info logger "Running post-process analysis (ploting and generate PDF)..." ;;
  try_except
    (run_steps env st analysis_dir
       (plot_steps selection1_clean selection2_clean selection3_clean) ;;
     when (report_var (vars st))
       (let pdf_filename :=
          Py.path_join analysis_dir ("Analysis_" +:+ selection1_clean +:+ ".pdf") in
        call (generate_pdf env st pdf_filename
                selection1_clean selection2_clean selection3_clean) ;;
        after (showinfo "Success"
                 ("Analysis report saved as " +:+ pdf_filename +:+ ".")) ;;
        info logger ("PDF report saved as " +:+ pdf_filename +:+ ".")))
    (fun e =>
       exception logger "Post-processing of analysis failed." ;;
       after (showerror "Error"
                ("Post-processing of analysis failed:" +:+ nl +:+ e))).

(** *** The reader thread (lines 802-845) *)

(** What the engine does once started: the lines it prints and its
    return code. *)
Record Process := mkProcess {
  stdout : list string;
  stderr : list string;
  returncode : Z
}.

(** [insert_vmd_output] (lines 944-958) *)
Definition insert_vmd_output (output : string) : M unit :=
  after (insert_text output).

Fixpoint for_each (lines : list string) (body : string -> M unit) : M unit :=
  match lines with
  | [] => ret tt
  | line :: lines' => body line ;; for_each lines' body
  end.

(** [read_output].  [stop_analysis1] and [stop_analysis2] are the values of
    [state.stop_analysis] at its two reads. *)
Definition read_output (env : Env) (st : State) (process : Process)
    (stop_analysis1 stop_analysis2 : bool)
    (selection1_clean selection2_clean selection3_clean analysis_dir : string)
  : M unit :=
  do logger <- get_analysis_logger (working_directory st);
  info logger "Reading VMD Output" ;;
  try_finally
    (try_except
       (for_each (stdout process) insert_vmd_output ;;
        for_each (stderr process) insert_vmd_output ;;
        (if negb (returncode process =? 0)%Z && negb stop_analysis1 then
           error logger ("VMD exited with return code "
                           +:+ Py.str (returncode process)) ;;
           after (showerror "Error"
                    ("VMD exited with return code "
                       +:+ Py.str (returncode process) +:+ ".")) ;;
           return_
         else ret tt) ;;
        when (negb stop_analysis2)
          (call (post_process_analysis env st
                   selection1_clean selection2_clean selection3_clean analysis_dir) ;;
           insert_vmd_output (nl +:+ "Analysis completed." +:+ nl)) ;;
        after (analyze_button_config normal) ;;
        after (stop_button_config disabled))
       (fun e =>
          exception logger "An error occurred while reading output." ;;
          after (unbound_exception_lambda "Error")))
    (when (progress_window st) (after progress_window_destroy)).

(** *** The main loop side *)

Record Widgets := mkWidgets {
  analyze_button : wstate;
  stop_button : wstate;
  sasa_checkbutton : wstate;
  contact_surface_checkbuttom : wstate;
  sasa_rp_entry_state : wstate;
  progress_open : bool;            (** a progress window is on screen *)
  reference_file_label : string;
  analysis_output_text : string;
  dialogs : list callback          (** the message boxes shown, oldest first *)
}.

Definition with_analyze_button (s : wstate) (g : Widgets) : Widgets :=
  mkWidgets s (stop_button g) (sasa_checkbutton g) (contact_surface_checkbuttom g)
    (sasa_rp_entry_state g) (progress_open g) (reference_file_label g)
    (analysis_output_text g) (dialogs g).

Definition with_stop_button (s : wstate) (g : Widgets) : Widgets :=
  mkWidgets (analyze_button g) s (sasa_checkbutton g) (contact_surface_checkbuttom g)
    (sasa_rp_entry_state g) (progress_open g) (reference_file_label g)
    (analysis_output_text g) (dialogs g).

Definition with_checkbuttons (sasa contact rp : wstate) (g : Widgets) : Widgets :=
  mkWidgets (analyze_button g) (stop_button g) sasa contact rp (progress_open g)
    (reference_file_label g) (analysis_output_text g) (dialogs g).

Definition with_sasa_rp_entry_state (rp : wstate) (g : Widgets) : Widgets :=
  with_checkbuttons (sasa_checkbutton g) (contact_surface_checkbuttom g) rp g.

Definition with_progress_open (b : bool) (g : Widgets) : Widgets :=
  mkWidgets (analyze_button g) (stop_button g) (sasa_checkbutton g)
    (contact_surface_checkbuttom g) (sasa_rp_entry_state g) b
    (reference_file_label g) (analysis_output_text g) (dialogs g).

Definition with_reference_file_label (t : string) (g : Widgets) : Widgets :=
  mkWidgets (analyze_button g) (stop_button g) (sasa_checkbutton g)
    (contact_surface_checkbuttom g) (sasa_rp_entry_state g) (progress_open g) t
    (analysis_output_text g) (dialogs g).

Definition with_analysis_output_text (t : string) (g : Widgets) : Widgets :=
  mkWidgets (analyze_button g) (stop_button g) (sasa_checkbutton g)
    (contact_surface_checkbuttom g) (sasa_rp_entry_state g) (progress_open g)
    (reference_file_label g) t (dialogs g).

Definition with_dialog (d : callback) (g : Widgets) : Widgets :=
  mkWidgets (analyze_button g) (stop_button g) (sasa_checkbutton g)
    (contact_surface_checkbuttom g) (sasa_rp_entry_state g) (progress_open g)
    (reference_file_label g) (analysis_output_text g) (dialogs g ++ [d]).

(** What a callback does when the main loop runs it.  [insert_text] is
    the closure of [insert_vmd_output]: the text goes to the end of the
    display. *)
Definition run_callback (cb : callback) (g : Widgets) : Widgets :=
  match cb with
  | showerror _ _ | showwarning _ _ | showinfo _ _ | askyesno _ _ => with_dialog cb g
  | analyze_button_config s => with_analyze_button s g
  | stop_button_config s => with_stop_button s g
  | progress_window_destroy => with_progress_open false g
  | reference_file_label_config t => with_reference_file_label t g
  | insert_text output =>
      with_analysis_output_text (analysis_output_text g +:+ output) g
  | run_analysis_successful_set => g
  | unbound_exception_lambda _ => g
  end.

(** The callbacks a thread has handed over, in the order of the hand-over. *)
Fixpoint scheduled (evs : list event) : list callback :=
  match evs with
  | [] => []
  | After cb :: evs' => cb :: scheduled evs'
  | Direct cb :: evs' => cb :: scheduled evs'
  | _ :: evs' => scheduled evs'
  end.

(** The main loop runs the callbacks it was handed, first in, first out. *)
Definition mainloop (queue : list callback) (g : Widgets) : Widgets :=
  fold_left (fun g cb => run_callback cb g) queue g.

Definition with_vars (v : Vars) (st : State) : State :=
  mkState (working_directory st) (topology_file st) (trajectory_file st)
    (reference_file st) (time_step st) (steps_between_frames st)
    (atom_selection1 st) (atom_selection2 st) (atom_selection3 st)
    (skip_entry st) (sasa_rp_entry st) v (progress_window st).

Definition with_sasa_rp_entry (t : string) (st : State) : State :=
  mkState (working_directory st) (topology_file st) (trajectory_file st)
    (reference_file st) (time_step st) (steps_between_frames st)
    (atom_selection1 st) (atom_selection2 st) (atom_selection3 st)
    (skip_entry st) t (vars st) (progress_window st).

Definition with_progress_window (b : bool) (st : State) : State :=
  mkState (working_directory st) (topology_file st) (trajectory_file st)
    (reference_file st) (time_step st) (steps_between_frames st)
    (atom_selection1 st) (atom_selection2 st) (atom_selection3 st)
    (skip_entry st) (sasa_rp_entry st) (vars st) b.

Definition with_selections (e1 e2 e3 : Entry) (st : State) : State :=
  mkState (working_directory st) (topology_file st) (trajectory_file st)
    (reference_file st) (time_step st) (steps_between_frames st)
    e1 e2 e3 (skip_entry st) (sasa_rp_entry st) (vars st) (progress_window st).

(** [run_analysis] (lines 503-540), with the thread it starts run to its
    end: the callbacks of the thread are in the events.  Gives the state,
    the new value of [state.stop_analysis] and the widgets. *)
Definition run_analysis (env : Env) (answer : bool) (st : State) (g : Widgets)
  : M (State * bool * Widgets) :=
  do logger <- get_analysis_logger (working_directory st);
  info logger "Running analysis..." ;;
  let g := with_analyze_button disabled g in
  let g := with_stop_button normal g in
  let g := with_progress_open true g in
  let st := with_progress_window true st in
  let g := with_analysis_output_text "" g in
  let stop_analysis := false in
  try_except (call (analyze env answer st))
    (fun e =>
       exception logger "An error occurred during analysis" ;;
       after (showerror "Error" e)) ;;
  ret (st, stop_analysis, g).

(** [stop_analysis] (lines 543-563).  Gives the child after the call, the
    new value of [state.stop_analysis] and the widgets. *)
Definition stop_analysis (st : State) (vmd_process : option Child) (g : Widgets)
  : M (option Child * bool * Widgets) :=
  do vmd_process <-
    match vmd_process with
    | Some c =>
        let c := terminate c in
        do logger <- get_analysis_logger (working_directory st);
        info logger "VMD process terminated by the user." ;;
        insert_vmd_output (nl +:+ "Process terminated by the user." +:+ nl) ;;
        ret (Some c)
    | None => ret None
    end;
  let g := with_analyze_button normal g in
  let g := with_stop_button disabled g in
  let g := if progress_window st then with_progress_open false g else g in
  ret (vmd_process, true, g).

(** *** The checkbuttons (lines 119-195, 266-280, 451-479) *)

Inductive check := RMSD | RMSF | RGYR | SASA | Distance | RDF | ContactSurface.

Definition var_get (c : check) (v : Vars) : bool :=
  match c with
  | RMSD => rmsd_var v | RMSF => rmsf_var v | RGYR => rgyr_var v
  | SASA => sasa_var v | Distance => nativec_var v | RDF => rdf_var v
  | ContactSurface => contact_surface_var v
  end.

Definition var_set (c : check) (b : bool) (v : Vars) : Vars :=
  match c with
  | RMSD => mkVars b (rmsf_var v) (rgyr_var v) (sasa_var v) (nativec_var v)
              (rdf_var v) (contact_surface_var v) (report_var v) (rmsf2pdbeta_var v)
  | RMSF => mkVars (rmsd_var v) b (rgyr_var v) (sasa_var v) (nativec_var v)
              (rdf_var v) (contact_surface_var v) (report_var v) (rmsf2pdbeta_var v)
  | RGYR => mkVars (rmsd_var v) (rmsf_var v) b (sasa_var v) (nativec_var v)
              (rdf_var v) (contact_surface_var v) (report_var v) (rmsf2pdbeta_var v)
  | SASA => mkVars (rmsd_var v) (rmsf_var v) (rgyr_var v) b (nativec_var v)
              (rdf_var v) (contact_surface_var v) (report_var v) (rmsf2pdbeta_var v)
  | Distance => mkVars (rmsd_var v) (rmsf_var v) (rgyr_var v) (sasa_var v) b
                  (rdf_var v) (contact_surface_var v) (report_var v)
                  (rmsf2pdbeta_var v)
  | RDF => mkVars (rmsd_var v) (rmsf_var v) (rgyr_var v) (sasa_var v)
             (nativec_var v) b (contact_surface_var v) (report_var v)
             (rmsf2pdbeta_var v)
  | ContactSurface => mkVars (rmsd_var v) (rmsf_var v) (rgyr_var v) (sasa_var v)
                        (nativec_var v) (rdf_var v) b (report_var v)
                        (rmsf2pdbeta_var v)
  end.

(** The tab: what the user has entered and what the widgets show. *)
Record Gui := mkGui {
  state : State;
  widgets : Widgets
}.

Definition filled (e : Entry) : bool :=
  negb (placeholder_active e) && Py.truthy (Py.strip (get e)).

(** [update_analyze_button] (lines 451-479) *)
Definition update_analyze_button (G : Gui) : Gui :=
  let v := vars (state G) in
  let analyses_selected :=
    rmsd_var v || rmsf_var v || rgyr_var v || sasa_var v || nativec_var v
    || rdf_var v || contact_surface_var v in
  let selections_filled :=
    filled (atom_selection1 (state G)) || filled (atom_selection2 (state G))
    || filled (atom_selection3 (state G)) in
  mkGui (state G)
    (with_analyze_button
       (if analyses_selected && selections_filled then normal else disabled)
       (widgets G)).

(** [toggle_sasa_rp_entry] (lines 266-278), run at every write of
    [sasa_var].  A disabled entry ignores [delete] and [insert]. *)
Definition toggle_sasa_rp_entry (G : Gui) : Gui :=
  if sasa_var (vars (state G)) then
    mkGui (state G) (with_sasa_rp_entry_state normal (widgets G))
  else
    mkGui (match sasa_rp_entry_state (widgets G) with
           | normal => with_sasa_rp_entry "2.1" (state G)
           | disabled => state G
           end)
          (with_sasa_rp_entry_state disabled (widgets G)).

(** [var.set(b)], with the trace on [sasa_var]. *)
Definition set (c : check) (b : bool) (G : Gui) : Gui :=
  let G := mkGui (with_vars (var_set c b (vars (state G))) (state G)) (widgets G) in
  match c with
  | SASA => toggle_sasa_rp_entry G
  | _ => G
  end.

(** [update_sasa_contact_surface] (lines 170-186) *)
Definition update_sasa_contact_surface (G : Gui) : Gui :=
  let G :=
    if sasa_var (vars (state G)) then
      let G := set ContactSurface false G in
      mkGui (state G) (with_checkbuttons normal disabled normal (widgets G))
    else if contact_surface_var (vars (state G)) then
      let G := set SASA false G in
      mkGui (state G) (with_checkbuttons disabled normal normal (widgets G))
    else
      mkGui (state G) (with_checkbuttons normal normal normal (widgets G)) in
  update_analyze_button G.

Definition enabled (c : check) (g : Widgets) : wstate :=
  match c with
  | SASA => sasa_checkbutton g
  | ContactSurface => contact_surface_checkbuttom g
  | _ => normal
  end.

(** A click on a checkbutton: nothing on a disabled one; otherwise the
    variable flips and the command of the checkbutton runs (line 192). *)
Definition click (c : check) (G : Gui) : Gui :=
  match enabled c (widgets G) with
  | disabled => G
  | normal =>
      let G := set c (negb (var_get c (vars (state G)))) G in
      match c with
      | SASA | ContactSurface => update_sasa_contact_surface G
      | _ => update_analyze_button G
      end
  end.

Definition placeholder1 : string :=
  "Use VMD syntax: name GC, sirah_protein, name CA, protein".
Definition placeholder23 : string := "Use VMD syntax: name GC, name CA".

(** [reset_tab] (lines 319-372).  The statement
    [state.contact_surface_var(0)] calls the variable and raises
    [TypeError]; what follows it in the [try] block does not run, and the
    handler names a [logger] that the function does not have. *)
Definition reset_tab (G : Gui) : Gui :=
  let G :=
    mkGui (with_selections (mkEntry placeholder1 true) (mkEntry placeholder23 true)
             (mkEntry placeholder23 true) (state G))
          (widgets G) in
  let G := set RMSD false G in
  let G := set RMSF false G in
  let G := set RGYR false G in
  let G := set SASA false G in
  let G := set Distance false G in
  let G := set RDF false G in
  G.

(** The tab as [create_analysis_tab] builds it (lines 66-317). *)
Definition create_analysis_tab (st : State) : Gui :=
  mkGui
    (mkState (working_directory st) (topology_file st) (trajectory_file st)
       (reference_file st) (time_step st) (steps_between_frames st)
       (mkEntry placeholder1 true) (mkEntry placeholder23 true)
       (mkEntry placeholder23 true) "1" "2.1"
       (mkVars false false false false false false false false false)
       (progress_window st))
    (mkWidgets disabled disabled normal normal disabled false
       (match reference_file st with
        | Some r => if Py.truthy r then Py.basename r else "N/A"
        | None => "N/A"
        end)
       "" []).

(** What the user and the program do to the tab between two runs. *)
Inductive action :=
| Click (c : check)
| ResetTab
| Completed (c : check)      (** [var.set(1)] of [mark_analysis_completed]
                                 (line 972), on the reader thread *)
| Recreate                   (** the tab is destroyed and built again *).

Definition act (a : action) (G : Gui) : Gui :=
  match a with
  | Click c => click c G
  | ResetTab => reset_tab G
  | Completed c => set c true G
  | Recreate => create_analysis_tab (state G)
  end.

Inductive reachable (st : State) : Gui -> Prop :=
| reach_start : reachable st (create_analysis_tab st)
| reach_act G a : reachable st G -> reachable st (act a G).

(** The actions of the main loop: all but the [var.set(1)] of the reader
    thread. *)
Definition of_user (a : action) : bool :=
  match a with Completed _ => false | _ => true end.

Inductive reachable_by_user (st : State) : Gui -> Prop :=
| user_start : reachable_by_user st (create_analysis_tab st)
| user_act G a :
    of_user a = true -> reachable_by_user st G -> reachable_by_user st (act a G).

End Analysis.

(** ** [modules/contacts_tab.py]: [run_contacts_analysis] (lines 66-270)

    The root logger of the program is set up by [modules/__init__.py],
    before this module asks for a log file; the records of this module go
    to the console and are left out. *)
Module Contacts.

Record State := mkState {
  working_directory : option string;
  topology_file : option string;
  trajectory_file : option string;
  reference_file : option string;
  progress_window : bool
}.

(** What the "Run Contact Analysis" button hands over. *)
Record Form := mkForm {
  sel1_entry : string;
  sel2_entry : string;
  skip_entry : string;
  cutoff_entry : string;
  calc_distance_matrix_value : bool
}.

(** What the engine does once started, and when the user asks to stop:
    [stop_event n] is the value of [stop_event.is_set()] the [n]-th time
    the thread asks, counted from 0.  After the lines of [stdout] the
    child closes its output and ends with [returncode], or, with [closes]
    false, it stays silent with its output open: [readline] does not
    return. *)
Record Job := mkJob {
  child : Child;
  stdout : list string;
  closes : bool;
  returncode : Z;
  stop_event : nat -> bool
}.

(** How the [while True] loop of [run_command] ends: in the [return] of
    the stop, at the end of the output, or not at all. *)
Inductive ending := stopped | end_of_output | waiting.

Definition expected_files (contacts_dir sel1_clean sel2_clean : string)
    (calc_distance_matrix_value : bool) : list string :=
  let j := Py.path_join contacts_dir in
  let s12 := sel1_clean +:+ "_" +:+ sel2_clean in
  let expected_files := [] in
  let expected_files := expected_files ++ [j ("contacts_length_" +:+ s12 +:+ ".dat")] in
  let expected_files := expected_files ++ [j ("distbyframe_" +:+ s12 +:+ ".dat")] in
  let expected_files := expected_files ++ [j ("percentage_" +:+ s12 +:+ ".dat")] in
  let expected_files := expected_files ++ [j ("contacts_" +:+ s12 +:+ ".dat")] in
  let expected_files := expected_files ++ [j ("timeline_" +:+ s12 +:+ ".dat")] in
  let expected_files := expected_files ++ [j ("distance_length_" +:+ s12 +:+ ".dat")] in
  let expected_files :=
    if calc_distance_matrix_value
    then expected_files ++ [j ("distance_matrix_" +:+ s12 +:+ ".dat")]
    else expected_files in
  expected_files.

Definition update_text_box (output : string) : M unit := after (insert_text output).

Definition show_message (title message : string) (error : bool) : M unit :=
  after (if error then showerror title message else showinfo title message).

(** The "Input Validation" test (line 84). *)
Definition invalid_input (selection1 selection2 skip cutoff : string) : bool :=
  negb (Py.truthy selection1) || negb (Py.truthy selection2)
  || negb (Py.isdigit skip) || (Py.int skip <=? 0)%Z || negb (Py.truthy cutoff).

(** The grace period of the stop, in seconds (line 216). *)
Definition grace_period : nat := 5.

(** Lines 213-218: terminate, wait, kill. *)
Definition stop_child (c : Child) : Child :=
  let c := terminate c in
  let '(exited, c) := wait_timeout grace_period c in
  if exited then c else kill c.

(** The [while True] loop of [run_command] (lines 212-227).  The stop
    event is looked at before each [readline], and nowhere else. *)
Fixpoint reading (stop_event : nat -> bool) (n : nat) (lines : list string)
    (closes : bool) (c : Child) : M (ending * Child) :=
  if stop_event n then
    let c := stop_child c in
    update_text_box ("Process stopped by user." +:+ nl) ;;
    show_message "Process Stopped" "The calculation was canceled." false ;;
    ret (stopped, c)
  else
    match lines with
    | [] => ret (if closes then end_of_output else waiting, c)
    | line :: lines' =>
        update_text_box line ;; reading stop_event (S n) lines' closes c
    end.

(** The start of the engine and the loop (lines 203-227). *)
Definition reading_output (env : Env) (command : list string) (job : Job)
  : M (ending * Child) :=
  (if vmd_on_path env then tell (Popen command)
   else raise "FileNotFoundError") ;;
  reading (stop_event job) 0 (stdout job) (closes job) (child job).

(** What follows the loop in the [try] block (lines 229-252). *)
Definition after_reading (contacts_dir sel1_clean sel2_clean : string) (job : Job)
    (r : ending * Child) : M Child :=
  let '(e, c) := r in
  match e with
  | end_of_output =>
      let c := mkChild (sigterm_exit c) (received c) false in
      let n := S (length (stdout job)) in
      if negb (returncode job =? 0)%Z && negb (stop_event job n) then
        show_message "Error"
          ("VMD exited with return code " +:+ Py.str (returncode job) +:+ ".")
          true ;;
        ret c
      else if negb (stop_event job (S n)) then
        let percentage_pattern :=
          Py.path_join contacts_dir
            ("percentage_" +:+ sel1_clean +:+ "_" +:+ sel2_clean +:+ ".dat") in
        do found <- path_exists percentage_pattern;
        (if found then
           show_message "Success"
             ("Analysis completed and files saved in " +:+ contacts_dir) false ;;
           tell (Direct run_analysis_successful_set)
         else
           update_text_box ("No percentage files were generated." +:+ nl) ;;
           show_message "Output Error" "No percentage files were found." true) ;;
        ret c
      else ret c
  | _ => ret c
  end.

(** [run_command] (lines 197-267): the thread.  Gives the child at its
    end.  A thread whose [readline] does not return stays in the loop:
    nothing after the loop runs, the [finally] block included. *)
Definition run_command (env : Env) (st : State) (command : list string)
    (contacts_dir sel1_clean sel2_clean : string) (job : Job) : M Child :=
  fun f =>
    let loop := reading_output env command job f in
    match result loop with
    | Normal (waiting, c) => mkRun (Normal c) (disk loop) (events loop)
    | _ =>
        try_finally
          (try_except
             (do r <- reading_output env command job;
              after_reading contacts_dir sel1_clean sel2_clean job r)
             (fun e =>
                update_text_box ("Error occurred: " +:+ e +:+ nl) ;;
                show_message "Error"
                  ("An error occurred while running VMD:" +:+ nl +:+ e) true ;;
                ret (child job)))
          (when (progress_window st) (after progress_window_destroy)) f
    end.

(** [run_contacts_analysis], with the thread it starts run to its end.
    [answer] is what the user replies when the overwrite dialog comes
    up.  The result is [None] when no thread was started. *)
Definition run_contacts_analysis (env : Env) (answer : bool) (st : State)
    (form : Form) (job : Job) : M (option Child) :=
  let selection1 := Py.strip (sel1_entry form) in
  let selection2 := Py.strip (sel2_entry form) in
  let skip := Py.strip (skip_entry form) in
  let cutoff := Py.strip (cutoff_entry form) in
  let reference_file_value :=
    if is_set (reference_file st)
    then Analysis.str_or_None (reference_file st) else "None" in
  (if invalid_input selection1 selection2 skip cutoff then
     tell (Direct (showerror "Input Error"
       "Please provide valid selections, a positive skip value, and a cutoff distance.")) ;;
     return_
   else ret tt) ;;
  let skip := Py.int skip in
  (if negb (is_set (topology_file st)) || negb (is_set (trajectory_file st)) then
     tell (Direct (showerror "File Error"
       "Please load the topology and trajectory files in the 'Load Files' tab.")) ;;
     return_
   else ret tt) ;;
  do wd <- match working_directory st with
           | Some wd => ret wd
           | None => raise "TypeError"
           end;
  let contacts_dir := Py.path_join wd "Contacts" in
  makedirs contacts_dir ;;
  let tcl_script_path := Py.path_join (script_dir env) "contacts_distance.tcl" in
  do found <- path_exists tcl_script_path;
  (if negb found then
     tell (Direct (showerror "Script Not Found"
                     ("The TCL script was not found: " +:+ tcl_script_path))) ;;
     return_
   else ret tt) ;;
  let sel1_clean := Py.replace_space "" selection1 in
  let sel2_clean := Py.replace_space "" selection2 in
  let expected_files :=
    expected_files contacts_dir sel1_clean sel2_clean
      (calc_distance_matrix_value form) in
  do existing_files <- Analysis.existing expected_files;
  (match existing_files with
   | [] => ret tt
   | _ =>
       tell (Direct (askyesno "Overwrite Files?"
                       (Analysis.overwrite_message existing_files))) ;;
       if negb answer then return_ else ret tt
   end) ;;
  let command :=
    [ "vmd"; "-dispdev"; "text"; "-e"; tcl_script_path; "-args";
      Analysis.str_or_None (topology_file st);
      Analysis.str_or_None (trajectory_file st);
      selection1; selection2; Py.str skip; cutoff; contacts_dir;
      Py.str (Z.b2z (calc_distance_matrix_value form));
      reference_file_value; script_dir env ] in
  do c <- run_command env st command contacts_dir sel1_clean sel2_clean job;
  ret (Some c).

End Contacts.

(** ** [modules/backmapping_tab.py]: [stop_backmapping] (lines 205-224) *)
Module Backmapping.

Record Tab := mkTab {
  backmapping_process : option Child;
  outname : option string;
  run_backmap_button : wstate;
  stop_backmap_button : wstate;
  open_vmd_button : wstate;
  vmd_output_text : string
}.

(** Gives the tab after the call and the child the call acted on.  The
    option entries that [reset_options] restores are left out. *)
Definition stop_backmapping (t : Tab) : Tab * option Child :=
  match backmapping_process t with
  | Some c =>
      let c := terminate c in
      (mkTab None None normal disabled disabled
         ("Backmapping was stopped by the user." +:+ nl),
       Some c)
  | None => (t, None)
  end.

End Backmapping.

(** ** Notions used in the statements *)

(** The log file of the analysis tab. *)
Definition log_path (st : Analysis.State) : string :=
  Py.path_join (Analysis.analysis_dir st) "analysis.log".

(** The working directory is set, its [Analysis] directory is there and
    the log file in it is a file: [get_analysis_logger] has run. *)
Definition logged (st : Analysis.State) (f : gmap string node) : bool :=
  match Analysis.working_directory st with
  | Some _ =>
      match f !! Analysis.analysis_dir st, f !! log_path st with
      | Some Dir, Some (File _) => true
      | _, _ => false
      end
  | None => false
  end.

(** What is on the disk stays there, a directory as a directory and a file
    as a file. *)
Definition kept (f f' : gmap string node) : Prop :=
  forall p,
    match f !! p with
    | Some Dir => f' !! p = Some Dir
    | Some (File _) => exists ls, f' !! p = Some (File ls)
    | None => True
    end.

(** A statement that never takes anything off the disk. *)
Definition keeps {A} (m : M A) : Prop := forall f, kept f (disk (m f)).

(** A statement that leaves every path outside [S] as it is. *)
Definition confined (S : string -> Prop) {A} (m : M A) : Prop :=
  forall f p, ~ S p -> disk (m f) !! p = f !! p.

(** The argument vectors of the processes started. *)
Fixpoint spawned (evs : list event) : list (list string) :=
  match evs with
  | [] => []
  | Popen argv :: evs' => argv :: spawned evs'
  | _ :: evs' => spawned evs'
  end.

(** The data files whose plot function was entered. *)
Fixpoint plotted (evs : list event) : list string :=
  match evs with
  | [] => []
  | Plot data_file :: evs' => data_file :: plotted evs'
  | _ :: evs' => plotted evs'
  end.

(** The reports whose assembly was entered. *)
Fixpoint reported (evs : list event) : list string :=
  match evs with
  | [] => []
  | Report pdf :: evs' => pdf :: reported evs'
  | _ :: evs' => reported evs'
  end.

(** The number of times post-processing was entered. *)
Fixpoint post_processed (evs : list event) : nat :=
  match evs with
  | [] => 0
  | PostProcess :: evs' => S (post_processed evs')
  | _ :: evs' => post_processed evs'
  end.

(** Every event of the statement satisfies [E]. *)
Definition emits_only (E : event -> Prop) {A} (m : M A) : Prop :=
  forall f, Forall E (events (m f)).

Definition not_popen (e : event) : Prop :=
  match e with Popen _ => False | _ => True end.

(** The statement starts no process, or it starts one, with an argument
    vector that satisfies [P], as the last thing it does. *)
Definition launches (P : list string -> Prop) {A} (m : M A) : Prop :=
  forall f,
    spawned (events (m f)) = []
    \/ exists argv,
         spawned (events (m f)) = [argv] /\ P argv
         /\ exists a, result (m f) = Normal a.

(** The scenario of the bitmask: RMSD, Rgyr and SASA are checked, nothing
    of an earlier run is on the disk. *)
Definition scenario13 : Analysis.State :=
  Analysis.mkState (Some "/work") (Some "/work/system.prmtop")
    (Some "/work/traj.nc") None "20" "5000"
    (Analysis.mkEntry "sirah_protein" false) (Analysis.mkEntry "name GC" false)
    (Analysis.mkEntry Analysis.placeholder23 true) "1" "2.1"
    (Analysis.mkVars true false true true false false false false false) true.

Definition installed : Env :=
  mkEnv "/opt/sirah/TCL" true (fun _ _ => true) (fun _ => true) completes.

Definition fresh_disk : gmap string node :=
  <["/opt/sirah/TCL/sirah_analysis.tcl" := File []]>
    (<["/opt/sirah/TCL/contacts_distance.tcl" := File []]>
       (<["/work" := Dir]> ∅)).

(** The scenario of the fall-back: only RMSD is checked, the first
    selection is "A", the other two entries were left alone. *)
Definition scenarioA : Analysis.State :=
  Analysis.mkState (Some "/work") (Some "/work/system.prmtop")
    (Some "/work/traj.nc") None "20" "5000"
    (Analysis.mkEntry "A" false) (Analysis.mkEntry Analysis.placeholder23 true)
    (Analysis.mkEntry "" false) "1" "2.1"
    (Analysis.mkVars true false false false false false false false false) true.

(** The selections as [analyze] reads them from the entries. *)
Definition entered (st : Analysis.State) : string * string * string :=
  (Analysis.placeholder_cleared (Analysis.atom_selection1 st),
   Analysis.placeholder_cleared (Analysis.atom_selection2 st),
   Analysis.placeholder_cleared (Analysis.atom_selection3 st)).

(** The selections after the checks and the fall-back, when the checks
    pass. *)
Definition selections (st : Analysis.State) : option (string * string * string) :=
  let '(s1, s2, s3) := entered st in
  match Analysis.validate_selections (Analysis.vars st) s1 s2 s3 with
  | inr sel => Some sel
  | inl _ => None
  end.

(** What [analyze] passes to the engine: the selections at places 9 to 11
    of the argument vector and the analysis code at place 12. *)
Definition passes (st : Analysis.State) (argv : list string) : Prop :=
  argv !! 11%nat = Some (Py.str (Analysis.analysis_code (Analysis.vars st)))
  /\ exists s1 s2 s3,
       selections st = Some (s1, s2, s3)
       /\ argv !! 8%nat = Some s1 /\ argv !! 9%nat = Some s2
       /\ argv !! 10%nat = Some s3.

(** *** Stopping a run *)

(** The child has got SIGTERM and is gone at the latest [grace] seconds
    later. *)
Definition gone_within (grace : nat) (c : Child) : Prop :=
  got_sigterm (received c) = true /\ fst (wait_timeout grace c) = true.

(** A stop operation that ends every running child within [grace]
    seconds: it terminates, waits and kills what is left. *)
Definition escalates (grace : nat) (cancel : Child -> option Child) : Prop :=
  forall c, running c = true ->
    exists c', cancel c = Some c' /\ gone_within grace c'.

(** The child after the "Stop" button of the analysis tab. *)
Definition analysis_cancel (st : Analysis.State) (g : Analysis.Widgets)
    (f : gmap string node) (c : Child) : option Child :=
  match result (Analysis.stop_analysis st (Some c) g f) with
  | Normal (c', _, _) => c'
  | _ => None
  end.

(** The child after the stop of the contacts thread, when the stop event
    is set before the first line is read. *)
Definition contacts_cancel (c : Child) : option Child := Some (Contacts.stop_child c).

(** The child after the "Stop" button of the backmapping tab. *)
Definition backmapping_cancel (c : Child) : option Child :=
  snd (Backmapping.stop_backmapping
         (Backmapping.mkTab (Some c) (Some "/work/Backmapping/backmap")
            disabled normal disabled "")).

(** A program that ignores SIGTERM. *)
Definition stubborn : Child := mkChild None [] true.

Definition idle_widgets : Analysis.Widgets :=
  Analysis.mkWidgets disabled normal normal normal disabled true "N/A" "" [].

(** The disk once the analysis tab has logged to it. *)
Definition logged_disk : gmap string node :=
  <["/work/Analysis/analysis.log" := File []]>
    (<["/work/Analysis" := Dir]> fresh_disk).

(** The disk after one more record in the log. *)
Definition record (st : Analysis.State) (line : string) (f : gmap string node)
  : gmap string node :=
  <[log_path st := File (lines_of (f !! log_path st) ++ [line])]> f.

Definition not_post (e : event) : Prop :=
  match e with PostProcess => False | _ => True end.

(** *** The relay of the engine's output

    The reader thread and the main loop run side by side: the thread hands
    the next line over ([hand_over]), or the main loop runs the oldest
    callback it holds ([run_next]), in any order. *)

Record Relay := mkRelay {
  unread : list string;              (** the lines the thread has yet to read *)
  queue : list callback;             (** handed over, not yet run; oldest first *)
  display : Analysis.Widgets
}.

Inductive relay_step : Relay -> Relay -> Prop :=
| hand_over line lines q g :
    relay_step (mkRelay (line :: lines) q g)
               (mkRelay lines (q ++ [insert_text line]) g)
| run_next cb lines q g :
    relay_step (mkRelay lines (cb :: q) g)
               (mkRelay lines q (Analysis.run_callback cb g)).

Inductive relay_steps : Relay -> Relay -> Prop :=
| relay_done R : relay_steps R R
| relay_more R R' R'' : relay_step R R' -> relay_steps R' R'' -> relay_steps R R''.

(** All lines, one after the other. *)
Fixpoint concat_lines (lines : list string) : string :=
  match lines with
  | [] => ""
  | line :: lines' => line +:+ concat_lines lines'
  end.

(** The lines "1", "2", ..., "n", each with its line end. *)
Definition numbered (n : nat) : list string :=
  List.map (fun i => Py.str (Z.of_nat i) +:+ nl) (seq 1 n).

(** What will be on the display once the main loop has run all it holds. *)
Definition settled (R : Relay) : string :=
  Analysis.analysis_output_text (Analysis.mainloop (queue R) (display R)).

(** *** The overwrite prompt and the files of post-processing *)

(** Only Contact surface is checked; selections "A" and "B". *)
Definition scenario_surface : Analysis.State :=
  Analysis.mkState (Some "/work") (Some "/work/system.prmtop")
    (Some "/work/traj.nc") None "20" "5000"
    (Analysis.mkEntry Analysis.placeholder1 true) (Analysis.mkEntry "A" false)
    (Analysis.mkEntry "B" false) "1" "2.1"
    (Analysis.mkVars false false false false false false true false false) true.

(** The disk after an earlier run of the same analysis. *)
Definition surface_disk : gmap string node :=
  <["/work/Analysis/contact_surface_A_B.dat" := File ["0 10.0"; "1 11.0"]]>
    (<["/work/Analysis/ContactSurface_A_B.png" := File ["an earlier image"]]>
       logged_disk).

(** The block of [post_process_analysis] for Contact surface. *)
Definition surface_step (s1 s2 s3 : string) : Analysis.step :=
  Analysis.mkStep Analysis.contact_surface_var
    (Analysis.plot_generic_
       ("Contact Surface per Frame - " +:+ s2 +:+ " & " +:+ s3))
    ("contact_surface_" +:+ s2 +:+ "_" +:+ s3 +:+ ".dat")
    ("ContactSurface_" +:+ s2 +:+ "_" +:+ s3) "Contact surface".

(** The dialogs among the callbacks. *)
Definition is_question (e : event) : bool :=
  match e with
  | After (askyesno _ _) | Direct (askyesno _ _) => true
  | _ => false
  end.

(** *** The checks before the engine is started *)

(** The first error or warning box among the events. *)
Fixpoint first_dialog (evs : list event) : option callback :=
  match evs with
  | [] => None
  | After (showerror t m) :: _ | Direct (showerror t m) :: _ => Some (showerror t m)
  | After (showwarning t m) :: _ | Direct (showwarning t m) :: _ =>
      Some (showwarning t m)
  | _ :: evs' => first_dialog evs'
  end.

Definition parses_positive (value : string) : bool :=
  match Py.float value with
  | Some x => Py.positive x
  | None => false
  end.

(** The checks in the order of the specification: (a) at least one
    analysis flag, (b) the selections that the flags need, (c) the numbers
    (time step, frame stride, skip) parse as positive numbers, (d) the input
    files are loaded.  The result is the box for the first check that
    fails. *)
Definition specified_rejection (st : Analysis.State) : option callback :=
  let '(s1, s2, s3) := entered st in
  match Analysis.validate_selections (Analysis.vars st) s1 s2 s3 with
  | inl (Analysis.reject_warning message _) => Some (showwarning "Warning" message)
  | inl (Analysis.reject_error message _) => Some (showerror "Error" message)
  | inr _ =>
      if negb (parses_positive (Analysis.time_step st)) then
        Some (showerror "Error" "Invalid value for 'Time Step'.")
      else if negb (parses_positive (Analysis.steps_between_frames st)) then
        Some (showerror "Error" "Invalid value for 'Steps Between Frames'.")
      else if negb (parses_positive (Analysis.skip_entry st)) then
        Some (showerror "Error" "Invalid value for 'Skip'.")
      else if negb (is_set (Analysis.topology_file st))
              || negb (is_set (Analysis.trajectory_file st)) then
        Some (showerror "Error"
                "Please load both topology and trajectory files before analysis.")
      else None
  end.

(** The box of the first check of [analyze] that fails, if any.  The
    checks, in the order of the function: the working directory is not the
    empty path; the time step and then the frame stride are accepted by
    [float]; the flags and the selections they need; the input files are
    loaded.  The sign of the numbers, the skip and the solvent radius are
    not looked at.  Without a working directory ([None]) [analyze] does
    not get to its checks and shows no box: the set-up of its logger
    raises. *)
Definition code_rejection (st : Analysis.State) : option callback :=
  match Analysis.working_directory st with
  | None => None
  | Some working_directory =>
  if negb (Py.truthy working_directory) then
    Some (showerror "Error" "Please set a working directory before proceeding.")
  else if negb (bool_decide (is_Some (Py.float (Analysis.time_step st)))) then
    Some (showerror "Error" "Invalid value for 'Time Step'.")
  else if negb (bool_decide (is_Some (Py.float (Analysis.steps_between_frames st)))) then
    Some (showerror "Error" "Invalid value for 'Steps Between Frames'.")
  else
    let '(s1, s2, s3) := entered st in
    match Analysis.validate_selections (Analysis.vars st) s1 s2 s3 with
    | inl (Analysis.reject_warning message _) => Some (showwarning "Warning" message)
    | inl (Analysis.reject_error message _) => Some (showerror "Error" message)
    | inr _ =>
        if negb (is_set (Analysis.topology_file st))
           || negb (is_set (Analysis.trajectory_file st)) then
          Some (showerror "Error"
                  "Please load both topology and trajectory files before analysis.")
        else None
    end
  end.

(** The files the overwrite prompt of a run looks for, when the checks
    pass. *)
Definition expected_output_set (st : Analysis.State) : option (list string) :=
  match code_rejection st, selections st with
  | None, Some (s1, s2, s3) =>
      Some (Analysis.expected_files (Analysis.vars st) (Analysis.analysis_dir st)
              (Py.replace_space "_" s1) (Py.replace_space "_" s2)
              (Py.replace_space "_" s3))
  | _, _ => None
  end.

(** Nothing is checked and the time step is not a number. *)
Definition scenario_unchecked : Analysis.State :=
  Analysis.mkState (Some "/work") (Some "/work/system.prmtop")
    (Some "/work/traj.nc") None "abc" "5000"
    (Analysis.mkEntry "A" false) (Analysis.mkEntry Analysis.placeholder23 true)
    (Analysis.mkEntry Analysis.placeholder23 true) "1" "2.1"
    (Analysis.mkVars false false false false false false false false false) true.

(** RMSD is checked; the time step is negative and the skip is not a
    number. *)
Definition scenario_negative : Analysis.State :=
  Analysis.mkState (Some "/work") (Some "/work/system.prmtop")
    (Some "/work/traj.nc") None "-20" "5000"
    (Analysis.mkEntry "A" false) (Analysis.mkEntry Analysis.placeholder23 true)
    (Analysis.mkEntry Analysis.placeholder23 true) "every other" "2.1"
    (Analysis.mkVars true false false false false false false false false) true.

(** The label of the reference file that [analyze] sets on its way. *)
Definition label_of (st : Analysis.State) : event :=
  After (reference_file_label_config
           (if negb (String.eqb (Analysis.reference_file_value st) "None")
            then Py.basename (Analysis.reference_file_value st) else "N/A")).

(** The record of the fall-back of the third selection, when it
    applies. *)
Definition fallback_record (st : Analysis.State) (f : gmap string node)
  : gmap string node :=
  let '(_, _, s3) := entered st in
  if Analysis.advanced_analysis_selected (Analysis.vars st) && negb (Py.truthy s3)
  then record st ("INFO - "
                    +:+ "Selection 3 is empty; using Selection 2 as Selection 3.") f
  else f.

(** The disk when [analyze] reaches the overwrite prompt: its records
    in the log. *)
Definition before_prompt (st : Analysis.State) (f : gmap string node)
  : gmap string node :=
  record st ("INFO - " +:+ "Analysis code: "
               +:+ Py.str (Analysis.analysis_code (Analysis.vars st)))
    (fallback_record st (record st ("INFO - " +:+ "Starting analysis...") f)).

(** The argument vector [analyze] builds for the selections [s1], [s2] and
    [s3]. *)
Definition analysis_command (env : Env) (st : Analysis.State) (s1 s2 s3 : string)
  : list string :=
  Analysis.command st (Py.path_join (script_dir env) "sirah_analysis.tcl")
    (script_dir env) (Analysis.analysis_dir st) s1 s2 s3
    (Analysis.analysis_code (Analysis.vars st))
    (Analysis.reference_file_value st) (Analysis.skip_entry st).

(** The callbacks the overwrite prompt of the analysis tab hands over when
    the user declines. *)
Definition declined (st : Analysis.State) (existing_files : list string) : list event :=
  [ After (askyesno "Overwrite Files?" (Analysis.overwrite_message existing_files));
    After (analyze_button_config normal);
    After (stop_button_config disabled) ]
  ++ (if Analysis.progress_window st then [After progress_window_destroy] else []).

(** The first box of the contacts tab: one message for the selections, the
    skip and the cutoff. *)
Definition input_error : event :=
  Direct (showerror "Input Error"
    "Please provide valid selections, a positive skip value, and a cutoff distance.").

Definition file_error : event :=
  Direct (showerror "File Error"
    "Please load the topology and trajectory files in the 'Load Files' tab.").

(** The form of the contacts tab as [run_contacts_analysis] reads it. *)
Definition contacts_invalid (form : Contacts.Form) : bool :=
  Contacts.invalid_input (Py.strip (Contacts.sel1_entry form))
    (Py.strip (Contacts.sel2_entry form)) (Py.strip (Contacts.skip_entry form))
    (Py.strip (Contacts.cutoff_entry form)).

(** The disk of the fall-back scenario after an earlier run: the RMSD data
    are there. *)
Definition stale_disk : gmap string node :=
  <["/work/Analysis/RMSD_A.dat" := File ["0 1.5"; "1 1.7"]]> logged_disk.

(** The contacts tab: what its overwrite prompt looks for. *)
Definition contacts_expected (wd : string) (form : Contacts.Form) : list string :=
  Contacts.expected_files (Py.path_join wd "Contacts")
    (Py.replace_space "" (Py.strip (Contacts.sel1_entry form)))
    (Py.replace_space "" (Py.strip (Contacts.sel2_entry form)))
    (Contacts.calc_distance_matrix_value form).

(** *** Failures in post-processing *)

(** The events of the inside of a plot function, of
    [mark_analysis_completed] and of the report: callbacks and marks. *)
Definition routine (e : event) : Prop :=
  match e with After _ | Direct _ | Mark _ => True | _ => False end.

(** Under a disk with the log in place, the statement does not end in an
    exception. *)
Definition safe (st : Analysis.State) {A} (m : M A) : Prop :=
  forall f, logged st f = true -> forall e, result (m f) <> Raised e.

(** Under a disk with the log in place, the statement makes no
    directory. *)
Definition tidy (st : Analysis.State) {A} (m : M A) : Prop :=
  forall f, logged st f = true ->
            forall p, disk (m f) !! p = Some Dir -> f !! p = Some Dir.

(** The blocks of post-processing that the flags ask for. *)
Definition requested_steps (v : Analysis.Vars) (s1 s2 s3 : string)
  : list Analysis.step :=
  List.filter (fun s => Analysis.requested s v) (Analysis.plot_steps s1 s2 s3).

Definition report_path (dir s1 : string) : string :=
  Py.path_join dir ("Analysis_" +:+ s1 +:+ ".pdf").

(** Every kind that was asked for had its plot function entered, once and
    in the order of the source, and the report was entered if asked for. *)
Definition attempts_all (evs : list event) (v : Analysis.Vars)
    (s1 s2 s3 dir : string) : Prop :=
  plotted evs = List.map Analysis.data_file (requested_steps v s1 s2 s3)
  /\ reported evs = if Analysis.report_var v then [report_path dir s1] else [].

(** The widget calls of [mark_analysis_completed] go through for the
    kinds asked for. *)
Definition marks_requested (env : Env) (v : Analysis.Vars) (s1 s2 s3 : string) : Prop :=
  forall s, In s (requested_steps v s1 s2 s3) ->
            marks env (Analysis.checkbutton s) = true.

Definition numbers_parse (st : Analysis.State) : Prop :=
  is_Some (Py.float (Analysis.time_step st))
  /\ is_Some (Py.float (Analysis.steps_between_frames st))
  /\ is_Some (Py.float (Analysis.skip_entry st)).

(** Image number [n] of the block can be made: the data file of the
    block is a file on the disk, the figures up to that one are drawn, no
    directory stands where one of their images is to go and, for
    [plot_generic], the numbers of the tab are numbers. *)
Definition can_produce (env : Env) (st : Analysis.State) (dir : string)
    (f : gmap string node) (s : Analysis.step) (n : nat) : Prop :=
  (forall k, (k <= n)%nat -> renders env (Analysis.data_file s) k = true)
  /\ (exists ls, f !! Py.path_join dir (Analysis.data_file s) = Some (File ls))
  /\ (forall k img,
        (k <= n)%nat ->
        Analysis.images (Analysis.plots s) dir (Analysis.output_file_prefix s) !! k
        = Some img ->
        f !! img <> Some Dir)
  /\ match Analysis.plots s with
     | Analysis.plot_generic_ _ => numbers_parse st
     | _ => True
     end.

(** The pages [generate_pdf] has in mind: the flag of the kind, the
    heading and the image, RMSD first. *)
Definition report_entries (st : Analysis.State) (s1 s2 s3 : string)
  : list (bool * string * string) :=
  let dir := Analysis.analysis_dir st in
  let c1 := Py.replace_space "_" s1 in
  let c2 := Py.replace_space "_" s2 in
  let c3 := Py.replace_space "_" s3 in
  (Analysis.rmsd_var (Analysis.vars st), "RMSD Analysis",
    Py.path_join dir ("RMSD_" +:+ c1 +:+ ".png"))
  :: Analysis.later_pages (Analysis.vars st) dir c1 c2 c3.

(** RMSD, RMSF and Rgyr are checked, with the report. *)
Definition scenario_three : Analysis.State :=
  Analysis.mkState (Some "/work") (Some "/work/system.prmtop")
    (Some "/work/traj.nc") None "20" "5000"
    (Analysis.mkEntry "A" false) (Analysis.mkEntry Analysis.placeholder23 true)
    (Analysis.mkEntry Analysis.placeholder23 true) "1" "2.1"
    (Analysis.mkVars true true true false false false false true false) true.

(** The disk after the engine has written the three data files. *)
Definition three_disk : gmap string node :=
  <["/work/Analysis/RMSD_A.dat" := File ["0 1.5"; "1 1.7"]]>
    (<["/work/Analysis/RMSF_A.dat" := File ["1 0.4"; "2 0.6"]]>
       (<["/work/Analysis/RGYR_A.dat" := File ["0 12.1"; "1 12.3"]]> logged_disk)).

(** Drawing the RMSD data fails inside [plot_generic]. *)
Definition rmsd_fails_inside : Env :=
  mkEnv "/opt/sirah/TCL" true
    (fun d _ => negb (String.eqb d "RMSD_A.dat"))
    (fun _ => true) completes.

(** The same disk, with an RMSD image of an earlier run. *)
Definition three_disk_stale : gmap string node :=
  <["/work/Analysis/RMSD_A.png" := File ["an earlier image"]]> three_disk.

(** * The functions of Python, on values *)

Example strip_ex : Py.strip "  name CA  " = "name CA".
Proof. reflexivity. Qed.

Example float_ex1 : Py.float "20" = Some (Py.Finite false 20 0).
Proof. reflexivity. Qed.

Example float_ex2 : Py.float " -1.5e3 " = Some (Py.Finite true 15 2).
Proof. reflexivity. Qed.

Example float_ex3 : Py.float "abc" = None.
Proof. reflexivity. Qed.

Example float_ex4 : Py.float "1_000.5" = Some (Py.Finite false 10005 (-1)).
Proof. reflexivity. Qed.

Example float_ex5 : Py.float "1e" = None.
Proof. reflexivity. Qed.

Example float_ex6 : Py.float "." = None.
Proof. reflexivity. Qed.

Example float_ex7 : Py.float "5." = Some (Py.Finite false 5 0).
Proof. reflexivity. Qed.

Example float_ex8 : Py.float "" = None.
Proof. reflexivity. Qed.

Example float_ex9 : Py.float "-Inf" = Some (Py.Infinity true).
Proof. reflexivity. Qed.

Example str_ex : Py.str 13 = "13" /\ Py.str 0 = "0" /\ Py.str (-15) = "-15".
Proof. repeat split; reflexivity. Qed.

Example join_ex : Py.path_join "/w/Analysis" "RMSD_A.dat" = "/w/Analysis/RMSD_A.dat".
Proof. reflexivity. Qed.

Example base_ex : Py.basename "/w/Analysis/RMSD_A.dat" = "RMSD_A.dat".
Proof. reflexivity. Qed.

(** * Reasoning about runs *)

Lemma prepend_nil {A} (r : run A) : prepend [] r = r.
Proof. by destruct r. Qed.

Lemma prepend_prepend {A} evs evs' (r : run A) :
  prepend evs (prepend evs' r) = prepend (evs ++ evs') r.
Proof. unfold prepend; simpl. by rewrite app_assoc. Qed.

Lemma prepend_mkRun {A} evs (r : res A) f evs' :
  prepend evs (mkRun r f evs') = mkRun r f (evs ++ evs').
Proof. reflexivity. Qed.

Lemma events_prepend {A} evs (r : run A) : events (prepend evs r) = evs ++ events r.
Proof. reflexivity. Qed.

Lemma result_prepend {A} evs (r : run A) : result (prepend evs r) = result r.
Proof. reflexivity. Qed.

Lemma disk_prepend {A} evs (r : run A) : disk (prepend evs r) = disk r.
Proof. reflexivity. Qed.

Lemma bind_ret {A B} (a : A) (k : A -> M B) f : bind (ret a) k f = k a f.
Proof. unfold bind; simpl. apply prepend_nil. Qed.

Lemma bind_tell {B} e (k : unit -> M B) f : bind (tell e) k f = prepend [e] (k tt f).
Proof. reflexivity. Qed.

Lemma bind_after {B} cb (k : unit -> M B) f :
  bind (after cb) k f = prepend [After cb] (k tt f).
Proof. reflexivity. Qed.

Lemma bind_return {A B} (k : A -> M B) f : bind return_ k f = mkRun Returned f [].
Proof. reflexivity. Qed.

Lemma bind_raise {A B} e (k : A -> M B) f : bind (raise e) k f = mkRun (Raised e) f [].
Proof. reflexivity. Qed.

Lemma bind_path_exists {B} p (k : bool -> M B) f :
  bind (path_exists p) k f = k (on_disk f p) f.
Proof. unfold bind; simpl. apply prepend_nil. Qed.

Lemma bind_existing {B} l (k : list string -> M B) f :
  bind (Analysis.existing l) k f = k (List.filter (on_disk f) l) f.
Proof. unfold bind; simpl. apply prepend_nil. Qed.

Lemma bind_bind {A B C} (m : M A) (k : A -> M B) (h : B -> M C) f :
  bind (bind m k) h f = bind m (fun a => bind (k a) h) f.
Proof.
  unfold bind, prepend. simpl.
  destruct (result (m f)) as [a | | e]; simpl; try reflexivity.
  destruct (result (k a (disk (m f)))); simpl; try reflexivity.
  by rewrite app_assoc.
Qed.

(** ** Results of a run seen through [bind] *)

Lemma bind_run {A B} (m : M A) (k : A -> M B) f a f' evs :
  m f = mkRun (Normal a) f' evs -> bind m k f = prepend evs (k a f').
Proof. intros H. unfold bind. by rewrite H. Qed.

Lemma bind_stops {A B} (m : M A) (k : A -> M B) f :
  (forall a, result (m f) <> Normal a) ->
  events (bind m k f) = events (m f) /\ disk (bind m k f) = disk (m f).
Proof.
  intros H. unfold bind. destruct (result (m f)) as [a | | e]; simpl; auto.
  by destruct (H a).
Qed.

(** A statement that always ends in [return] or in an exception. *)
Lemma stops_return {A} f (a : A) : result (@return_ A f) <> Normal a.
Proof. done. Qed.

Lemma stops_raise {A} e f (a : A) : result (@raise A e f) <> Normal a.
Proof. done. Qed.

Lemma stops_bind {A B} (m : M A) (k : A -> M B) f :
  (forall a f' b, result (k a f') <> Normal b) ->
  forall b, result (bind m k f) <> Normal b.
Proof.
  intros H b. unfold bind. destruct (result (m f)) as [a | | e]; simpl.
  - apply H.
  - discriminate.
  - discriminate.
Qed.

(** ** The disk only grows *)

Lemma kept_refl f : kept f f.
Proof. intros p. destruct (f !! p) as [[|ls]|]; eauto. Qed.

Lemma kept_trans f g h : kept f g -> kept g h -> kept f h.
Proof.
  intros H1 H2 p. specialize (H1 p). specialize (H2 p).
  destruct (f !! p) as [[|ls]|]; auto.
  - by rewrite H1 in H2.
  - destruct H1 as [ls' H1]. by rewrite H1 in H2.
Qed.

Lemma kept_insert_file f p ls : f !! p <> Some Dir -> kept f (<[p := File ls]> f).
Proof.
  intros H q. destruct (decide (p = q)) as [<- | Hne].
  - rewrite lookup_insert_eq. destruct (f !! p) as [[|ls']|]; eauto. done.
  - rewrite lookup_insert_ne by done. destruct (f !! q) as [[|ls']|]; eauto.
Qed.

Lemma kept_insert_new f p n : f !! p = None -> kept f (<[p := n]> f).
Proof.
  intros H q. destruct (decide (p = q)) as [<- | Hne].
  - by rewrite H.
  - rewrite lookup_insert_ne by done. destruct (f !! q) as [[|ls']|]; eauto.
Qed.

Lemma kept_on_disk f f' p : kept f f' -> on_disk f p = true -> on_disk f' p = true.
Proof.
  unfold on_disk. intros H Hp. specialize (H p).
  apply bool_decide_eq_true in Hp. apply bool_decide_eq_true.
  destruct (f !! p) as [[|ls]|].
  - rewrite H. eauto.
  - destruct H as [ls' ->]. eauto.
  - by destruct Hp.
Qed.

Lemma kept_logged st f f' : kept f f' -> logged st f = true -> logged st f' = true.
Proof.
  unfold logged. intros H. destruct (Analysis.working_directory st); [|done].
  pose proof (H (Analysis.analysis_dir st)) as Hd. pose proof (H (log_path st)) as Hl.
  destruct (f !! Analysis.analysis_dir st) as [[|?]|]; try done. rewrite Hd.
  destruct (f !! log_path st) as [[|ls]|]; try done. by destruct Hl as [ls' ->].
Qed.

Lemma keeps_ret {A} (a : A) : keeps (ret a).
Proof. intros f. apply kept_refl. Qed.

Lemma keeps_return {A} : keeps (@return_ A).
Proof. intros f. apply kept_refl. Qed.

Lemma keeps_raise {A} e : keeps (@raise A e).
Proof. intros f. apply kept_refl. Qed.

Lemma keeps_tell e : keeps (tell e).
Proof. intros f. apply kept_refl. Qed.

Lemma keeps_after cb : keeps (after cb).
Proof. intros f. apply kept_refl. Qed.

Lemma keeps_path_exists p : keeps (path_exists p).
Proof. intros f. apply kept_refl. Qed.

Lemma keeps_existing l : keeps (Analysis.existing l).
Proof. intros f. apply kept_refl. Qed.

Lemma keeps_makedirs p : keeps (makedirs p).
Proof.
  intros f. unfold makedirs. destruct (f !! p) as [[|ls]|] eqn:E; simpl.
  - apply kept_refl.
  - apply kept_refl.
  - by apply kept_insert_new.
Qed.

Lemma keeps_open_append p : keeps (open_append p).
Proof.
  intros f. unfold open_append. destruct (f !! p) as [[|ls]|] eqn:E; simpl.
  - apply kept_refl.
  - apply kept_refl.
  - by apply kept_insert_new.
Qed.

Lemma keeps_append_line p l : keeps (append_line p l).
Proof.
  intros f. unfold append_line. destruct (f !! p) as [[|ls]|] eqn:E; simpl.
  - apply kept_refl.
  - apply kept_insert_file. by rewrite E.
  - apply kept_insert_file. by rewrite E.
Qed.

Lemma keeps_write_file p ls : keeps (write_file p ls).
Proof.
  intros f. unfold write_file. destruct (f !! p) as [[|ls']|] eqn:E; simpl.
  - apply kept_refl.
  - apply kept_insert_file. by rewrite E.
  - apply kept_insert_file. by rewrite E.
Qed.

Lemma keeps_read_file p : keeps (read_file p).
Proof.
  intros f. unfold read_file. destruct (f !! p) as [[|ls']|]; apply kept_refl.
Qed.

Lemma keeps_bind {A B} (m : M A) (k : A -> M B) :
  keeps m -> (forall a, keeps (k a)) -> keeps (bind m k).
Proof.
  intros Hm Hk f. unfold bind. specialize (Hm f).
  destruct (result (m f)) as [a | | e]; simpl; auto.
  eapply kept_trans; [exact Hm | apply Hk].
Qed.

Lemma keeps_call m : keeps m -> keeps (call m).
Proof.
  intros Hm f. unfold call. specialize (Hm f). by destruct (result (m f)).
Qed.

Lemma keeps_try_except {A} (m : M A) h :
  keeps m -> (forall e, keeps (h e)) -> keeps (try_except m h).
Proof.
  intros Hm Hh f. unfold try_except. specialize (Hm f).
  destruct (result (m f)) as [a | | e]; simpl; auto.
  eapply kept_trans; [exact Hm | apply Hh].
Qed.

Lemma keeps_try_finally {A} (m : M A) c :
  keeps m -> keeps c -> keeps (try_finally m c).
Proof.
  intros Hm Hc f. unfold try_finally. simpl.
  eapply kept_trans; [apply Hm | apply Hc].
Qed.

Lemma keeps_when b m : keeps m -> keeps (when b m).
Proof. intros Hm. destruct b; [exact Hm | apply keeps_ret]. Qed.

Lemma keeps_logger wd : keeps (Analysis.get_analysis_logger wd).
Proof.
  unfold Analysis.get_analysis_logger. destruct wd; [|apply keeps_raise].
  apply keeps_bind; [apply keeps_makedirs|intros _].
  apply keeps_bind; [apply keeps_open_append|intros _]. apply keeps_ret.
Qed.

Lemma keeps_info l msg : keeps (Analysis.info l msg).
Proof. apply keeps_append_line. Qed.

Lemma keeps_warning l msg : keeps (Analysis.warning l msg).
Proof. apply keeps_append_line. Qed.

Lemma keeps_error l msg : keeps (Analysis.error l msg).
Proof. apply keeps_append_line. Qed.

Lemma keeps_exception l msg : keeps (Analysis.exception l msg).
Proof. apply keeps_append_line. Qed.

Create HintDb keeps.
#[export] Hint Resolve keeps_logger keeps_info keeps_warning keeps_error
  keeps_exception : keeps.
#[export] Hint Resolve keeps_ret keeps_return keeps_raise keeps_tell keeps_after
  keeps_path_exists keeps_existing keeps_makedirs keeps_open_append
  keeps_append_line keeps_write_file keeps_read_file keeps_call
  keeps_try_except keeps_try_finally keeps_when : keeps.

(** Splits a statement along its [bind]s, conditionals and matches. *)
Ltac keeps_tac :=
  repeat first
    [ progress intros
    | apply keeps_bind
    | solve [ auto with keeps ]
    | apply keeps_call
    | apply keeps_try_except
    | apply keeps_try_finally
    | apply keeps_when
    | match goal with
      | |- keeps (if ?b then _ else _) => destruct b
      | |- keeps (match ?x with _ => _ end) => destruct x
      | |- keeps (let '(_, _) := ?x in _) => destruct x
      end ].

(** ** Logging once the log file is there *)

Arguments Py.path_join : simpl never.
Arguments Analysis.plot_steps : simpl never.
Arguments Analysis.run_steps : simpl never.
Arguments Py.str : simpl never.

Lemma logged_inv st f :
  logged st f = true ->
  exists wd ls,
    Analysis.working_directory st = Some wd
    /\ f !! Analysis.analysis_dir st = Some Dir
    /\ f !! log_path st = Some (File ls).
Proof.
  unfold logged. destruct (Analysis.working_directory st) as [wd|]; [|done].
  destruct (f !! Analysis.analysis_dir st) as [[|?]|]; try done.
  destruct (f !! log_path st) as [[|ls]|]; try done. eauto.
Qed.

Lemma logger_logged st f :
  logged st f = true ->
  Analysis.get_analysis_logger (Analysis.working_directory st) f
  = mkRun (Normal (log_path st)) f [].
Proof.
  intros H. destruct (logged_inv st f H) as (wd & ls & Hwd & Hd & Hl).
  unfold log_path, Analysis.analysis_dir in *. rewrite Hwd in *. simpl in *.
  unfold Analysis.get_analysis_logger, bind, makedirs, open_append.
  rewrite Hd. simpl. rewrite Hl. reflexivity.
Qed.

Lemma append_logged st f line :
  logged st f = true ->
  append_line (log_path st) line f = mkRun (Normal tt) (record st line f) [].
Proof.
  intros H. destruct (logged_inv st f H) as (wd & ls & Hwd & Hd & Hl).
  unfold append_line, record. by rewrite Hl.
Qed.

Lemma record_logged st f line : logged st f = true -> logged st (record st line f) = true.
Proof.
  intros H. eapply kept_logged; [|exact H].
  pose proof (keeps_append_line (log_path st) line f) as K.
  by rewrite append_logged in K.
Qed.

Lemma record_on_disk st f line p : on_disk f p = true -> on_disk (record st line f) p = true.
Proof.
  unfold on_disk, record. intros H. apply bool_decide_eq_true in H.
  apply bool_decide_eq_true. destruct (decide (log_path st = p)) as [<-|Hne].
  - rewrite lookup_insert_eq. eauto.
  - by rewrite lookup_insert_ne.
Qed.

Lemma record_other st f line p : p <> log_path st -> record st line f !! p = f !! p.
Proof. intros H. unfold record. by rewrite lookup_insert_ne. Qed.

(** * What a statement emits *)

Lemma emits_ret E {A} (a : A) : emits_only E (ret a).
Proof. intros f. constructor. Qed.

Lemma emits_return E {A} : emits_only E (@return_ A).
Proof. intros f. constructor. Qed.

Lemma emits_raise E {A} e : emits_only E (@raise A e).
Proof. intros f. constructor. Qed.

Lemma emits_tell (E : event -> Prop) e : E e -> emits_only E (tell e).
Proof. intros H f. by constructor. Qed.

Lemma emits_after (E : event -> Prop) cb : E (After cb) -> emits_only E (after cb).
Proof. apply emits_tell. Qed.

Lemma emits_path_exists E p : emits_only E (path_exists p).
Proof. intros f. constructor. Qed.

Lemma emits_existing E l : emits_only E (Analysis.existing l).
Proof. intros f. constructor. Qed.

Lemma emits_makedirs E p : emits_only E (makedirs p).
Proof. intros f. unfold makedirs. destruct (f !! p) as [[|?]|]; constructor. Qed.

Lemma emits_open_append E p : emits_only E (open_append p).
Proof. intros f. unfold open_append. destruct (f !! p) as [[|?]|]; constructor. Qed.

Lemma emits_append_line E p l : emits_only E (append_line p l).
Proof. intros f. unfold append_line. destruct (f !! p) as [[|?]|]; constructor. Qed.

Lemma emits_write_file E p l : emits_only E (write_file p l).
Proof. intros f. unfold write_file. destruct (f !! p) as [[|?]|]; constructor. Qed.

Lemma emits_read_file E p : emits_only E (read_file p).
Proof. intros f. unfold read_file. destruct (f !! p) as [[|?]|]; constructor. Qed.

Lemma emits_bind E {A B} (m : M A) (k : A -> M B) :
  emits_only E m -> (forall a, emits_only E (k a)) -> emits_only E (bind m k).
Proof.
  intros Hm Hk f. unfold bind. specialize (Hm f).
  destruct (result (m f)) as [a | | e]; simpl; auto.
  apply Forall_app. split; [exact Hm | apply Hk].
Qed.

Lemma emits_call E m : emits_only E m -> emits_only E (call m).
Proof. intros Hm f. unfold call. specialize (Hm f). by destruct (result (m f)). Qed.

Lemma emits_try_except E {A} (m : M A) h :
  emits_only E m -> (forall e, emits_only E (h e)) -> emits_only E (try_except m h).
Proof.
  intros Hm Hh f. unfold try_except. specialize (Hm f).
  destruct (result (m f)) as [a | | e]; simpl; auto.
  apply Forall_app. split; [exact Hm | apply Hh].
Qed.

Lemma emits_try_finally E {A} (m : M A) c :
  emits_only E m -> emits_only E c -> emits_only E (try_finally m c).
Proof.
  intros Hm Hc f. unfold try_finally. simpl.
  apply Forall_app. split; [apply Hm | apply Hc].
Qed.

Lemma emits_when E b m : emits_only E m -> emits_only E (when b m).
Proof. intros Hm. destruct b; [exact Hm | apply emits_ret]. Qed.

Create HintDb emits.
#[export] Hint Resolve emits_ret emits_return emits_raise emits_path_exists
  emits_existing emits_makedirs emits_open_append emits_append_line
  emits_write_file emits_read_file : emits.

(** Splits a statement along its [bind]s, conditionals and matches; what
    is left is [E e] for the events [e] it tells. *)
Ltac emits_tac :=
  repeat first
    [ progress intros
    | apply emits_bind
    | solve [ auto with emits ]
    | apply emits_tell
    | apply emits_after
    | apply emits_call
    | apply emits_try_except
    | apply emits_try_finally
    | apply emits_when
    | match goal with
      | |- emits_only _ (if ?b then _ else _) => destruct b
      | |- emits_only _ (match ?x with _ => _ end) => destruct x
      | |- emits_only _ (let '(_, _) := ?x in _) => destruct x
      end ].

Lemma emits_logger E wd : emits_only E (Analysis.get_analysis_logger wd).
Proof. unfold Analysis.get_analysis_logger. emits_tac. Qed.

Lemma emits_info E l msg : emits_only E (Analysis.info l msg).
Proof. apply emits_append_line. Qed.

Lemma emits_warning E l msg : emits_only E (Analysis.warning l msg).
Proof. apply emits_append_line. Qed.

Lemma emits_error E l msg : emits_only E (Analysis.error l msg).
Proof. apply emits_append_line. Qed.

Lemma emits_exception E l msg : emits_only E (Analysis.exception l msg).
Proof. apply emits_append_line. Qed.

#[export] Hint Resolve emits_logger emits_info emits_warning emits_error
  emits_exception : emits.

(** ** Processes started *)

Lemma spawned_app evs evs' : spawned (evs ++ evs') = spawned evs ++ spawned evs'.
Proof.
  induction evs as [|e evs IH]; simpl; [done|].
  destruct e; simpl; by rewrite ?IH.
Qed.

Lemma quiet_spawned evs : Forall not_popen evs -> spawned evs = [].
Proof.
  induction 1 as [|e evs He _ IH]; simpl; [done|].
  by destruct e.
Qed.

Lemma launches_quiet P {A} (m : M A) : emits_only not_popen m -> launches P m.
Proof. intros H f. left. apply quiet_spawned, H. Qed.

Lemma launches_bind P {A B} (m : M A) (k : A -> M B) :
  emits_only not_popen m -> (forall a, launches P (k a)) -> launches P (bind m k).
Proof.
  intros Hm Hk f. unfold bind. pose proof (quiet_spawned _ (Hm f)) as Hq.
  destruct (result (m f)) as [a | | e]; simpl; auto.
  rewrite spawned_app, Hq. simpl. apply Hk.
Qed.

Lemma launches_try_except P {A} (m : M A) h :
  launches P m -> (forall e, emits_only not_popen (h e)) -> launches P (try_except m h).
Proof.
  intros Hm Hh f. unfold try_except. specialize (Hm f).
  destruct (result (m f)) as [a | | e] eqn:E; simpl.
  - rewrite E. exact Hm.
  - rewrite E. exact Hm.
  - destruct Hm as [Hm | (argv & _ & _ & a' & Ha)]; [|discriminate].
    left. rewrite spawned_app, Hm. simpl. apply quiet_spawned, Hh.
Qed.

Lemma launches_popen (P : list string -> Prop) env argv :
  P argv -> launches P (Analysis.popen env argv).
Proof.
  intros HP f. unfold Analysis.popen. destruct (vmd_on_path env); simpl.
  - right. exists argv. eauto.
  - by left.
Qed.

Ltac quiet := emits_tac; try exact I.

Lemma launches_bind_val P {A B} (Q : A -> Prop) (m : M A) (k : A -> M B) :
  emits_only not_popen m ->
  (forall f a, result (m f) = Normal a -> Q a) ->
  (forall a, Q a -> launches P (k a)) -> launches P (bind m k).
Proof.
  intros Hm HQ Hk f. unfold bind. pose proof (quiet_spawned _ (Hm f)) as Hq.
  destruct (result (m f)) as [a | | e] eqn:E; simpl; auto.
  rewrite spawned_app, Hq. simpl. apply Hk. by eapply HQ.
Qed.

Lemma checked_selections_value st logger s1 s2 s3 f sel :
  result (Analysis.checked_selections st logger s1 s2 s3 f) = Normal sel ->
  Analysis.validate_selections (Analysis.vars st) s1 s2 s3 = inr sel.
Proof.
  unfold Analysis.checked_selections.
  destruct (Analysis.validate_selections (Analysis.vars st) s1 s2 s3) as [[m l|m l]|sel'].
  - unfold bind, Analysis.error, append_line; simpl.
    destruct (f !! logger) as [[|?]|]; discriminate.
  - unfold bind, Analysis.warning, append_line; simpl.
    destruct (f !! logger) as [[|?]|]; discriminate.
  - unfold bind, when, Analysis.info, append_line.
    destruct (Analysis.advanced_analysis_selected (Analysis.vars st)
              && negb (Py.truthy s3)); simpl; [|congruence].
    destruct (f !! logger) as [[|?]|]; simpl; congruence.
Qed.

Ltac launch_steps :=
  repeat first
    [ apply launches_bind;
      [ solve [ unfold Analysis.float_or_return, Analysis.overwrite_prompt; quiet ]
      | intros ]
    | match goal with
      | |- launches _ (let '(_, _) := ?x in _) => destruct x as [[? ?] ?]
      end ].

Lemma analyze_launches env answer st :
  launches (passes st) (Analysis.analyze env answer st).
Proof.
  unfold Analysis.analyze. launch_steps.
  eapply launches_bind_val.
  { unfold Analysis.checked_selections. quiet. }
  { intros f sel H. apply checked_selections_value in H. exact H. }
  intros [[s1 s2] s3] Hsel. launch_steps.
  unfold Analysis.running_vmd. apply launches_try_except.
  - launch_steps. apply launches_popen. split; [reflexivity|].
    exists s1, s2, s3. unfold selections, entered. rewrite Hsel. auto.
  - intros e. quiet.
Qed.

Lemma code_as_sum v :
  Analysis.analysis_code v =
    (Z.b2z (Analysis.rmsd_var v) * 1 + Z.b2z (Analysis.rmsf_var v) * 2
     + Z.b2z (Analysis.rgyr_var v) * 4 + Z.b2z (Analysis.sasa_var v) * 8
     + Z.b2z (Analysis.nativec_var v) * 16 + Z.b2z (Analysis.rdf_var v) * 32
     + Z.b2z (Analysis.contact_surface_var v) * 64)%Z.
Proof. by destruct v as [[] [] [] [] [] [] [] ? ?]. Qed.

Lemma code_bits v :
  Z.testbit (Analysis.analysis_code v) 0 = Analysis.rmsd_var v
  /\ Z.testbit (Analysis.analysis_code v) 1 = Analysis.rmsf_var v
  /\ Z.testbit (Analysis.analysis_code v) 2 = Analysis.rgyr_var v
  /\ Z.testbit (Analysis.analysis_code v) 3 = Analysis.sasa_var v
  /\ Z.testbit (Analysis.analysis_code v) 4 = Analysis.nativec_var v
  /\ Z.testbit (Analysis.analysis_code v) 5 = Analysis.rdf_var v
  /\ Z.testbit (Analysis.analysis_code v) 6 = Analysis.contact_surface_var v.
Proof. by destruct v as [[] [] [] [] [] [] [] ? ?]. Qed.

Lemma code_decimal v : Py.int (Py.str (Analysis.analysis_code v)) = Analysis.analysis_code v.
Proof. by destruct v as [[] [] [] [] [] [] [] ? ?]; vm_compute. Qed.

(** C7. The analysis code is the sum of the codes 1, 2, 4, 8, 16, 32 and 64
    of the checked analyses, one bit each; [analyze] starts at most one
    process, and the twelfth element of its argument vector is that code
    written in decimal.  With RMSD, Rgyr and SASA checked and no earlier
    output on the disk, the only process started gets "13" there. *)
Theorem analysis_bitmask_argument :
  (forall v,
      Analysis.analysis_code v =
        (Z.b2z (Analysis.rmsd_var v) * 1 + Z.b2z (Analysis.rmsf_var v) * 2
         + Z.b2z (Analysis.rgyr_var v) * 4 + Z.b2z (Analysis.sasa_var v) * 8
         + Z.b2z (Analysis.nativec_var v) * 16 + Z.b2z (Analysis.rdf_var v) * 32
         + Z.b2z (Analysis.contact_surface_var v) * 64)%Z
      /\ (Z.testbit (Analysis.analysis_code v) 0 = Analysis.rmsd_var v
          /\ Z.testbit (Analysis.analysis_code v) 1 = Analysis.rmsf_var v
          /\ Z.testbit (Analysis.analysis_code v) 2 = Analysis.rgyr_var v
          /\ Z.testbit (Analysis.analysis_code v) 3 = Analysis.sasa_var v
          /\ Z.testbit (Analysis.analysis_code v) 4 = Analysis.nativec_var v
          /\ Z.testbit (Analysis.analysis_code v) 5 = Analysis.rdf_var v
          /\ Z.testbit (Analysis.analysis_code v) 6 = Analysis.contact_surface_var v)
      /\ Py.int (Py.str (Analysis.analysis_code v)) = Analysis.analysis_code v)
  /\ (forall env answer st,
        launches
          (fun argv =>
             argv !! 11%nat
             = Some (Py.str (Analysis.analysis_code (Analysis.vars st))))
          (Analysis.analyze env answer st))
  /\ (forall answer,
        spawned (events (Analysis.analyze installed answer scenario13 fresh_disk))
        = [ [ "vmd"; "-dispdev"; "text"; "-e"; "/opt/sirah/TCL/sirah_analysis.tcl";
              "-args"; "/work/system.prmtop"; "/work/traj.nc";
              "sirah_protein"; "name GC"; "name GC"; "13";
              "/opt/sirah/TCL"; "/work/Analysis"; "None"; "1"; "2.1"; "0" ] ]).
Proof.
  split; [|split].
  - intros v. auto using code_as_sum, code_bits, code_decimal.
  - intros env answer st f.
    destruct (analyze_launches env answer st f) as [H | (argv & H & [Hc _] & Ha)];
      [by left | right; eauto].
  - by intros []; vm_compute.
Qed.

(** C6. The fall-back of the selections is a function of the flags and the
    three entries.  With basic analyses only and a first selection, the
    second and third selections become the first; with advanced analyses
    only and a second selection, the first becomes the second and an empty
    third one becomes the second.  These are the selections the engine
    gets.  With only RMSD checked, "A" as first selection and nothing in
    the other two entries, the engine gets "A" three times. *)
Theorem selection_fallback :
  (forall v s1 s2 s3,
      Analysis.basic_analysis_selected v = true ->
      Analysis.advanced_analysis_selected v = false ->
      Py.truthy s1 = true ->
      Analysis.validate_selections v s1 s2 s3 = inr (s1, s1, s1))
  /\ (forall v s1 s2 s3,
        Analysis.basic_analysis_selected v = false ->
        Analysis.advanced_analysis_selected v = true ->
        Py.truthy s2 = true ->
        Analysis.validate_selections v s1 s2 s3
        = inr (s2, s2, if Py.truthy s3 then s3 else s2))
  /\ (forall env answer st, launches (passes st) (Analysis.analyze env answer st))
  /\ selections scenarioA = Some ("A", "A", "A")
  /\ Analysis.analysis_code (Analysis.vars scenarioA) = 1%Z
  /\ (forall answer,
        spawned (events (Analysis.analyze installed answer scenarioA fresh_disk))
        = [ [ "vmd"; "-dispdev"; "text"; "-e"; "/opt/sirah/TCL/sirah_analysis.tcl";
              "-args"; "/work/system.prmtop"; "/work/traj.nc";
              "A"; "A"; "A"; "1";
              "/opt/sirah/TCL"; "/work/Analysis"; "None"; "1"; "2.1"; "0" ] ]).
Proof.
  split; [|split; [|split; [|split; [|split]]]].
  - intros v s1 s2 s3 Hb Ha H1. unfold Analysis.validate_selections.
    by rewrite Hb, Ha, H1.
  - intros v s1 s2 s3 Hb Ha H2. unfold Analysis.validate_selections.
    rewrite Hb, Ha, H2. simpl. by destruct (Py.truthy s3).
  - apply analyze_launches.
  - by vm_compute.
  - by vm_compute.
  - by intros []; vm_compute.
Qed.

(** * The SASA and Contact surface checkbuttons *)

Lemma act_exclusive a G :
  Analysis.of_user a = true ->
  Analysis.sasa_var (Analysis.vars (Analysis.state G))
  && Analysis.contact_surface_var (Analysis.vars (Analysis.state G)) = false ->
  Analysis.sasa_var (Analysis.vars (Analysis.state (Analysis.act a G)))
  && Analysis.contact_surface_var (Analysis.vars (Analysis.state (Analysis.act a G)))
  = false.
Proof.
  destruct G as [st g]. destruct st as [wd top trj ref ts sbf e1 e2 e3 sk rp v pw].
  destruct v as [rmsd rmsf rgyr sasa nat rdf cs rep pdb].
  destruct g as [ab sb scb ccb rps po lbl out dlg].
  simpl. intros Ha H.
  destruct a as [c | | c | ].
  - destruct c, scb, ccb, sasa, cs, rps; try discriminate H; reflexivity.
  - destruct sasa, cs, rps; try discriminate H; reflexivity.
  - discriminate Ha.
  - reflexivity.
Qed.

Lemma reachable_exclusive st G :
  Analysis.reachable_by_user st G ->
  Analysis.sasa_var (Analysis.vars (Analysis.state G))
  && Analysis.contact_surface_var (Analysis.vars (Analysis.state G)) = false.
Proof.
  induction 1 as [|G a Ha _ IH]; [reflexivity|]. by apply act_exclusive.
Qed.

Lemma completed_sets c G :
  Analysis.var_get c (Analysis.vars (Analysis.state (Analysis.act (Analysis.Completed c) G)))
  = true
  /\ forall c', c' <> c ->
       Analysis.var_get c'
         (Analysis.vars (Analysis.state (Analysis.act (Analysis.Completed c) G)))
       = Analysis.var_get c' (Analysis.vars (Analysis.state G)).
Proof.
  destruct G as [st g]. destruct st as [wd top trj ref ts sbf e1 e2 e3 sk rp v pw].
  destruct v as [rmsd rmsf rgyr sasa nat rdf cs rep pdb].
  destruct g as [ab sb scb ccb rps po lbl out dlg].
  split; [by destruct c|].
  intros c' Hne. destruct c, c'; try reflexivity; by destruct Hne.
Qed.

Lemma exclusive_bits v :
  Analysis.sasa_var v && Analysis.contact_surface_var v = false ->
  Z.testbit (Analysis.analysis_code v) 3 && Z.testbit (Analysis.analysis_code v) 6
  = false.
Proof.
  destruct (code_bits v) as (_ & _ & _ & -> & _ & _ & ->). done.
Qed.



(** The states of that run, one after the other: the two variables, the
    two checkbuttons and the analysis code. *)
Lemma completed_run_trace :
  let show G :=
    (Analysis.sasa_var (Analysis.vars (Analysis.state G)),
     Analysis.contact_surface_var (Analysis.vars (Analysis.state G)),
     Analysis.sasa_checkbutton (Analysis.widgets G),
     Analysis.contact_surface_checkbuttom (Analysis.widgets G),
     Analysis.analysis_code (Analysis.vars (Analysis.state G))) in
  let G0 := Analysis.create_analysis_tab scenarioA in
  let G1 := Analysis.act (Analysis.Click Analysis.SASA) G0 in
  let G2 := Analysis.act (Analysis.Click Analysis.SASA) G1 in
  let G3 := Analysis.act (Analysis.Click Analysis.ContactSurface) G2 in
  let G4 := Analysis.act (Analysis.Completed Analysis.SASA) G3 in
  show G1 = (true, false, normal, disabled, 8%Z)
  /\ show G2 = (false, false, normal, normal, 0%Z)
  /\ show G3 = (false, true, disabled, normal, 64%Z)
  /\ show G4 = (true, true, disabled, normal, 72%Z).
Proof. by vm_compute. Qed.

(** * Stopping a run *)

Lemma got_sigterm_snoc l : got_sigterm (l ++ [SIGTERM]) = true.
Proof. unfold got_sigterm. rewrite existsb_app. simpl. by rewrite orb_true_r. Qed.

Lemma stop_child_received c :
  running c = true ->
  running (Contacts.stop_child c) = false
  /\ received (Contacts.stop_child c)
     = received c ++ SIGTERM ::
         match sigterm_exit c with
         | Some d => if (d <=? Contacts.grace_period)%nat then [] else [SIGKILL]
         | None => [SIGKILL]
         end.
Proof.
  intros Hr. unfold Contacts.stop_child, terminate, wait_timeout, kill.
  rewrite Hr. simpl. rewrite got_sigterm_snoc.
  destruct (sigterm_exit c) as [d|]; simpl.
  - destruct (d <=? Contacts.grace_period)%nat; simpl.
    + split; reflexivity.
    + split; [reflexivity|]. by rewrite <- app_assoc.
  - split; [reflexivity|]. by rewrite <- app_assoc.
Qed.

Lemma stop_child_gone c :
  running c = true -> gone_within Contacts.grace_period (Contacts.stop_child c).
Proof.
  intros Hr. destruct (stop_child_received c Hr) as [Hrun Hrec]. split.
  - rewrite Hrec. unfold got_sigterm. rewrite existsb_app. simpl.
    by rewrite orb_true_r.
  - unfold wait_timeout. by rewrite Hrun.
Qed.

(** The loop stops the child at the first query that finds the stop event
    set, if that happens before the output ends. *)
Lemma reading_stops stop_event lines closes c f : forall n k,
  (k <= length lines)%nat ->
  (forall i, (i < k)%nat -> stop_event (n + i)%nat = false) ->
  stop_event (n + k)%nat = true ->
  result (Contacts.reading stop_event n lines closes c f)
  = Normal (Contacts.stopped, Contacts.stop_child c)
  /\ disk (Contacts.reading stop_event n lines closes c f) = f.
Proof.
  revert f. induction lines as [|line lines IH]; intros f n k Hk Hno Hset.
  - assert (k = 0)%nat as -> by (simpl in Hk; lia).
    rewrite Nat.add_0_r in Hset. simpl. by rewrite Hset.
  - destruct k as [|k].
    + rewrite Nat.add_0_r in Hset. simpl. by rewrite Hset.
    + assert (stop_event n = false) as H0.
      { rewrite <- (Nat.add_0_r n). apply Hno. lia. }
      simpl. rewrite H0.
      unfold Contacts.update_text_box. rewrite bind_after. simpl.
      apply (IH f (S n) k).
      * simpl in Hk. lia.
      * intros i Hi. replace (S n + i)%nat with (n + S i)%nat by lia.
        apply Hno. lia.
      * by replace (S n + k)%nat with (n + S k)%nat by lia.
Qed.

(** A loop that never finds the stop event set hands the lines over and
    leaves the child alone; whether the event is set after its last query
    does not matter. *)
Lemma reading_through stop_event lines closes c f : forall n,
  (forall i, (i <= length lines)%nat -> stop_event (n + i)%nat = false) ->
  Contacts.reading stop_event n lines closes c f
  = mkRun (Normal (if closes then Contacts.end_of_output else Contacts.waiting, c)) f
      (List.map (fun line => After (insert_text line)) lines).
Proof.
  induction lines as [|line lines IH]; intros n Hno.
  - pose proof (Hno 0%nat ltac:(simpl; lia)) as H0. rewrite Nat.add_0_r in H0.
    simpl. by rewrite H0.
  - pose proof (Hno 0%nat ltac:(simpl; lia)) as H0. rewrite Nat.add_0_r in H0.
    cbn [Contacts.reading]. rewrite H0.
    unfold Contacts.update_text_box. rewrite bind_after, IH.
    + reflexivity.
    + intros i Hi. replace (S n + i)%nat with (n + S i)%nat by lia.
      apply Hno. simpl. lia.
Qed.

(** The thread of a child that stays silent with its output open: it
    stays in [readline]. *)
Lemma run_command_waits env st command dir s1 s2 job f :
  vmd_on_path env = true ->
  Contacts.closes job = false ->
  (forall i, (i <= length (Contacts.stdout job))%nat -> Contacts.stop_event job i = false) ->
  Contacts.run_command env st command dir s1 s2 job f
  = mkRun (Normal (Contacts.child job)) f
      (Popen command
       :: List.map (fun line => After (insert_text line)) (Contacts.stdout job)).
Proof.
  intros Hv Hc Hno. unfold Contacts.run_command, Contacts.reading_output.
  rewrite Hv, bind_tell, reading_through by exact Hno. rewrite Hc. reflexivity.
Qed.

Lemma analysis_cancel_terminates st g f c :
  logged st f = true -> analysis_cancel st g f c = Some (terminate c).
Proof.
  intros Hl. unfold analysis_cancel, Analysis.stop_analysis.
  unfold bind at 1. unfold bind at 1. rewrite (logger_logged st f Hl). simpl.
  unfold bind at 1. unfold Analysis.info. rewrite (append_logged st f _ Hl).
  simpl. reflexivity.
Qed.

(** A child that ignores SIGTERM outlives [terminate] for any time. *)
Lemma stubborn_lingers t : fst (wait_timeout t (terminate stubborn)) = false.
Proof. reflexivity. Qed.



(** * The end of a run *)

Lemma post_processed_app evs evs' :
  post_processed (evs ++ evs') = (post_processed evs + post_processed evs')%nat.
Proof.
  induction evs as [|e evs IH]; simpl; [done|].
  destruct e; simpl; by rewrite ?IH.
Qed.

Lemma silent_post evs : Forall not_post evs -> post_processed evs = 0%nat.
Proof.
  induction 1 as [|e evs He _ IH]; simpl; [done|]. by destruct e.
Qed.

Ltac silent := emits_tac; try exact I.

Lemma emits_for_each E lines (body : string -> M unit) :
  (forall line, emits_only E (body line)) ->
  emits_only E (Analysis.for_each lines body).
Proof.
  intros H. induction lines as [|line lines IH]; simpl.
  - apply emits_ret.
  - apply emits_bind; [apply H | intros _; exact IH].
Qed.

(** The relay hands the lines over one by one, in their order. *)
Lemma relay_run lines f :
  Analysis.for_each lines Analysis.insert_vmd_output f
  = mkRun (Normal tt) f (List.map (fun line => After (insert_text line)) lines).
Proof.
  induction lines as [|line lines IH]; [done|].
  cbn [Analysis.for_each]. unfold Analysis.insert_vmd_output at 1.
  rewrite bind_after, IH. reflexivity.
Qed.

Lemma relay_total lines f :
  result (Analysis.for_each lines Analysis.insert_vmd_output f) = Normal tt
  /\ disk (Analysis.for_each lines Analysis.insert_vmd_output f) = f.
Proof. by rewrite relay_run. Qed.

Lemma emits_plot_generic E env st d t p dir :
  (forall e, not_popen e -> not_post e -> E e) ->
  emits_only E (Analysis.plot_generic env st d t p dir).
Proof.
  intros HE. unfold Analysis.plot_generic, Analysis.guarded,
    Analysis.parse_or_return, Analysis.data_or_return, Analysis.plot_failed.
  emits_tac; by apply HE.
Qed.

Lemma emits_plot_rmsf E env st d t p dir :
  (forall e, not_popen e -> not_post e -> E e) ->
  emits_only E (Analysis.plot_rmsf env st d t p dir).
Proof.
  intros HE. unfold Analysis.plot_rmsf, Analysis.guarded,
    Analysis.data_or_return, Analysis.plot_failed.
  emits_tac; by apply HE.
Qed.

Lemma emits_plot_rdf E env st d p dir tg ti :
  (forall e, not_popen e -> not_post e -> E e) ->
  emits_only E (Analysis.plot_rdf env st d p dir tg ti).
Proof.
  intros HE. unfold Analysis.plot_rdf, Analysis.guarded,
    Analysis.data_or_return, Analysis.plot_failed.
  emits_tac; by apply HE.
Qed.

Lemma emits_mark E env st text :
  (forall e, not_popen e -> not_post e -> E e) ->
  emits_only E (Analysis.mark_analysis_completed env st text).
Proof.
  intros HE. unfold Analysis.mark_analysis_completed. emits_tac; by apply HE.
Qed.

Lemma emits_run_steps E env st dir l :
  (forall e, not_popen e -> not_post e -> E e) ->
  emits_only E (Analysis.run_steps env st dir l).
Proof.
  intros HE. induction l as [|s l IH]; cbn [Analysis.run_steps]; [apply emits_ret|].
  apply emits_bind; [|intros _; exact IH].
  unfold Analysis.run_step. apply emits_when. apply emits_bind.
  - apply emits_call. unfold Analysis.plot.
    destruct (Analysis.plots s);
      auto using emits_plot_generic, emits_plot_rmsf, emits_plot_rdf.
  - intros _. apply emits_call. by apply emits_mark.
Qed.

Lemma emits_generate_pdf E env st pdf s1 s2 s3 :
  (forall e, not_popen e -> not_post e -> E e) ->
  emits_only E (Analysis.generate_pdf env st pdf s1 s2 s3).
Proof.
  intros HE. unfold Analysis.generate_pdf. emits_tac; try (by apply HE).
  intros f. constructor.
Qed.

(** Post-processing announces itself once, whatever happens in it. *)
Lemma post_process_once env st s1 s2 s3 dir f :
  post_processed (events (Analysis.post_process_analysis env st s1 s2 s3 dir f)) = 1%nat.
Proof.
  unfold Analysis.post_process_analysis.
  rewrite bind_tell, events_prepend, post_processed_app.
  change (post_processed [PostProcess]) with 1%nat.
  rewrite silent_post; [reflexivity|].
  match goal with |- Forall _ (events (?m f)) => assert (emits_only not_post m) as H end.
  { apply emits_bind; [auto with emits|intros logger].
    apply emits_bind; [auto with emits|intros _].
    apply emits_try_except.
    - apply emits_bind; [by apply emits_run_steps|intros _].
      apply emits_when. apply emits_bind.
      + apply emits_call. by apply emits_generate_pdf.
      + intros _. silent.
    - intros e. silent. }
  apply H.
Qed.

Lemma pp_bind {A B} (m : M A) (k : A -> M B) f :
  post_processed (events (bind m k f))
  = (post_processed (events (m f))
     + match result (m f) with
       | Normal a => post_processed (events (k a (disk (m f))))
       | _ => 0
       end)%nat.
Proof.
  unfold bind. destruct (result (m f)) as [a | | e]; simpl; try lia.
  apply post_processed_app.
Qed.

Lemma pp_call m f : post_processed (events (call m f)) = post_processed (events (m f)).
Proof. unfold call. by destruct (result (m f)). Qed.

Lemma pp_silent {A} (m : M A) f :
  emits_only not_post m -> post_processed (events (m f)) = 0%nat.
Proof. intros H. apply silent_post, H. Qed.

Lemma pp_try_except {A} (m : M A) h f :
  (forall e, emits_only not_post (h e)) ->
  post_processed (events (try_except m h f)) = post_processed (events (m f)).
Proof.
  intros H. unfold try_except. destruct (result (m f)) as [a | | e]; simpl; try done.
  rewrite post_processed_app, (pp_silent (h e)); [lia | apply H].
Qed.

Lemma pp_try_finally {A} (m : M A) c f :
  emits_only not_post c ->
  post_processed (events (try_finally m c f)) = post_processed (events (m f)).
Proof.
  intros H. unfold try_finally. simpl.
  rewrite post_processed_app, (pp_silent c); [lia | apply H].
Qed.

Lemma read_output_post env st process stop1 stop2 s1 s2 s3 dir f :
  logged st f = true ->
  post_processed
    (events (Analysis.read_output env st process stop1 stop2 s1 s2 s3 dir f))
  = if negb (Analysis.returncode process =? 0)%Z && negb stop1 then 0%nat
    else if negb stop2 then 1%nat else 0%nat.
Proof.
  intros Hl. unfold Analysis.read_output.
  rewrite (bind_run _ _ _ _ _ _ (logger_logged st f Hl)), prepend_nil.
  unfold Analysis.info at 1.
  rewrite (bind_run _ _ _ _ _ _ (append_logged st f _ Hl)), prepend_nil.
  set (f1 := record st _ f).
  rewrite pp_try_finally by silent.
  rewrite pp_try_except by (intros e; silent).
  destruct (relay_total (Analysis.stdout process) f1) as [R1 D1].
  rewrite pp_bind, R1, D1, (pp_silent (Analysis.for_each _ _)).
  2:{ apply (emits_for_each not_post). intros line. silent. }
  destruct (relay_total (Analysis.stderr process) f1) as [R2 D2].
  rewrite pp_bind, R2, D2, (pp_silent (Analysis.for_each _ _)).
  2:{ apply (emits_for_each not_post). intros line. silent. }
  rewrite pp_bind. simpl.
  destruct (negb (Analysis.returncode process =? 0)%Z && negb stop1).
  - rewrite pp_silent by silent.
    match goal with |- context [match result ?r with Normal _ => _ | _ => _ end] =>
      destruct (result r) as [a | | e] eqn:E; try reflexivity; exfalso; revert E
    end.
    apply stops_bind. intros. apply stops_bind. intros. apply stops_return.
  - simpl. destruct (negb stop2); simpl.
    + rewrite pp_bind, pp_bind, pp_call, post_process_once.
      rewrite (pp_silent (after _ ;; _)) by silent.
      destruct (result (call _ _)); simpl; by destruct (result (bind _ _ _)).
    + reflexivity.
Qed.


(** * The relay of the engine's output *)

Lemma append_assoc (a b c : string) : (a +:+ b) +:+ c = a +:+ (b +:+ c).
Proof.
  induction a as [|x a IH]; [done|].
  change (String x ((a +:+ b) +:+ c) = String x (a +:+ (b +:+ c))).
  by rewrite IH.
Qed.

Lemma append_empty_r (a : string) : a +:+ "" = a.
Proof.
  induction a as [|x a IH]; [done|].
  change (String x (a +:+ "") = String x a). by rewrite IH.
Qed.

Lemma mainloop_app q q' g :
  Analysis.mainloop (q ++ q') g = Analysis.mainloop q' (Analysis.mainloop q g).
Proof. unfold Analysis.mainloop. apply fold_left_app. Qed.

Lemma mainloop_inserts lines g :
  Analysis.analysis_output_text (Analysis.mainloop (List.map insert_text lines) g)
  = Analysis.analysis_output_text g +:+ concat_lines lines.
Proof.
  revert g. induction lines as [|line lines IH]; intros g.
  - simpl. by rewrite append_empty_r.
  - cbn [List.map concat_lines]. unfold Analysis.mainloop in *. cbn [fold_left].
    rewrite IH. cbn. apply append_assoc.
Qed.

(** What is shown in the end does not depend on when the main loop runs. *)
Lemma relay_step_settled R R' :
  relay_step R R' ->
  settled R' +:+ concat_lines (unread R') = settled R +:+ concat_lines (unread R).
Proof.
  intros [line lines q g | cb lines q g]; unfold settled; cbn [queue display unread].
  - rewrite mainloop_app. cbn. rewrite append_assoc. reflexivity.
  - reflexivity.
Qed.

Lemma relay_steps_settled R R' :
  relay_steps R R' ->
  settled R' +:+ concat_lines (unread R') = settled R +:+ concat_lines (unread R).
Proof.
  induction 1 as [R | R R' R'' Hstep _ IH]; [done|].
  rewrite IH. by apply relay_step_settled.
Qed.

(** C8. The reader thread hands the lines of a stream to the main loop in
    the order the engine printed them, those of standard output first;
    the main loop puts each at the end of the display, so that, however
    the two are interleaved, the display ends up with the lines in that
    order.  An engine that prints "1" to "100" gets them displayed in
    exactly that order. *)
Theorem relay_keeps_order :
  (forall lines f,
      events (Analysis.for_each lines Analysis.insert_vmd_output f)
      = List.map (fun line => After (insert_text line)) lines)
  /\ (forall env st process stop1 stop2 s1 s2 s3 dir f,
        logged st f = true ->
        exists rest,
          events (Analysis.read_output env st process stop1 stop2 s1 s2 s3 dir f)
          = List.map (fun line => After (insert_text line)) (Analysis.stdout process)
            ++ List.map (fun line => After (insert_text line)) (Analysis.stderr process)
            ++ rest)
  /\ (forall lines g g',
        relay_steps (mkRelay lines [] g) (mkRelay [] [] g') ->
        Analysis.analysis_output_text g'
        = Analysis.analysis_output_text g +:+ concat_lines lines)
  /\ (let r := Analysis.read_output installed scenarioA
                 (Analysis.mkProcess (numbered 100) [] 0) false false
                 "A" "A" "A" "/work/Analysis" logged_disk in
      Analysis.analysis_output_text
        (Analysis.mainloop (Analysis.scheduled (events r)) idle_widgets)
      = concat_lines (numbered 100) +:+ nl +:+ "Analysis completed." +:+ nl).
Proof.
  split; [|split; [|split]].
  - intros lines f. by rewrite relay_run.
  - intros env st process stop1 stop2 s1 s2 s3 dir f Hl.
    unfold Analysis.read_output.
    rewrite (bind_run _ _ _ _ _ _ (logger_logged st f Hl)), prepend_nil.
    unfold Analysis.info at 1.
    rewrite (bind_run _ _ _ _ _ _ (append_logged st f _ Hl)), prepend_nil.
    set (f1 := record st _ f).
    unfold try_finally. cbn [events].
    match goal with |- context [try_except ?m ?h f1] =>
      set (body := m); set (handler := h);
      assert (exists rest,
                 events (body f1)
                 = List.map (fun line => After (insert_text line)) (Analysis.stdout process)
                   ++ List.map (fun line => After (insert_text line))
                        (Analysis.stderr process) ++ rest) as [rest Hrest]
    end.
    { unfold body. rewrite (bind_run _ _ _ _ _ _ (relay_run _ f1)).
      rewrite (bind_run _ _ _ _ _ _ (relay_run _ f1)).
      rewrite !events_prepend. eauto. }
    unfold try_except. destruct (result (body f1)) as [a | | e].
    + rewrite Hrest, <- !app_assoc. eauto.
    + rewrite Hrest, <- !app_assoc. eauto.
    + rewrite events_prepend, Hrest, <- !app_assoc. eauto.
  - intros lines g g' H. apply relay_steps_settled in H.
    unfold settled in H. cbn in H. by rewrite append_empty_r in H.
  - by vm_compute.
Qed.

(** * The files of the overwrite prompt and of post-processing *)

Ltac in_list := repeat first [ left; reflexivity | right ].

(** For every analysis kind but Contact surface, the prompt looks for the
    very files the block of the kind reads and writes. *)
Lemma prompt_covers_step v dir s1 s2 s3 s :
  In s (Analysis.plot_steps s1 s2 s3) ->
  Analysis.checkbutton s <> "Contact surface" ->
  Analysis.requested s v = true ->
  forall p, In p (Analysis.step_files dir s) ->
            In p (Analysis.expected_files v dir s1 s2 s3).
Proof.
  intros Hs Hne Hreq p Hp.
  unfold Analysis.plot_steps in Hs. cbn [In] in Hs.
  destruct v as [rmsd rmsf rgyr sasa nat rdf cs rep pdb].
  destruct Hs as [<-|[<-|[<-|[<-|[<-|[<-|[<-|[]]]]]]]];
    cbn in Hreq; subst; try (by destruct Hne);
    unfold Analysis.step_files, Analysis.images in Hp; cbn in Hp;
    unfold Analysis.expected_files; cbn;
    repeat match goal with b : bool |- _ => destruct b end; cbn;
    intuition (subst; in_list).
Qed.

(** C2 for the kinds that the prompt knows, and the one it misses.  With
    only Contact surface checked the prompt looks for no file at all,
    while post-processing reads [contact_surface_A_B.dat] and writes
    [ContactSurface_A_B.png]: on a disk that holds both from an earlier
    run, [analyze] asks nothing and starts the engine, and post-processing
    replaces the image. *)
Theorem contact_surface_unguarded :
  (forall v dir s1 s2 s3 s,
      In s (Analysis.plot_steps s1 s2 s3) ->
      Analysis.checkbutton s <> "Contact surface" ->
      Analysis.requested s v = true ->
      forall p, In p (Analysis.step_files dir s) ->
                In p (Analysis.expected_files v dir s1 s2 s3))
  /\ In (surface_step "A" "A" "B") (Analysis.plot_steps "A" "A" "B")
  /\ Analysis.step_files "/work/Analysis" (surface_step "A" "A" "B")
     = [ "/work/Analysis/contact_surface_A_B.dat";
         "/work/Analysis/ContactSurface_A_B.png" ]
  /\ selections scenario_surface = Some ("A", "A", "B")
  /\ Analysis.expected_files (Analysis.vars scenario_surface)
       "/work/Analysis" "A" "A" "B" = []
  /\ (forall answer,
        let r := Analysis.analyze installed answer scenario_surface surface_disk in
        List.filter is_question (events r) = []
        /\ length (spawned (events r)) = 1%nat)
  /\ (let r := Analysis.read_output installed scenario_surface
                 (Analysis.mkProcess [] [] 0) false false "A" "A" "B"
                 "/work/Analysis" surface_disk in
      surface_disk !! "/work/Analysis/ContactSurface_A_B.png"
      = Some (File ["an earlier image"])
      /\ disk r !! "/work/Analysis/ContactSurface_A_B.png"
         = Some (File ["Contact Surface per Frame - A & B"; "0 10.0"; "1 11.0"])).
Proof.
  split; [exact prompt_covers_step|].
  split; [unfold Analysis.plot_steps, surface_step; in_list|].
  split; [by vm_compute|]. split; [by vm_compute|]. split; [by vm_compute|].
  split; [by intros []; vm_compute|]. by vm_compute.
Qed.

(** * Symbolic runs once the log is in place *)

Lemma bind_append {B} st f line (k : unit -> M B) :
  logged st f = true ->
  bind (append_line (log_path st) line) k f = k tt (record st line f).
Proof.
  intros H. by rewrite (bind_run _ _ _ _ _ _ (append_logged st f line H)), prepend_nil.
Qed.

Lemma bind_logger {B} st f (k : string -> M B) :
  logged st f = true ->
  bind (Analysis.get_analysis_logger (Analysis.working_directory st)) k f
  = k (log_path st) f.
Proof.
  intros H. by rewrite (bind_run _ _ _ _ _ _ (logger_logged st f H)), prepend_nil.
Qed.

Lemma logged_on_disk st f :
  logged st f = true -> on_disk f (Analysis.analysis_dir st) = true.
Proof.
  intros H. destruct (logged_inv st f H) as (wd & ls & _ & Hd & _).
  unfold on_disk. apply bool_decide_eq_true. rewrite Hd. eauto.
Qed.

Lemma fallback_logged st f :
  logged st f = true -> logged st (fallback_record st f) = true.
Proof.
  intros H. unfold fallback_record, entered.
  destruct (_ && _); [by apply record_logged | done].
Qed.

Lemma fallback_on_disk st f p :
  on_disk f p = true -> on_disk (fallback_record st f) p = true.
Proof.
  intros H. unfold fallback_record, entered.
  destruct (_ && _); [by apply record_on_disk | done].
Qed.

Ltac logged_tac := repeat (apply record_logged || apply fallback_logged); assumption.

(** Runs the statement at the head of a [bind]. *)
Ltac exec :=
  unfold Analysis.info, Analysis.warning, Analysis.error, Analysis.exception in *;
  repeat first
    [ rewrite bind_bind
    | rewrite bind_ret
    | rewrite bind_after
    | rewrite bind_tell
    | rewrite bind_return
    | rewrite bind_raise
    | rewrite bind_path_exists
    | rewrite bind_existing
    | rewrite bind_logger by logged_tac
    | rewrite bind_append by logged_tac
    | rewrite prepend_mkRun
    | rewrite prepend_prepend
    | rewrite prepend_nil
    | progress cbv beta ].

Lemma bind_fallback {B} st f (k : unit -> M B) :
  logged st f = true ->
  bind (when (Analysis.advanced_analysis_selected (Analysis.vars st)
              && negb (Py.truthy (Analysis.placeholder_cleared
                                    (Analysis.atom_selection3 st))))
          (append_line (log_path st)
             ("INFO - " +:+ "Selection 3 is empty; using Selection 2 as Selection 3.")))
    k f
  = k tt (fallback_record st f).
Proof.
  intros H. unfold fallback_record, entered, when.
  destruct (_ && _); [by rewrite bind_append | by rewrite bind_ret].
Qed.

Lemma float_or_return_ok {B} value message (k : unit -> M B) f :
  is_Some (Py.float value) ->
  bind (Analysis.float_or_return value message) k f = k tt f.
Proof.
  intros [x Hx]. unfold Analysis.float_or_return. rewrite Hx. apply bind_ret.
Qed.

Lemma float_or_return_bad {B} value message (k : unit -> M B) f :
  Py.float value = None ->
  bind (Analysis.float_or_return value message) k f
  = mkRun Returned f [After (showerror "Error" message)].
Proof.
  intros Hx. unfold Analysis.float_or_return. rewrite Hx. by exec.
Qed.

Lemma analyze_rejects env answer st f cb :
  logged st f = true ->
  code_rejection st = Some cb ->
  exists f' pre,
    Analysis.analyze env answer st f = mkRun Returned f' (pre ++ [After cb])
    /\ (pre = [] \/ pre = [label_of st]).
Proof.
  intros Hl Hc. unfold code_rejection in Hc.
  destruct (logged_inv st f Hl) as (wd & ls & Hwd & _). rewrite Hwd in Hc.
  assert (is_set (Analysis.working_directory st) = Py.truthy wd) as Eis
    by (by rewrite Hwd).
  unfold Analysis.analyze. exec. rewrite Eis.
  destruct (negb (Py.truthy wd)) eqn:Ewd.
  { injection Hc as <-. exec. eexists _, []. split; [reflexivity | by left]. }
  exec. rewrite record_on_disk by (by apply logged_on_disk). cbn [negb]. exec.
  destruct (Py.float (Analysis.time_step st)) as [x|] eqn:Ets; cbn in Hc.
  2:{ injection Hc as <-. rewrite float_or_return_bad by done.
      eexists _, []. split; [reflexivity | by left]. }
  rewrite float_or_return_ok by eauto.
  destruct (Py.float (Analysis.steps_between_frames st)) as [y|] eqn:Esb; cbn in Hc.
  2:{ injection Hc as <-. rewrite float_or_return_bad by done.
      eexists _, []. split; [reflexivity | by left]. }
  rewrite float_or_return_ok by eauto. exec.
  unfold entered in Hc. unfold Analysis.checked_selections.
  destruct (Analysis.validate_selections _ _ _ _) as [[m l|m l]|[[s1 s2] s3]].
  - injection Hc as <-. exec. eexists _, [_]. split; [reflexivity | by right].
  - injection Hc as <-. exec. eexists _, [_]. split; [reflexivity | by right].
  - exec. rewrite bind_fallback by logged_tac. exec.
    destruct (negb (is_set (Analysis.topology_file st))
              || negb (is_set (Analysis.trajectory_file st))); [|done].
    injection Hc as <-. exec. eexists _, [_]. split; [reflexivity | by right].
Qed.

Lemma record_on_disk_eq st f line p :
  logged st f = true -> on_disk (record st line f) p = on_disk f p.
Proof.
  intros H. destruct (logged_inv st f H) as (wd & ls & _ & _ & Hlog).
  unfold on_disk, record. destruct (decide (log_path st = p)) as [<-|Hne].
  - rewrite lookup_insert_eq, Hlog.
    rewrite !bool_decide_eq_true_2; eauto.
  - by rewrite lookup_insert_ne.
Qed.

Lemma filter_on_disk_record st f line l :
  logged st f = true ->
  List.filter (on_disk (record st line f)) l = List.filter (on_disk f) l.
Proof.
  intros H. induction l as [|p l IH]; [done|].
  cbn [List.filter]. by rewrite IH, record_on_disk_eq.
Qed.

Lemma filter_on_disk_fallback st f l :
  logged st f = true ->
  List.filter (on_disk (fallback_record st f)) l = List.filter (on_disk f) l.
Proof.
  intros H. unfold fallback_record, entered. destruct (_ && _); [|done].
  induction l as [|p l IH]; [done|].
  cbn [List.filter]. by rewrite IH, record_on_disk_eq.
Qed.

Lemma filter_before_prompt st f l :
  logged st f = true ->
  List.filter (on_disk (before_prompt st f)) l = List.filter (on_disk f) l.
Proof.
  intros H. unfold before_prompt.
  rewrite filter_on_disk_record by logged_tac.
  rewrite filter_on_disk_fallback by logged_tac.
  by rewrite filter_on_disk_record.
Qed.

Lemma before_prompt_on_disk st f p :
  on_disk f p = true -> on_disk (before_prompt st f) p = true.
Proof.
  intros H. unfold before_prompt.
  by apply record_on_disk, fallback_on_disk, record_on_disk.
Qed.

(** Past the checks, [analyze] has set the label, written two records and
    stands before the overwrite prompt. *)
Lemma analyze_passes env answer st f :
  logged st f = true ->
  code_rejection st = None ->
  exists s1 s2 s3,
    selections st = Some (s1, s2, s3)
    /\ Analysis.analyze env answer st f
       = prepend [label_of st]
           ((Analysis.overwrite_prompt answer st (log_path st)
               (Analysis.expected_files (Analysis.vars st) (Analysis.analysis_dir st)
                  (Py.replace_space "_" s1) (Py.replace_space "_" s2)
                  (Py.replace_space "_" s3)) ;;
             Analysis.running_vmd env st (log_path st) (Analysis.analysis_dir st)
               s1 s2 s3 (Analysis.analysis_code (Analysis.vars st))
               (Analysis.reference_file_value st) (Analysis.skip_entry st))
              (before_prompt st f)).
Proof.
  intros Hl Hc. unfold code_rejection in Hc.
  destruct (logged_inv st f Hl) as (wd & ls & Hwd & _). rewrite Hwd in Hc.
  assert (is_set (Analysis.working_directory st) = Py.truthy wd) as Eis
    by (by rewrite Hwd).
  unfold Analysis.analyze. exec. rewrite Eis.
  destruct (negb (Py.truthy wd)) eqn:Ewd; [done|].
  exec. rewrite record_on_disk by (by apply logged_on_disk). cbn [negb]. exec.
  destruct (Py.float (Analysis.time_step st)) as [x|] eqn:Ets; cbn in Hc; [|done].
  rewrite float_or_return_ok by eauto.
  destruct (Py.float (Analysis.steps_between_frames st)) as [y|] eqn:Esb;
    cbn in Hc; [|done].
  rewrite float_or_return_ok by eauto. exec.
  unfold selections. unfold entered in *. unfold Analysis.checked_selections.
  destruct (Analysis.validate_selections _ _ _ _) as [[m l|m l]|[[s1 s2] s3]];
    try done.
  exec. rewrite bind_fallback by logged_tac. exec.
  destruct (negb (is_set (Analysis.topology_file st))
            || negb (is_set (Analysis.trajectory_file st))); [done|].
  exec. exists s1, s2, s3. split; reflexivity.
Qed.

Lemma prompt_skipped {B} answer st f expected (k : unit -> M B) :
  List.filter (on_disk f) expected = [] ->
  bind (Analysis.overwrite_prompt answer st (log_path st) expected) k f = k tt f.
Proof. intros H. unfold Analysis.overwrite_prompt. exec. rewrite H. by exec. Qed.

Lemma prompt_declined {B} st f expected (k : unit -> M B) :
  logged st f = true ->
  List.filter (on_disk f) expected <> [] ->
  bind (Analysis.overwrite_prompt false st (log_path st) expected) k f
  = mkRun Returned
      (record st ("INFO - "
                    +:+ "User chose not to overwrite existing files. Analysis canceled.")
         f)
      (declined st (List.filter (on_disk f) expected)).
Proof.
  intros Hl H. unfold Analysis.overwrite_prompt, declined. exec.
  destruct (List.filter (on_disk f) expected) as [|p l]; [done|].
  cbn [negb]. exec. unfold when. destruct (Analysis.progress_window st); by exec.
Qed.

Lemma prompt_accepted {B} st f expected (k : unit -> M B) :
  List.filter (on_disk f) expected <> [] ->
  bind (Analysis.overwrite_prompt true st (log_path st) expected) k f
  = prepend [After (askyesno "Overwrite Files?"
                      (Analysis.overwrite_message (List.filter (on_disk f) expected)))]
      (k tt f).
Proof.
  intros H. unfold Analysis.overwrite_prompt. exec.
  destruct (List.filter (on_disk f) expected) as [|p l]; [done|].
  cbn [negb]. by exec.
Qed.

Lemma running_vmd_starts env st f s1 s2 s3 :
  logged st f = true ->
  on_disk f (Py.path_join (script_dir env) "sirah_analysis.tcl") = true ->
  vmd_on_path env = true ->
  spawned (events (Analysis.running_vmd env st (log_path st) (Analysis.analysis_dir st)
                     s1 s2 s3 (Analysis.analysis_code (Analysis.vars st))
                     (Analysis.reference_file_value st) (Analysis.skip_entry st) f))
  = [analysis_command env st s1 s2 s3].
Proof.
  intros Hl Hs Hv. unfold Analysis.running_vmd, try_except. exec.
  rewrite Hs. cbn [negb]. exec. unfold Analysis.popen. rewrite Hv.
  reflexivity.
Qed.

Lemma code_rejection_box st cb :
  code_rejection st = Some cb ->
  (exists t m, cb = showerror t m) \/ (exists t m, cb = showwarning t m).
Proof.
  unfold code_rejection.
  repeat match goal with
         | |- context [if ?b then _ else _] => destruct b
         | |- context [match ?x with _ => _ end] => destruct x
         end; intros H; try discriminate H; injection H as <-; eauto.
Qed.

Lemma first_dialog_rejection st pre cb :
  code_rejection st = Some cb ->
  pre = [] \/ pre = [label_of st] ->
  first_dialog (pre ++ [After cb]) = Some cb.
Proof.
  intros Hc Hpre. apply code_rejection_box in Hc.
  destruct Hc as [(t & m & ->)|(t & m & ->)], Hpre as [->| ->]; reflexivity.
Qed.

Lemma spawned_rejection st pre cb :
  pre = [] \/ pre = [label_of st] -> spawned (pre ++ [After cb]) = [].
Proof. intros [->| ->]; reflexivity. Qed.

Lemma length_app_string s t :
  String.length (s +:+ t) = (String.length s + String.length t)%nat.
Proof. induction s as [|a s IH]; simpl; [done | by rewrite IH]. Qed.

Lemma log_path_not_dir st : log_path st <> Analysis.analysis_dir st.
Proof.
  unfold log_path. generalize (Analysis.analysis_dir st). intros a H.
  apply (f_equal String.length) in H. revert H. unfold Py.path_join.
  change (Py.starts_with_slash "analysis.log") with false. cbv iota.
  destruct (Py.truthy a && negb (Py.ends_with_slash a));
    rewrite ?length_app_string; simpl; lia.
Qed.

(** Once [get_analysis_logger] has returned, as in [run_analysis] before
    it starts the thread of [analyze], the log is in place. *)
Lemma logger_gives_logged st f l :
  result (Analysis.get_analysis_logger (Analysis.working_directory st) f) = Normal l ->
  logged st (disk (Analysis.get_analysis_logger (Analysis.working_directory st) f))
  = true.
Proof.
  pose proof (log_path_not_dir st) as Hne.
  unfold logged, log_path, Analysis.analysis_dir, Analysis.get_analysis_logger in *.
  destruct (Analysis.working_directory st) as [wd|]; [|done].
  cbn [Analysis.str_or_None] in *.
  set (d := Py.path_join wd "Analysis") in *.
  set (p := Py.path_join d "analysis.log") in *.
  unfold bind, makedirs, open_append.
  assert (d <> p) as Hne' by (by apply not_eq_sym).
  destruct (f !! d) as [[|?]|] eqn:Ed; cbn [result disk events prepend]; try done;
    rewrite ?lookup_insert_ne by done;
    destruct (f !! p) as [[|?]|] eqn:Ep; cbn [result disk events prepend]; try done;
    intros _; unfold ret; cbn [disk];
    rewrite ?lookup_insert_eq, ?lookup_insert_ne, ?lookup_insert_eq by done;
    by rewrite ?Ed, ?Ep.
Qed.

Lemma logger_silent wd f : events (Analysis.get_analysis_logger wd f) = [].
Proof.
  unfold Analysis.get_analysis_logger. destruct wd as [wd|]; [|done].
  unfold bind, makedirs, open_append.
  destruct (f !! _) as [[|?]|]; cbn [result disk events prepend]; try done;
    destruct (_ !! _) as [[|?]|]; done.
Qed.

Lemma bind_raised {A B} (m : M A) (k : A -> M B) f e :
  result (m f) = Raised e ->
  bind m k f = mkRun (Raised e) (disk (m f)) (events (m f)).
Proof. intros H. unfold bind. by rewrite H. Qed.

(** When the set-up of the logger raises, [analyze] raises with it: no
    check is made and no box is shown. *)
Lemma analyze_without_logger env answer st f e :
  result (Analysis.get_analysis_logger (Analysis.working_directory st) f) = Raised e ->
  result (Analysis.analyze env answer st f) = Raised e
  /\ events (Analysis.analyze env answer st f) = [].
Proof.
  intros H. unfold Analysis.analyze.
  rewrite (bind_raised _ _ f e H). cbn [result events].
  split; [done | apply logger_silent].
Qed.



(** A negative time step and a skip that is no number pass the checks of
    [analyze]: the engine is started. *)
Lemma negative_time_step_accepted :
  specified_rejection scenario_negative
  = Some (showerror "Error" "Invalid value for 'Time Step'.")
  /\ code_rejection scenario_negative = None
  /\ length (spawned (events (Analysis.analyze installed true scenario_negative
                                logged_disk))) = 1%nat.
Proof. by vm_compute. Qed.

(** * Declining to overwrite *)

Lemma expected_output_set_inv st l :
  expected_output_set st = Some l ->
  code_rejection st = None
  /\ exists s1 s2 s3,
       selections st = Some (s1, s2, s3)
       /\ l = Analysis.expected_files (Analysis.vars st) (Analysis.analysis_dir st)
                (Py.replace_space "_" s1) (Py.replace_space "_" s2)
                (Py.replace_space "_" s3).
Proof.
  unfold expected_output_set. destruct (code_rejection st); [done|].
  destruct (selections st) as [[[s1 s2] s3]|]; [|done].
  intros [= <-]. split; [done|]. by exists s1, s2, s3.
Qed.

Lemma analyze_declined env st f l :
  logged st f = true ->
  expected_output_set st = Some l ->
  List.filter (on_disk f) l <> [] ->
  Analysis.analyze env false st f
  = mkRun Returned
      (record st ("INFO - "
                    +:+ "User chose not to overwrite existing files. Analysis canceled.")
         (before_prompt st f))
      (label_of st :: declined st (List.filter (on_disk f) l)).
Proof.
  intros Hl He Hex. destruct (expected_output_set_inv st l He) as (Hc & s1 & s2 & s3 & Hsel & ->).
  destruct (analyze_passes env false st f Hl Hc) as (t1 & t2 & t3 & Hsel' & ->).
  rewrite Hsel in Hsel'. injection Hsel' as <- <- <-.
  assert (logged st (before_prompt st f) = true) as Hl2
    by (unfold before_prompt; logged_tac).
  rewrite prompt_declined; [|done|].
  - by rewrite filter_before_prompt.
  - by rewrite filter_before_prompt.
Qed.

Lemma no_question evs :
  Forall (fun e => is_question e = false) evs -> List.filter is_question evs = [].
Proof.
  induction 1 as [|e evs He _ IH]; [done|]. cbn [List.filter]. by rewrite He.
Qed.

Lemma running_vmd_asks_nothing env st logger dir s1 s2 s3 code ref skip :
  emits_only (fun e => is_question e = false)
    (Analysis.running_vmd env st logger dir s1 s2 s3 code ref skip).
Proof.
  unfold Analysis.running_vmd, Analysis.popen.
  destruct (vmd_on_path env); emits_tac; reflexivity.
Qed.

(** With a file it expects to write on the disk, [analyze] hands over its
    question right after the label of the reference file, and no second
    one; what follows the question is the end of a declined run or the
    start of the engine. *)
Lemma analyze_asks env answer st f l :
  logged st f = true ->
  expected_output_set st = Some l ->
  List.filter (on_disk f) l <> [] ->
  exists rest,
    events (Analysis.analyze env answer st f)
    = label_of st
      :: After (askyesno "Overwrite Files?"
                  (Analysis.overwrite_message (List.filter (on_disk f) l)))
      :: rest
    /\ List.filter is_question rest = []
    /\ (answer = false -> spawned rest = [])
    /\ (answer = true ->
        on_disk f (Py.path_join (script_dir env) "sirah_analysis.tcl") = true ->
        vmd_on_path env = true ->
        exists s1 s2 s3,
          selections st = Some (s1, s2, s3)
          /\ spawned rest = [analysis_command env st s1 s2 s3]).
Proof.
  intros Hl He Hex. destruct answer.
  - destruct (expected_output_set_inv st l He)
      as (Hc & s1 & s2 & s3 & Hsel & ->).
    destruct (analyze_passes env true st f Hl Hc) as (t1 & t2 & t3 & Hsel' & ->).
    rewrite Hsel in Hsel'. injection Hsel' as <- <- <-.
    assert (logged st (before_prompt st f) = true) as Hl2
      by (unfold before_prompt; logged_tac).
    rewrite prompt_accepted by (by rewrite filter_before_prompt).
    rewrite filter_before_prompt by done.
    rewrite !events_prepend. cbn [app].
    eexists. split; [reflexivity|].
    split; [apply no_question, running_vmd_asks_nothing|].
    split; [done|]. intros _ Hs Hv. exists s1, s2, s3. split; [done|].
    apply running_vmd_starts; [done| |done]. by apply before_prompt_on_disk.
  - rewrite (analyze_declined env st f l Hl He Hex). cbn [events].
    unfold declined. cbn [app]. eexists. split; [reflexivity|].
    split; [by destruct (Analysis.progress_window st)|].
    split; [by destruct (Analysis.progress_window st) | done].
Qed.

Lemma declined_restores st l g :
  let g' := Analysis.mainloop
              (Analysis.scheduled (label_of st :: declined st l)) g in
  Analysis.analyze_button g' = normal /\ Analysis.stop_button g' = disabled
  /\ (Analysis.progress_window st = true -> Analysis.progress_open g' = false).
Proof.
  unfold declined, label_of. destruct (Analysis.progress_window st); cbn; auto.
  split; [done|]. split; [done|]. discriminate.
Qed.

(** C3, as the code has it.  When the checks of [analyze] pass and a file
    it expects to write is on the disk, the run hands over one question,
    before any process: what comes before the question is the label of the
    reference file, and what comes after it holds no second question, no
    process when the user declines, and the one process of the engine when
    the user accepts (the script is there and [vmd] can be run).  A
    declined run hands over, after the question, the callbacks that enable
    "Analyze", disable "Stop" and close the progress window, and changes
    no path but the log file of the tab.  The contacts tab asks its
    question itself, first of all it shows, and on a "no" returns with the
    disk as it was and without a thread. *)
Theorem overwrite_declined :
  (forall env answer st f l,
      logged st f = true ->
      expected_output_set st = Some l ->
      List.filter (on_disk f) l <> [] ->
      exists rest,
        events (Analysis.analyze env answer st f)
        = label_of st
          :: After (askyesno "Overwrite Files?"
                      (Analysis.overwrite_message (List.filter (on_disk f) l)))
          :: rest
        /\ List.filter is_question rest = []
        /\ (answer = false -> spawned rest = [])
        /\ (answer = true ->
            on_disk f (Py.path_join (script_dir env) "sirah_analysis.tcl") = true ->
            vmd_on_path env = true ->
            exists s1 s2 s3,
              selections st = Some (s1, s2, s3)
              /\ spawned rest = [analysis_command env st s1 s2 s3]))
  /\ (forall env st f l,
      logged st f = true ->
      expected_output_set st = Some l ->
      List.filter (on_disk f) l <> [] ->
      let r := Analysis.analyze env false st f in
      result r = Returned
      /\ events r = label_of st :: declined st (List.filter (on_disk f) l)
      /\ List.filter is_question (events r)
         = [After (askyesno "Overwrite Files?"
                     (Analysis.overwrite_message (List.filter (on_disk f) l)))]
      /\ spawned (events r) = []
      /\ (forall p, p <> log_path st -> disk r !! p = f !! p)
      /\ forall g,
           let g' := Analysis.mainloop (Analysis.scheduled (events r)) g in
           Analysis.analyze_button g' = normal
           /\ Analysis.stop_button g' = disabled
           /\ (Analysis.progress_window st = true ->
               Analysis.progress_open g' = false))
  /\ (forall env answer st form job f wd,
        contacts_invalid form = false ->
        is_set (Contacts.topology_file st) = true ->
        is_set (Contacts.trajectory_file st) = true ->
        Contacts.working_directory st = Some wd ->
        f !! Py.path_join wd "Contacts" = Some Dir ->
        on_disk f (Py.path_join (script_dir env) "contacts_distance.tcl") = true ->
        List.filter (on_disk f) (contacts_expected wd form) <> [] ->
        exists rest,
          events (Contacts.run_contacts_analysis env answer st form job f)
          = Direct (askyesno "Overwrite Files?"
                      (Analysis.overwrite_message
                         (List.filter (on_disk f) (contacts_expected wd form))))
            :: rest
          /\ (answer = false -> rest = []))
  /\ (forall env st form job f wd,
        contacts_invalid form = false ->
        is_set (Contacts.topology_file st) = true ->
        is_set (Contacts.trajectory_file st) = true ->
        Contacts.working_directory st = Some wd ->
        f !! Py.path_join wd "Contacts" = Some Dir ->
        on_disk f (Py.path_join (script_dir env) "contacts_distance.tcl") = true ->
        List.filter (on_disk f) (contacts_expected wd form) <> [] ->
        Contacts.run_contacts_analysis env false st form job f
        = mkRun Returned f
            [Direct (askyesno "Overwrite Files?"
                       (Analysis.overwrite_message
                          (List.filter (on_disk f) (contacts_expected wd form))))]).
Proof.
  split; [|split; [|split]].
  - apply analyze_asks.
  - intros env st f l Hl He Hex r. unfold r.
    rewrite (analyze_declined env st f l Hl He Hex). cbn [result events disk].
    split; [done|]. split; [done|].
    split; [unfold declined, label_of; by destruct (Analysis.progress_window st)|].
    split; [unfold declined, label_of; by destruct (Analysis.progress_window st)|].
    split.
    + intros p Hp. unfold before_prompt, fallback_record, entered.
      destruct (_ && _); by rewrite !record_other.
    + intros g. apply declined_restores.
  - intros env answer st form job f wd Hv Ht Hj Hwd Hd Hs Hex.
    unfold Contacts.run_contacts_analysis. unfold contacts_invalid in Hv.
    rewrite Hv, Ht, Hj, Hwd. cbn [negb orb]. exec.
    unfold makedirs at 1. unfold bind at 1. rewrite Hd. cbn [result disk events].
    rewrite prepend_nil. exec. rewrite Hs. cbn [negb]. exec.
    fold (contacts_expected wd form).
    destruct (List.filter (on_disk f) (contacts_expected wd form)) as [|p l];
      [done|].
    destruct answer; cbn [negb]; exec.
    + rewrite events_prepend. cbn [app]. eexists. split; [reflexivity | done].
    + exists []. by split.
  - intros env st form job f wd Hv Ht Hj Hwd Hd Hs Hex.
    unfold Contacts.run_contacts_analysis. unfold contacts_invalid in Hv.
    rewrite Hv, Ht, Hj, Hwd. cbn [negb orb]. exec.
    unfold makedirs at 1. unfold bind at 1. rewrite Hd. cbn [result disk events].
    rewrite prepend_nil. exec. rewrite Hs. cbn [negb]. exec.
    fold (contacts_expected wd form).
    destruct (List.filter (on_disk f) (contacts_expected wd form)) as [|p l];
      [done|].
    cbn [negb]. by exec.
Qed.

(** C3 as stated fails: a run of the analysis tab that the user declines
    has written to the log file of the tab. *)
Lemma declined_overwrite_writes_log :
  ~ (forall st f l,
        expected_output_set st = Some l ->
        List.filter (on_disk f) l <> [] ->
        disk (Analysis.analyze installed false st f) = f).
Proof.
  intros H.
  assert (List.filter (on_disk stale_disk)
            ["/work/Analysis/RMSD_A.dat"; "/work/Analysis/RMSD_A.png"] <> [])
    as Hex by (vm_compute; discriminate).
  specialize (H scenarioA stale_disk
                ["/work/Analysis/RMSD_A.dat"; "/work/Analysis/RMSD_A.png"]
                ltac:(vm_compute; reflexivity) Hex).
  apply (f_equal (fun m => m !! "/work/Analysis/analysis.log")) in H.
  vm_compute in H. discriminate H.
Qed.

(** * Failures in post-processing *)

Lemma safe_ret st {A} (a : A) : safe st (ret a).
Proof. intros f _ e. done. Qed.

Lemma safe_return st {A} : safe st (@return_ A).
Proof. intros f _ e. done. Qed.

Lemma safe_tell st e : safe st (tell e).
Proof. intros f _ e'. done. Qed.

Lemma safe_after st cb : safe st (after cb).
Proof. intros f _ e'. done. Qed.

Lemma safe_path_exists st p : safe st (path_exists p).
Proof. intros f _ e'. done. Qed.

Lemma safe_append st line : safe st (append_line (log_path st) line).
Proof. intros f Hl e. by rewrite append_logged. Qed.

Lemma safe_bind st {A B} (m : M A) (k : A -> M B) :
  safe st m -> keeps m -> (forall a, safe st (k a)) -> safe st (bind m k).
Proof.
  intros Hm Km Hk f Hl e. unfold bind. specialize (Hm f Hl).
  destruct (result (m f)) as [a | | e'] eqn:E; simpl.
  - apply Hk. eapply kept_logged; [apply Km | exact Hl].
  - done.
  - by destruct (Hm e').
Qed.

Lemma safe_logger st {B} (k : string -> M B) :
  safe st (k (log_path st)) ->
  safe st (bind (Analysis.get_analysis_logger (Analysis.working_directory st)) k).
Proof. intros Hk f Hl e. rewrite bind_logger by done. by apply Hk. Qed.

Lemma safe_try_except st {A} (m : M A) h :
  keeps m -> (forall e, safe st (h e)) -> safe st (try_except m h).
Proof.
  intros Km Hh f Hl e. unfold try_except.
  destruct (result (m f)) as [a | | e'] eqn:E; simpl.
  - by rewrite E.
  - by rewrite E.
  - apply Hh. eapply kept_logged; [apply Km | exact Hl].
Qed.

Lemma safe_call st m : safe st m -> safe st (call m).
Proof.
  intros Hm f Hl e. unfold call. specialize (Hm f Hl).
  destruct (result (m f)) as [a | | e'] eqn:E; simpl.
  - by rewrite E.
  - done.
  - by destruct (Hm e').
Qed.

Lemma safe_when st b m : safe st m -> safe st (when b m).
Proof. intros Hm. destruct b; [exact Hm | apply safe_ret]. Qed.

Lemma call_normal st m f :
  safe st m -> logged st f = true -> result (call m f) = Normal tt.
Proof.
  intros Hm Hl. unfold call. specialize (Hm f Hl).
  destruct (result (m f)) as [[] | | e] eqn:E; simpl.
  - exact E.
  - reflexivity.
  - by destruct (Hm e).
Qed.

Lemma plot_failed_safe st what e : safe st (Analysis.plot_failed (log_path st) what e).
Proof.
  unfold Analysis.plot_failed, Analysis.exception.
  apply safe_bind; [apply safe_append | apply keeps_append_line | intros _].
  apply safe_after.
Qed.

Ltac keeps_all :=
  unfold Analysis.parse_or_return, Analysis.data_or_return, Analysis.guarded,
    Analysis.plot_failed; keeps_tac.

Lemma keeps_plot env st dir s : keeps (Analysis.plot env st dir s).
Proof.
  unfold Analysis.plot, Analysis.plot_generic, Analysis.plot_rmsf, Analysis.plot_rdf.
  destruct (Analysis.plots s); keeps_all.
Qed.

Lemma keeps_mark env st text : keeps (Analysis.mark_analysis_completed env st text).
Proof. unfold Analysis.mark_analysis_completed. keeps_tac. Qed.

Lemma keeps_run_step env st dir s : keeps (Analysis.run_step env st dir s).
Proof.
  unfold Analysis.run_step. apply keeps_when. apply keeps_bind.
  - apply keeps_call, keeps_plot.
  - intros _. apply keeps_call, keeps_mark.
Qed.

Lemma keeps_run_steps env st dir l : keeps (Analysis.run_steps env st dir l).
Proof.
  induction l as [|s l IH]; cbn [Analysis.run_steps]; [apply keeps_ret|].
  apply keeps_bind; [apply keeps_run_step | intros _; exact IH].
Qed.

Lemma keeps_generate_pdf env st pdf s1 s2 s3 :
  keeps (Analysis.generate_pdf env st pdf s1 s2 s3).
Proof.
  unfold Analysis.generate_pdf. keeps_tac. intros f. apply kept_refl.
Qed.

Lemma plot_safe env st dir s : safe st (Analysis.plot env st dir s).
Proof.
  unfold Analysis.plot, Analysis.plot_generic, Analysis.plot_rmsf,
    Analysis.plot_rdf, Analysis.info.
  destruct (Analysis.plots s) as [t|t|tg ti];
    (apply safe_bind; [apply safe_tell | apply keeps_tell | intros _];
     apply safe_logger;
     apply safe_bind; [apply safe_append | apply keeps_append_line | intros _];
     apply safe_try_except; [keeps_all | apply plot_failed_safe]).
Qed.

Lemma mark_safe env st text :
  marks env text = true -> safe st (Analysis.mark_analysis_completed env st text).
Proof.
  intros Hm. unfold Analysis.mark_analysis_completed, Analysis.info. rewrite Hm.
  apply safe_bind; [apply safe_tell | apply keeps_tell | intros _].
  apply safe_logger.
  apply safe_bind; [apply safe_append | apply keeps_append_line | intros _].
  apply safe_bind; [apply safe_ret | apply keeps_ret | intros _].
  apply safe_append.
Qed.

(** ** No new directories *)

Lemma tidy_ret st {A} (a : A) : tidy st (ret a).
Proof. by intros f _ p. Qed.

Lemma tidy_return st {A} : tidy st (@return_ A).
Proof. by intros f _ p. Qed.

Lemma tidy_raise st {A} e : tidy st (@raise A e).
Proof. by intros f _ p. Qed.

Lemma tidy_tell st e : tidy st (tell e).
Proof. by intros f _ p. Qed.

Lemma tidy_after st cb : tidy st (after cb).
Proof. by intros f _ p. Qed.

Lemma tidy_path_exists st q : tidy st (path_exists q).
Proof. by intros f _ p. Qed.

Lemma tidy_read_file st q : tidy st (read_file q).
Proof. intros f _ p. unfold read_file. by destruct (f !! q) as [[|?]|]. Qed.

Lemma insert_file_dir (f : gmap string node) q ls p :
  <[q := File ls]> f !! p = Some Dir -> f !! p = Some Dir.
Proof.
  destruct (decide (q = p)) as [<-|Hne].
  - by rewrite lookup_insert_eq.
  - by rewrite lookup_insert_ne.
Qed.

Lemma tidy_append_line st q line : tidy st (append_line q line).
Proof.
  intros f _ p. unfold append_line.
  destruct (f !! q) as [[|?]|]; simpl; try done; apply insert_file_dir.
Qed.

Lemma tidy_write_file st q ls : tidy st (write_file q ls).
Proof.
  intros f _ p. unfold write_file.
  destruct (f !! q) as [[|?]|]; simpl; try done; apply insert_file_dir.
Qed.

Lemma tidy_bind st {A B} (m : M A) (k : A -> M B) :
  tidy st m -> keeps m -> (forall a, tidy st (k a)) -> tidy st (bind m k).
Proof.
  intros Hm Km Hk f Hl p. unfold bind. specialize (Hm f Hl p).
  destruct (result (m f)) as [a | | e]; simpl; auto.
  intros H. apply Hm. eapply Hk; [|exact H].
  eapply kept_logged; [apply Km | exact Hl].
Qed.

Lemma tidy_logger st {B} (k : string -> M B) :
  tidy st (k (log_path st)) ->
  tidy st (bind (Analysis.get_analysis_logger (Analysis.working_directory st)) k).
Proof. intros Hk f Hl p. rewrite bind_logger by done. by apply Hk. Qed.

Lemma tidy_try_except st {A} (m : M A) h :
  tidy st m -> keeps m -> (forall e, tidy st (h e)) -> tidy st (try_except m h).
Proof.
  intros Hm Km Hh f Hl p. unfold try_except. specialize (Hm f Hl p).
  destruct (result (m f)) as [a | | e]; simpl; auto.
  intros H. apply Hm. eapply Hh; [|exact H].
  eapply kept_logged; [apply Km | exact Hl].
Qed.

Lemma tidy_call st m : tidy st m -> tidy st (call m).
Proof.
  intros Hm f Hl p. unfold call. specialize (Hm f Hl p).
  by destruct (result (m f)).
Qed.

Lemma tidy_when st b m : tidy st m -> tidy st (when b m).
Proof. intros Hm. destruct b; [exact Hm | apply tidy_ret]. Qed.

Create HintDb tidy.
#[export] Hint Resolve tidy_ret tidy_return tidy_raise tidy_tell tidy_after
  tidy_path_exists tidy_read_file tidy_append_line tidy_write_file : tidy.

Ltac tidy_tac :=
  repeat first
    [ progress intros
    | solve [ auto with tidy ]
    | apply tidy_logger
    | apply tidy_bind; [ | solve [ keeps_all ] | ]
    | apply tidy_try_except; [ | solve [ keeps_all ] | ]
    | apply tidy_call
    | apply tidy_when
    | match goal with
      | |- tidy _ (if ?b then _ else _) => destruct b
      | |- tidy _ (match ?x with _ => _ end) => destruct x
      end ].

Lemma tidy_plot env st dir s : tidy st (Analysis.plot env st dir s).
Proof.
  unfold Analysis.plot, Analysis.plot_generic, Analysis.plot_rmsf, Analysis.plot_rdf,
    Analysis.parse_or_return, Analysis.data_or_return, Analysis.guarded,
    Analysis.plot_failed, Analysis.info, Analysis.error,
    Analysis.exception.
  destruct (Analysis.plots s); tidy_tac.
Qed.

Lemma tidy_mark env st text : tidy st (Analysis.mark_analysis_completed env st text).
Proof.
  unfold Analysis.mark_analysis_completed, Analysis.info. tidy_tac.
Qed.

(** ** What post-processing enters *)

Lemma plotted_app evs evs' : plotted (evs ++ evs') = plotted evs ++ plotted evs'.
Proof.
  induction evs as [|e evs IH]; simpl; [done|].
  destruct e; simpl; by rewrite ?IH.
Qed.

Lemma reported_app evs evs' : reported (evs ++ evs') = reported evs ++ reported evs'.
Proof.
  induction evs as [|e evs IH]; simpl; [done|].
  destruct e; simpl; by rewrite ?IH.
Qed.

Lemma plotted_routine evs : Forall routine evs -> plotted evs = [].
Proof. induction 1 as [|e evs He _ IH]; simpl; [done|]. by destruct e. Qed.

Lemma reported_routine evs : Forall routine evs -> reported evs = [].
Proof. induction 1 as [|e evs He _ IH]; simpl; [done|]. by destruct e. Qed.

Lemma emits_at E {A} (m : M A) f : emits_only E m -> Forall E (events (m f)).
Proof. intros H. apply H. Qed.

Lemma events_call m f : events (call m f) = events (m f).
Proof. unfold call. by destruct (result (m f)). Qed.

Lemma disk_call m f : disk (call m f) = disk (m f).
Proof. unfold call. by destruct (result (m f)). Qed.

Ltac routine_tac := emits_tac; try exact I.

Lemma plot_events env st dir s f :
  exists evs,
    events (Analysis.plot env st dir s f) = Plot (Analysis.data_file s) :: evs
    /\ Forall routine evs.
Proof.
  unfold Analysis.plot, Analysis.plot_generic, Analysis.plot_rmsf, Analysis.plot_rdf.
  destruct (Analysis.plots s); rewrite bind_tell, events_prepend;
    (eexists; split; [reflexivity|]); cbv beta; apply emits_at;
    unfold Analysis.guarded, Analysis.parse_or_return,
      Analysis.data_or_return, Analysis.plot_failed; routine_tac.
Qed.

Lemma mark_events env st text f :
  Forall routine (events (Analysis.mark_analysis_completed env st text f)).
Proof.
  apply emits_at. unfold Analysis.mark_analysis_completed. routine_tac.
Qed.

Lemma generate_pdf_events env st pdf s1 s2 s3 f :
  exists evs,
    events (Analysis.generate_pdf env st pdf s1 s2 s3 f) = Report pdf :: evs
    /\ Forall routine evs.
Proof.
  unfold Analysis.generate_pdf. rewrite bind_tell, events_prepend.
  eexists; split; [reflexivity|]. cbv beta. apply emits_at.
  apply emits_bind; [auto with emits|intros logger].
  apply emits_bind; [auto with emits|intros _].
  apply emits_bind; [destruct (assembles env); auto with emits|intros _].
  apply emits_try_except.
  - apply emits_bind; [intros f'; constructor|intros pages]. routine_tac.
  - routine_tac.
Qed.

(** ** The image of a plot *)

Lemma file_kept f f' p :
  kept f f' -> (exists ls, f !! p = Some (File ls)) -> exists ls, f' !! p = Some (File ls).
Proof. intros H [ls Hp]. specialize (H p). by rewrite Hp in H. Qed.

Lemma file_on_disk (f : gmap string node) p ls : f !! p = Some (File ls) -> on_disk f p = true.
Proof. intros H. unfold on_disk. apply bool_decide_eq_true. rewrite H. eauto. Qed.

Lemma record_kept st f line : logged st f = true -> kept f (record st line f).
Proof.
  intros H. destruct (logged_inv st f H) as (wd & ls & _ & _ & Hlog).
  apply kept_insert_file. by rewrite Hlog.
Qed.

Lemma record_not_dir st f line p : f !! p <> Some Dir -> record st line f !! p <> Some Dir.
Proof. intros H H'. apply H. eapply insert_file_dir, H'. Qed.

Lemma insert_not_dir (f : gmap string node) q ls p :
  f !! p <> Some Dir -> <[q := File ls]> f !! p <> Some Dir.
Proof. intros H H'. apply H. eapply insert_file_dir, H'. Qed.

Lemma bind_write {B} p ls (k : unit -> M B) f :
  f !! p <> Some Dir -> bind (write_file p ls) k f = k tt (<[p := File ls]> f).
Proof.
  intros H. unfold bind, write_file.
  destruct (f !! p) as [[|ls']|]; simpl; try done; apply prepend_nil.
Qed.

Lemma bind_read {B} p ls (k : list string -> M B) f :
  f !! p = Some (File ls) -> bind (read_file p) k f = k ls f.
Proof. intros H. unfold bind, read_file. rewrite H. simpl. apply prepend_nil. Qed.

Lemma insert_logged st f p ls :
  logged st f = true -> f !! p <> Some Dir -> logged st (<[p := File ls]> f) = true.
Proof. intros H Hp. eapply kept_logged; [|exact H]. by apply kept_insert_file. Qed.

Lemma plot_generic_image env st d t p dir f :
  logged st f = true ->
  renders env d 0 = true ->
  (exists ls, f !! Py.path_join dir d = Some (File ls)) ->
  f !! Py.path_join dir (p +:+ ".png") <> Some Dir ->
  numbers_parse st ->
  exists ls,
    disk (Analysis.plot_generic env st d t p dir f) !! Py.path_join dir (p +:+ ".png")
    = Some (File ls).
Proof.
  intros Hl Hr Hd Hi ([x1 H1] & [x2 H2] & [x3 H3]).
  set (f1 := record st ("INFO - " +:+ "Ploting...") f).
  assert (Hl1 : logged st f1 = true) by by apply record_logged.
  destruct (file_kept f f1 _ (record_kept st f _ Hl) Hd) as [ls Hd1].
  assert (Hi1 : f1 !! Py.path_join dir (p +:+ ".png") <> Some Dir)
    by by apply record_not_dir.
  unfold Analysis.plot_generic, Analysis.guarded,
    Analysis.parse_or_return, Analysis.data_or_return.
  rewrite Hr, H1, H2, H3. exec. fold f1. rewrite disk_prepend.
  unfold try_except. exec.
  rewrite (file_on_disk _ _ _ Hd1). cbn [negb]. exec.
  rewrite (bind_read _ _ _ _ Hd1). exec. rewrite bind_write by done.
  rewrite bind_append by by apply insert_logged.
  simpl. eapply file_kept; [apply record_kept; by apply insert_logged|].
  rewrite lookup_insert_eq. eauto.
Qed.

Lemma plot_rmsf_image env st d t p dir f :
  logged st f = true ->
  renders env d 0 = true ->
  (exists ls, f !! Py.path_join dir d = Some (File ls)) ->
  f !! Py.path_join dir (p +:+ ".png") <> Some Dir ->
  exists ls,
    disk (Analysis.plot_rmsf env st d t p dir f) !! Py.path_join dir (p +:+ ".png")
    = Some (File ls).
Proof.
  intros Hl Hr Hd Hi.
  set (f1 := record st ("INFO - " +:+ "Ploting RMSF...") f).
  assert (Hl1 : logged st f1 = true) by by apply record_logged.
  destruct (file_kept f f1 _ (record_kept st f _ Hl) Hd) as [ls Hd1].
  assert (Hi1 : f1 !! Py.path_join dir (p +:+ ".png") <> Some Dir)
    by by apply record_not_dir.
  unfold Analysis.plot_rmsf, Analysis.guarded, Analysis.data_or_return.
  rewrite Hr. exec. fold f1. rewrite disk_prepend.
  unfold try_except. exec.
  rewrite (file_on_disk _ _ _ Hd1). cbn [negb]. exec.
  rewrite (bind_read _ _ _ _ Hd1). exec. rewrite bind_write by done.
  rewrite bind_append by by apply insert_logged.
  simpl. eapply file_kept; [apply record_kept; by apply insert_logged|].
  rewrite lookup_insert_eq. eauto.
Qed.

(** One statement of a [try] block that ends normally. *)
Lemma try_except_step {A B} (m : M A) (k : A -> M B) h f a f' evs :
  m f = mkRun (Normal a) f' evs ->
  try_except (bind m k) h f = prepend evs (try_except (k a) h f').
Proof.
  intros H. unfold try_except. rewrite (bind_run _ _ _ _ _ _ H).
  rewrite result_prepend, events_prepend, disk_prepend.
  destruct (result (k a f')); [done|done|].
  by rewrite prepend_prepend.
Qed.

Lemma data_or_return_run logger dir d f ls :
  f !! Py.path_join dir d = Some (File ls) ->
  Analysis.data_or_return logger dir d f = mkRun (Normal ls) f [].
Proof.
  intros H. unfold Analysis.data_or_return. exec.
  rewrite (file_on_disk _ _ _ H). cbn [negb]. exec.
  unfold read_file. by rewrite H.
Qed.

Lemma guarded_run env d n f :
  renders env d n = true -> Analysis.guarded env d n f = mkRun (Normal tt) f [].
Proof. intros H. unfold Analysis.guarded. by rewrite H. Qed.

Lemma write_file_run p ls f :
  f !! p <> Some Dir -> write_file p ls f = mkRun (Normal tt) (<[p := File ls]> f) [].
Proof. intros H. unfold write_file. by destruct (f !! p) as [[|?]|]. Qed.

Lemma info_run st f msg :
  logged st f = true ->
  Analysis.info (log_path st) msg f
  = mkRun (Normal tt) (record st ("INFO - " +:+ msg) f) [].
Proof. intros H. unfold Analysis.info. by apply append_logged. Qed.

Lemma keeps_rdf_tail env st d dir p ti data :
  keeps
    (try_except
       (Analysis.guarded env d 1 ;;
        write_file (Py.path_join dir (p +:+ "_integral.png")) (ti :: data) ;;
        Analysis.info (log_path st)
          ("Generated RDF integral plot "
             +:+ Py.path_join dir (p +:+ "_integral.png")) ;;
        return_)
       (Analysis.plot_failed (log_path st) "Failed to generate RDF plot.")).
Proof. keeps_all. Qed.

(** The first image of [plot_rdf] is written once the first figure is
    drawn, whatever becomes of the second. *)
Lemma plot_rdf_g_image env st d p dir tg ti f :
  logged st f = true ->
  renders env d 0 = true ->
  (exists ls, f !! Py.path_join dir d = Some (File ls)) ->
  f !! Py.path_join dir (p +:+ "_g.png") <> Some Dir ->
  exists ls,
    disk (Analysis.plot_rdf env st d p dir tg ti f) !! Py.path_join dir (p +:+ "_g.png")
    = Some (File ls).
Proof.
  intros Hl Hr Hd Hg.
  set (f1 := record st ("INFO - " +:+ "Ploting RDF...") f).
  assert (Hl1 : logged st f1 = true) by by apply record_logged.
  destruct (file_kept f f1 _ (record_kept st f _ Hl) Hd) as [ls Hd1].
  assert (Hg1 : f1 !! Py.path_join dir (p +:+ "_g.png") <> Some Dir)
    by by apply record_not_dir.
  unfold Analysis.plot_rdf.
  rewrite bind_tell, bind_logger, (bind_run _ _ _ _ _ _ (info_run st f _ Hl)) by done.
  fold f1. rewrite prepend_nil, disk_prepend.
  rewrite (try_except_step _ _ _ _ _ _ _ (data_or_return_run _ _ _ _ _ Hd1)).
  rewrite (try_except_step _ _ _ _ _ _ _ (guarded_run _ _ _ _ Hr)).
  rewrite (try_except_step _ _ _ _ _ _ _ (write_file_run _ _ _ Hg1)).
  set (f2 := <[Py.path_join dir (p +:+ "_g.png") := File (tg :: ls)]> f1).
  assert (Hl2 : logged st f2 = true) by by apply insert_logged.
  rewrite (try_except_step _ _ _ _ _ _ _ (info_run st f2 _ Hl2)).
  rewrite !disk_prepend.
  eapply file_kept; [apply keeps_rdf_tail|].
  eapply file_kept; [by apply record_kept|].
  unfold f2. rewrite lookup_insert_eq. eauto.
Qed.

Lemma plot_rdf_integral_image env st d p dir tg ti f :
  logged st f = true ->
  renders env d 0 = true ->
  renders env d 1 = true ->
  (exists ls, f !! Py.path_join dir d = Some (File ls)) ->
  f !! Py.path_join dir (p +:+ "_g.png") <> Some Dir ->
  f !! Py.path_join dir (p +:+ "_integral.png") <> Some Dir ->
  exists ls,
    disk (Analysis.plot_rdf env st d p dir tg ti f)
      !! Py.path_join dir (p +:+ "_integral.png")
    = Some (File ls).
Proof.
  intros Hl Hr0 Hr1 Hd Hg Hi.
  set (f1 := record st ("INFO - " +:+ "Ploting RDF...") f).
  assert (Hl1 : logged st f1 = true) by by apply record_logged.
  destruct (file_kept f f1 _ (record_kept st f _ Hl) Hd) as [ls Hd1].
  assert (Hg1 : f1 !! Py.path_join dir (p +:+ "_g.png") <> Some Dir)
    by by apply record_not_dir.
  unfold Analysis.plot_rdf.
  rewrite bind_tell, bind_logger, (bind_run _ _ _ _ _ _ (info_run st f _ Hl)) by done.
  fold f1. rewrite prepend_nil, disk_prepend.
  rewrite (try_except_step _ _ _ _ _ _ _ (data_or_return_run _ _ _ _ _ Hd1)).
  rewrite (try_except_step _ _ _ _ _ _ _ (guarded_run _ _ _ _ Hr0)).
  rewrite (try_except_step _ _ _ _ _ _ _ (write_file_run _ _ _ Hg1)).
  set (f2 := <[Py.path_join dir (p +:+ "_g.png") := File (tg :: ls)]> f1).
  assert (Hl2 : logged st f2 = true) by by apply insert_logged.
  rewrite (try_except_step _ _ _ _ _ _ _ (info_run st f2 _ Hl2)).
  set (f3 := record st _ f2).
  assert (Hl3 : logged st f3 = true) by by apply record_logged.
  assert (Hi3 : f3 !! Py.path_join dir (p +:+ "_integral.png") <> Some Dir)
    by by apply record_not_dir, insert_not_dir, record_not_dir.
  rewrite (try_except_step _ _ _ _ _ _ _ (guarded_run _ _ _ _ Hr1)).
  rewrite (try_except_step _ _ _ _ _ _ _ (write_file_run _ _ _ Hi3)).
  set (f4 := <[Py.path_join dir (p +:+ "_integral.png") := File (ti :: ls)]> f3).
  assert (Hl4 : logged st f4 = true) by by apply insert_logged.
  rewrite (try_except_step _ _ _ _ _ _ _ (info_run st f4 _ Hl4)).
  rewrite !disk_prepend. unfold try_except, return_. cbn [result disk].
  eapply file_kept; [by apply record_kept|].
  unfold f4. rewrite lookup_insert_eq. eauto.
Qed.

Lemma plot_image env st dir s f n img :
  logged st f = true ->
  can_produce env st dir f s n ->
  Analysis.images (Analysis.plots s) dir (Analysis.output_file_prefix s) !! n
  = Some img ->
  exists ls, disk (Analysis.plot env st dir s f) !! img = Some (File ls).
Proof.
  intros Hl (Hr & Hd & Hi & Hn) Himg. unfold Analysis.plot.
  destruct (Analysis.plots s) as [t | t | tg ti]; cbn [Analysis.images] in Himg, Hi.
  - destruct n as [|n]; [|by destruct n]. injection Himg as <-.
    apply plot_generic_image; auto. apply (Hi 0%nat); [lia | done].
  - destruct n as [|n]; [|by destruct n]. injection Himg as <-.
    apply plot_rmsf_image; auto. apply (Hi 0%nat); [lia | done].
  - destruct n as [|[|n]]; [| |by destruct n].
    + injection Himg as <-. apply plot_rdf_g_image; auto. apply (Hi 0%nat); [lia | done].
    + injection Himg as <-.
      apply plot_rdf_integral_image; auto.
      * apply (Hi 0%nat); [lia | done].
      * apply (Hi 1%nat); [lia | done].
Qed.
(** ** The blocks, one after the other *)

Lemma bind_normal {A B} (m : M A) (k : A -> M B) f a :
  result (m f) = Normal a -> bind m k f = prepend (events (m f)) (k a (disk (m f))).
Proof. intros H. unfold bind. by rewrite H. Qed.

Lemma tidy_run_step env st dir s : tidy st (Analysis.run_step env st dir s).
Proof.
  unfold Analysis.run_step. apply tidy_when.
  apply tidy_bind; [apply tidy_call, tidy_plot | apply keeps_call, keeps_plot |].
  intros _. apply tidy_call, tidy_mark.
Qed.

Lemma can_produce_later env st dir f f' s n :
  kept f f' ->
  (forall p, f' !! p = Some Dir -> f !! p = Some Dir) ->
  can_produce env st dir f s n -> can_produce env st dir f' s n.
Proof.
  intros K T (Hr & Hd & Hi & Hn). split; [exact Hr|]. split; [|split; [|exact Hn]].
  - eapply file_kept; [exact K | exact Hd].
  - intros k img Hk Himg H. apply (Hi k img Hk Himg). by apply T.
Qed.

Lemma run_step_spec env st dir s f :
  logged st f = true ->
  (Analysis.requested s (Analysis.vars st) = true ->
   marks env (Analysis.checkbutton s) = true) ->
  result (Analysis.run_step env st dir s f) = Normal tt
  /\ plotted (events (Analysis.run_step env st dir s f))
     = (if Analysis.requested s (Analysis.vars st) then [Analysis.data_file s] else [])
  /\ reported (events (Analysis.run_step env st dir s f)) = []
  /\ (Analysis.requested s (Analysis.vars st) = true ->
      forall n img,
        can_produce env st dir f s n ->
        Analysis.images (Analysis.plots s) dir (Analysis.output_file_prefix s) !! n
        = Some img ->
        exists ls, disk (Analysis.run_step env st dir s f) !! img = Some (File ls)).
Proof.
  intros Hl Hc. unfold Analysis.run_step, when.
  destruct (Analysis.requested s (Analysis.vars st)) eqn:Hq.
  - pose proof (Hc eq_refl) as Hm.
    pose proof (call_normal st _ f (plot_safe env st dir s) Hl) as R1.
    rewrite (bind_normal _ _ _ _ R1).
    set (f1 := disk (call (Analysis.plot env st dir s) f)).
    assert (Hl1 : logged st f1 = true).
    { eapply kept_logged; [apply keeps_call, keeps_plot | exact Hl]. }
    pose proof (call_normal st _ f1 (mark_safe env st _ Hm) Hl1) as R2.
    rewrite result_prepend, events_prepend, disk_prepend, plotted_app, reported_app,
      !events_call.
    pose proof (mark_events env st (Analysis.checkbutton s) f1) as Hmk.
    rewrite (plotted_routine _ Hmk), (reported_routine _ Hmk).
    destruct (plot_events env st dir s f) as (evs & -> & Hev).
    cbn [plotted reported]. rewrite (plotted_routine _ Hev), (reported_routine _ Hev).
    split; [exact R2|]. split; [done|]. split; [done|].
    intros _ n img Hcp Himg.
    eapply file_kept; [apply keeps_call, keeps_mark|].
    unfold f1. rewrite disk_call. by eapply plot_image.
  - split; [done|]. split; [done|]. split; [done|]. intros H. discriminate H.
Qed.

Lemma run_steps_cons env st dir s l :
  Analysis.run_steps env st dir (s :: l)
  = (Analysis.run_step env st dir s ;; Analysis.run_steps env st dir l).
Proof. reflexivity. Qed.

Lemma tidy_run_steps env st dir l : tidy st (Analysis.run_steps env st dir l).
Proof.
  induction l as [|s l IH]; [apply tidy_ret|]. rewrite run_steps_cons.
  apply tidy_bind; [apply tidy_run_step | apply keeps_run_step | intros _; exact IH].
Qed.

Lemma run_steps_spec env st dir l : forall f,
  logged st f = true ->
  (forall s, In s l -> Analysis.requested s (Analysis.vars st) = true ->
             marks env (Analysis.checkbutton s) = true) ->
  result (Analysis.run_steps env st dir l f) = Normal tt
  /\ plotted (events (Analysis.run_steps env st dir l f))
     = List.map Analysis.data_file
         (List.filter (fun s => Analysis.requested s (Analysis.vars st)) l)
  /\ reported (events (Analysis.run_steps env st dir l f)) = []
  /\ (forall s, In s l -> Analysis.requested s (Analysis.vars st) = true ->
      forall n img,
        can_produce env st dir f s n ->
        Analysis.images (Analysis.plots s) dir (Analysis.output_file_prefix s) !! n
        = Some img ->
        exists ls, disk (Analysis.run_steps env st dir l f) !! img = Some (File ls)).
Proof.
  induction l as [|s l IH]; intros f Hl Hc.
  - split; [done|]. split; [done|]. split; [done|]. intros s [].
  - destruct (run_step_spec env st dir s f Hl (Hc s (or_introl eq_refl)))
      as (R1 & P1 & Q1 & I1).
    rewrite run_steps_cons, (bind_normal _ _ _ _ R1).
    set (f1 := disk (Analysis.run_step env st dir s f)) in *.
    assert (K1 : kept f f1) by apply keeps_run_step.
    assert (Hl1 : logged st f1 = true) by (eapply kept_logged; [exact K1 | exact Hl]).
    destruct (IH f1 Hl1 (fun s' H' => Hc s' (or_intror H'))) as (R2 & P2 & Q2 & I2).
    rewrite result_prepend, events_prepend, disk_prepend, plotted_app, reported_app,
      P1, P2, Q1, Q2.
    split; [exact R2|]. split.
    { cbn [List.filter]. by destruct (Analysis.requested s (Analysis.vars st)). }
    split; [done|].
    intros s' [<-|Hin] Hq n img Hcp Himg.
    + eapply file_kept; [apply keeps_run_steps|]. by eapply I1.
    + apply (I2 s' Hin Hq n); [|exact Himg].
      eapply can_produce_later; [exact K1 | | exact Hcp].
      by apply tidy_run_step.
Qed.

(** ** The report and the handler of post-processing *)

Lemma try_except_bind_normal {A B} (m : M A) (k : A -> M B) h f a :
  result (m f) = Normal a ->
  try_except (bind m k) h f
  = prepend (events (m f)) (try_except (k a) h (disk (m f))).
Proof.
  intros H. unfold try_except. rewrite (bind_normal _ _ _ _ H).
  rewrite result_prepend, events_prepend, disk_prepend.
  destruct (result (k a (disk (m f)))); [done|done|].
  by rewrite prepend_prepend.
Qed.

Lemma bind_pure {A B} (g : gmap string node -> A) (k : A -> M B) f :
  bind (fun f' => mkRun (Normal (g f')) f' []) k f = k (g f) f.
Proof. unfold bind; simpl. apply prepend_nil. Qed.

Lemma call_not_returned m f : result (call m f) <> Returned.
Proof. unfold call. by destruct (result (m f)) eqn:E; simpl; rewrite ?E. Qed.

(** The last statements of [post_process_analysis]: the report, under the
    handler of the function. *)
Lemma report_spec env st s1 s2 s3 dir f :
  logged st f = true ->
  let r :=
    try_except
      (when (Analysis.report_var (Analysis.vars st))
         (call (Analysis.generate_pdf env st (report_path dir s1) s1 s2 s3) ;;
          after (showinfo "Success"
                   ("Analysis report saved as " +:+ report_path dir s1 +:+ ".")) ;;
          Analysis.info (log_path st)
            ("PDF report saved as " +:+ report_path dir s1 +:+ ".")))
      (fun e =>
         Analysis.exception (log_path st) "Post-processing of analysis failed." ;;
         after (showerror "Error"
                  ("Post-processing of analysis failed:" +:+ nl +:+ e))) f in
  result r = Normal tt
  /\ plotted (events r) = []
  /\ reported (events r)
     = (if Analysis.report_var (Analysis.vars st) then [report_path dir s1] else [])
  /\ kept f (disk r).
Proof.
  intros Hl r. subst r. unfold when.
  destruct (Analysis.report_var (Analysis.vars st)).
  2:{ split; [done|]. split; [done|]. split; [done|]. apply kept_refl. }
  set (pdf := report_path dir s1).
  set (gen := call (Analysis.generate_pdf env st pdf s1 s2 s3)).
  set (h := fun e : string => _).
  assert (Kg : kept f (disk (gen f))) by apply keeps_call, keeps_generate_pdf.
  assert (Hlg : logged st (disk (gen f)) = true) by (eapply kept_logged; eauto).
  assert (Eg : exists evs, events (gen f) = Report pdf :: evs /\ Forall routine evs).
  { unfold gen. rewrite events_call. apply generate_pdf_events. }
  destruct Eg as (evs & Eg & Hev).
  set (body := bind gen _).
  destruct (result (gen f)) as [[]| |e] eqn:Rg.
  - assert (Eb : exists line cb,
               body f = mkRun (Normal tt) (record st line (disk (gen f)))
                          (events (gen f) ++ [After cb])).
    { do 2 eexists. unfold body. rewrite (bind_normal _ _ _ _ Rg). exec.
      rewrite append_logged by done. rewrite !prepend_mkRun, app_nil_r.
      reflexivity. }
    destruct Eb as (line & cb & Eb).
    unfold try_except. rewrite Eb. cbn [result events disk].
    rewrite Eg. cbn [plotted reported app]. rewrite plotted_app, reported_app,
      (plotted_routine _ Hev), (reported_routine _ Hev). cbn [plotted reported app].
    split; [done|]. split; [done|]. split; [done|].
    eapply kept_trans; [exact Kg | by apply record_kept].
  - by destruct (call_not_returned _ _ Rg).
  - assert (Eb : body f = mkRun (Raised e) (disk (gen f)) (events (gen f))).
    { unfold body, bind. by rewrite Rg. }
    unfold try_except. rewrite Eb. cbn [result events disk]. unfold h. exec.
    cbn [result events disk after tell prepend].
    rewrite Eg. cbn [plotted reported app]. rewrite plotted_app, reported_app,
      (plotted_routine _ Hev), (reported_routine _ Hev). cbn [plotted reported app].
    split; [done|]. split; [done|]. split; [done|].
    eapply kept_trans; [exact Kg | by apply record_kept].
Qed.

(** ** The pages of the report *)

(** The document [generate_pdf] writes when fpdf goes through. *)
Lemma generate_pdf_run env st pdf s1 s2 s3 f :
  logged st f = true ->
  assembles env = completes ->
  f !! pdf <> Some Dir ->
  let fp := record st ("INFO - " +:+ "Creating PDF...") f in
  let pages :=
    Analysis.pdf_pages fp (Analysis.vars st) (Analysis.analysis_dir st)
      (Py.replace_space "_" s1) (Py.replace_space "_" s2) (Py.replace_space "_" s3) in
  Analysis.generate_pdf env st pdf s1 s2 s3 f
  = mkRun (Normal tt)
      (record st ("INFO - " +:+ "PDF report saved as " +:+ pdf +:+ ".")
         (<[pdf := File (List.map Analysis.page_line pages)]> fp))
      [Report pdf;
       After (showinfo "Success"
                ("PDF report generated successfully: " +:+ pdf +:+ "."))].
Proof.
  intros Hl Ha Hp fp pages. unfold Analysis.generate_pdf. rewrite Ha. exec.
  fold fp.
  assert (Hl1 : logged st fp = true) by by apply record_logged.
  assert (Hp1 : fp !! pdf <> Some Dir) by by apply record_not_dir.
  unfold try_except. rewrite bind_pure. exec.
  rewrite bind_write by done. exec.
  rewrite append_logged by by apply insert_logged.
  reflexivity.
Qed.

Lemma call_run m f a f' evs :
  m f = mkRun (Normal a) f' evs -> call m f = mkRun (Normal tt) f' evs.
Proof. intros H. unfold call. rewrite H. by destruct a. Qed.

Lemma report_run env st s1 s2 s3 dir f h :
  logged st f = true ->
  Analysis.report_var (Analysis.vars st) = true ->
  assembles env = completes ->
  f !! report_path dir s1 <> Some Dir ->
  let fp := record st ("INFO - " +:+ "Creating PDF...") f in
  let pages :=
    Analysis.pdf_pages fp (Analysis.vars st) (Analysis.analysis_dir st)
      (Py.replace_space "_" s1) (Py.replace_space "_" s2) (Py.replace_space "_" s3) in
  disk (try_except
          (when (Analysis.report_var (Analysis.vars st))
             (call (Analysis.generate_pdf env st (report_path dir s1) s1 s2 s3) ;;
              after (showinfo "Success"
                       ("Analysis report saved as " +:+ report_path dir s1 +:+ ".")) ;;
              Analysis.info (log_path st)
                ("PDF report saved as " +:+ report_path dir s1 +:+ ".")))
          h f)
  = record st ("INFO - " +:+ "PDF report saved as " +:+ report_path dir s1 +:+ ".")
      (record st ("INFO - " +:+ "PDF report saved as " +:+ report_path dir s1 +:+ ".")
         (<[report_path dir s1 := File (List.map Analysis.page_line pages)]> fp)).
Proof.
  intros Hl Hrep Ha Hp fp pages. rewrite Hrep. unfold when.
  pose proof (generate_pdf_run env st (report_path dir s1) s1 s2 s3 f Hl Ha Hp) as Hg.
  cbv zeta in Hg. fold fp in Hg. fold pages in Hg.
  assert (Hl1 : logged st fp = true) by by apply record_logged.
  assert (Hp1 : fp !! report_path dir s1 <> Some Dir) by by apply record_not_dir.
  unfold try_except.
  rewrite (bind_run _ _ _ _ _ _ (call_run _ _ _ _ _ Hg)).
  exec. rewrite append_logged
    by (apply record_logged; by apply insert_logged).
  reflexivity.
Qed.

Lemma in_later_pages_page f v dir c1 c2 c3 heading image :
  In (true, heading, image) (Analysis.later_pages v dir c1 c2 c3) ->
  on_disk f image = true ->
  In (heading +:+ ": " +:+ image)
    (List.map Analysis.page_line
       (List.map (fun '(_, heading, image) => Some (heading, image))
          (List.filter (fun '(flag, _, image) => flag && on_disk f image)
             (Analysis.later_pages v dir c1 c2 c3)))).
Proof.
  intros Hin Hon. generalize dependent (Analysis.later_pages v dir c1 c2 c3).
  intros l Hin. induction l as [|[[b h] i] l IH]; [done|].
  destruct Hin as [[= -> -> ->]|Hin]; cbn [List.filter].
  - rewrite Hon. cbn [andb List.map Analysis.page_line]. by left.
  - destruct (b && on_disk f i); [right|]; by apply IH.
Qed.

Lemma page_in_later_pages f v dir c1 c2 c3 line :
  In line
    (List.map Analysis.page_line
       (List.map (fun '(_, heading, image) => Some (heading, image))
          (List.filter (fun '(flag, _, image) => flag && on_disk f image)
             (Analysis.later_pages v dir c1 c2 c3)))) ->
  exists heading image,
    In (true, heading, image) (Analysis.later_pages v dir c1 c2 c3)
    /\ line = heading +:+ ": " +:+ image
    /\ on_disk f image = true.
Proof.
  generalize (Analysis.later_pages v dir c1 c2 c3).
  intros l. induction l as [|[[b h] i] l IH]; [done|].
  cbn [List.filter]. destruct b; cbn [andb].
  - destruct (on_disk f i) eqn:Hon; cbn [List.map Analysis.page_line].
    + intros [<-|Hin].
      * exists h, i. split; [by left | done].
      * destruct (IH Hin) as (h' & i' & H1 & H2 & H3).
        exists h', i'. split; [by right | done].
    + intros Hin. destruct (IH Hin) as (h' & i' & H1 & H2 & H3).
      exists h', i'. split; [by right | done].
  - intros Hin. destruct (IH Hin) as (h' & i' & H1 & H2 & H3).
    exists h', i'. split; [by right | done].
Qed.

(** The pages are those of the kinds asked for whose image is on the
    disk [generate_pdf] looks at. *)
Lemma pdf_pages_spec st s1 s2 s3 f :
  let pages :=
    List.map Analysis.page_line
      (Analysis.pdf_pages f (Analysis.vars st) (Analysis.analysis_dir st)
         (Py.replace_space "_" s1) (Py.replace_space "_" s2)
         (Py.replace_space "_" s3)) in
  (forall heading image,
      In (true, heading, image) (report_entries st s1 s2 s3) ->
      on_disk f image = true ->
      In (heading +:+ ": " +:+ image) pages)
  /\ (forall line,
        In line pages -> line <> "" ->
        exists heading image,
          In (true, heading, image) (report_entries st s1 s2 s3)
          /\ line = heading +:+ ": " +:+ image
          /\ on_disk f image = true).
Proof.
  intros pages. subst pages. unfold Analysis.pdf_pages, report_entries.
  cbn [List.map]. split.
  - intros heading image [[= Hv <- <-]|Hin] Hon.
    + left. rewrite Hv, Hon. reflexivity.
    + right. by apply in_later_pages_page.
  - intros line [<-|Hin] Hne.
    + destruct (Analysis.rmsd_var (Analysis.vars st)) eqn:Hv; [|done].
      destruct (on_disk f _) eqn:Hon; [|done].
      do 2 eexists. split; [by left|]. split; [reflexivity | exact Hon].
    + destruct (page_in_later_pages _ _ _ _ _ _ _ Hin) as (h & i & H1 & H2 & H3).
      exists h, i. split; [by right | done].
Qed.
(** ** The names of the images and of the report *)

Lemma app_string_cons a s t : String a s +:+ t = String a (s +:+ t).
Proof. reflexivity. Qed.

Lemma app_string_assoc s t u : (s +:+ t) +:+ u = s +:+ (t +:+ u).
Proof.
  induction s as [|a s IH]; [done|]. rewrite !app_string_cons. by f_equal.
Qed.

Lemma same_length_suffix t t' : forall s s',
  String.length t = String.length t' -> s +:+ t = s' +:+ t' -> t = t'.
Proof.
  induction s as [|a s IH]; intros [|a' s'] Hlen H.
  - done.
  - apply (f_equal String.length) in H.
    rewrite app_string_cons in H. simpl in H.
    rewrite !length_app_string in H. simpl in H. lia.
  - apply (f_equal String.length) in H.
    rewrite app_string_cons in H. simpl in H.
    rewrite !length_app_string in H. simpl in H. lia.
  - rewrite !app_string_cons in H. injection H as _ H. by apply (IH s').
Qed.

Lemma suffix_app x s t :
  (exists y, s = y +:+ t) -> exists y, x +:+ s = y +:+ t.
Proof. intros [y ->]. exists (x +:+ y). by rewrite app_string_assoc. Qed.

Lemma path_join_suffix a b t :
  Py.starts_with_slash b = false ->
  (exists y, b = y +:+ t) -> exists y, Py.path_join a b = y +:+ t.
Proof.
  intros Hb H. unfold Py.path_join. rewrite Hb.
  destruct (Py.truthy a && negb (Py.ends_with_slash a)).
  - by apply suffix_app, suffix_app.
  - by apply suffix_app.
Qed.

Lemma report_path_pdf dir s1 : exists y, report_path dir s1 = y +:+ ".pdf".
Proof.
  unfold report_path. apply path_join_suffix; [done|].
  apply suffix_app, suffix_app. by exists "".
Qed.

Lemma log_path_log st : exists y, log_path st = y +:+ ".log".
Proof.
  unfold log_path. apply path_join_suffix; [done|]. by exists "analysis".
Qed.

Lemma report_entries_png st s1 s2 s3 flag heading image :
  In (flag, heading, image) (report_entries st s1 s2 s3) ->
  exists y, image = y +:+ ".png".
Proof.
  unfold report_entries, Analysis.later_pages. cbn [In].
  intros H.
  repeat match type of H with
         | _ \/ _ => destruct H as [H|H]
         end; try done;
    injection H as _ _ <-; (apply path_join_suffix; [done|]);
    repeat apply suffix_app;
    first [ by exists "" | by exists "_g" | by exists "_integral" ].
Qed.

Lemma report_not_log st dir s1 : report_path dir s1 <> log_path st.
Proof.
  destruct (report_path_pdf dir s1) as [y ->], (log_path_log st) as [z ->].
  intros H. by apply same_length_suffix in H.
Qed.

Lemma image_not_report st s1 s2 s3 dir c flag heading image :
  In (flag, heading, image) (report_entries st s1 s2 s3) ->
  image <> report_path dir c.
Proof.
  intros Hin. destruct (report_entries_png _ _ _ _ _ _ _ Hin) as [y ->].
  destruct (report_path_pdf dir c) as [z ->].
  intros H. by apply same_length_suffix in H.
Qed.

(** On the disk at the end of a run that has written its report, what is
    there beside the report was there when [generate_pdf] looked. *)
Lemma on_disk_after_report st f pdf pages l2 l3 p :
  logged st f = true ->
  f !! pdf <> Some Dir ->
  p <> pdf ->
  on_disk (record st l3 (record st l2 (<[pdf := File pages]> f))) p = on_disk f p.
Proof.
  intros Hl Hp Hne.
  assert (logged st (<[pdf := File pages]> f) = true) as Hl1
    by by apply insert_logged.
  rewrite !record_on_disk_eq by (done || by apply record_logged).
  unfold on_disk. by rewrite lookup_insert_ne.
Qed.

(** ** Failures in post-processing *)

Lemma marks_steps env v s1 s2 s3 s :
  marks_requested env v s1 s2 s3 ->
  In s (Analysis.plot_steps s1 s2 s3) ->
  Analysis.requested s v = true ->
  marks env (Analysis.checkbutton s) = true.
Proof.
  intros Hc Hin Hq. apply Hc. unfold requested_steps. apply filter_In. by split.
Qed.



(** What that run leaves: every plot function entered, the two other
    images made, the earlier image untouched and in the report. *)
Lemma earlier_image_in_report :
  let r := Analysis.post_process_analysis rmsd_fails_inside scenario_three
             "A" "A" "A" "/work/Analysis" three_disk_stale in
  renders rmsd_fails_inside "RMSD_A.dat" 0 = false
  /\ plotted (events r) = ["RMSD_A.dat"; "RMSF_A.dat"; "RGYR_A.dat"]
  /\ disk r !! "/work/Analysis/RMSD_A.png" = Some (File ["an earlier image"])
  /\ disk r !! "/work/Analysis/Analysis_A.pdf"
     = Some (File [ "RMSD Analysis: /work/Analysis/RMSD_A.png";
                    "RMSF Analysis: /work/Analysis/RMSF_A.png";
                    "Radius of Gyration Analysis: /work/Analysis/RGYR_A.png" ]).
Proof. by vm_compute. Qed.

(** Without an earlier image the first page of the report stays empty. *)
Lemma failed_plot_empty_page :
  let r := Analysis.post_process_analysis rmsd_fails_inside scenario_three
             "A" "A" "A" "/work/Analysis" three_disk in
  disk r !! "/work/Analysis/RMSD_A.png" = None
  /\ disk r !! "/work/Analysis/Analysis_A.pdf"
     = Some (File [ "";
                    "RMSF Analysis: /work/Analysis/RMSF_A.png";
                    "Radius of Gyration Analysis: /work/Analysis/RGYR_A.png" ]).
Proof. by vm_compute. Qed.

(** * Post-processing and the stop flag *)

(** [stop_analysis] leaves the flag set. *)
Lemma stop_analysis_sets st child g f :
  logged st f = true ->
  exists c w, result (Analysis.stop_analysis st child g f) = Normal (c, true, w).
Proof.
  intros Hl. unfold Analysis.stop_analysis. destruct child as [c|].
  - rewrite bind_bind, (bind_run _ _ _ _ _ _ (logger_logged st f Hl)), prepend_nil.
    unfold Analysis.info, Analysis.insert_vmd_output.
    rewrite bind_bind, (bind_run _ _ _ _ _ _ (append_logged st f _ Hl)), prepend_nil.
    rewrite bind_bind, bind_after, bind_ret. simpl. eauto.
  - rewrite bind_ret. simpl. eauto.
Qed.

Lemma keeps_analyze env answer st : keeps (Analysis.analyze env answer st).
Proof.
  unfold Analysis.analyze, Analysis.checked_selections, Analysis.float_or_return,
    Analysis.overwrite_prompt, Analysis.running_vmd, Analysis.popen.
  keeps_tac.
Qed.

(** [run_analysis] returns, with the flag cleared. *)
Lemma run_analysis_clears env answer st g f :
  logged st f = true ->
  exists g',
    result (Analysis.run_analysis env answer st g f)
    = Normal (Analysis.with_progress_window true st, false, g').
Proof.
  intros Hl. unfold Analysis.run_analysis.
  rewrite bind_logger, (bind_run _ _ _ _ _ _ (info_run st f _ Hl)), prepend_nil by done.
  set (f1 := record st _ f).
  assert (Hl1 : logged st f1 = true) by by apply record_logged.
  set (st' := Analysis.with_progress_window true st).
  assert (Hl' : logged st' (disk (call (Analysis.analyze env answer st') f1)) = true).
  { eapply kept_logged; [apply keeps_call, keeps_analyze | exact Hl1]. }
  match goal with
  | |- context [bind (try_except ?m ?h) ?k f1] =>
      assert (R : result (try_except m h f1) = Normal tt)
  end.
  { unfold try_except.
    destruct (result (call (Analysis.analyze env answer st') f1)) as [[]| |e] eqn:E.
    - exact E.
    - by destruct (call_not_returned _ _ E).
    - rewrite result_prepend. unfold Analysis.exception.
      rewrite (bind_run _ _ _ _ _ _ (append_logged st' _ _ Hl')). reflexivity. }
  rewrite (bind_normal _ _ _ _ R), result_prepend. cbn [ret result]. eauto.
Qed.


(** * Instances *)


